(** * bswebpilot: locators and the two browser-session wrappers

    A shallow embedding of

    - [bswebpilot/utils/locator.py]        (class [BSLocator]),
    - [bswebpilot/bsplaywright/bscmfx.py]  (class [BSCmfx], the Camoufox /
      Playwright wrapper),
    - [bswebpilot/bsselenium/webdriver.py] (class [BSWebDriver], the
      Selenium wrapper),

    followed by the properties of these operations.

    Python [str] values are modelled as [string]; a character stands for a
    code point in U+0000..U+00FF.  Exceptions are values of [exn]; a method
    that may raise returns a [result].  The two automation engines are
    third-party code: their calls are commands answered by an engine
    transition function that the wrappers are parameterised by, and every
    command a wrapper issues is recorded, in order, in the session. *)

From Stdlib Require Import ZArith QArith String Ascii List Bool Lia.
From Stdlib Require Import DecimalString.
Import ListNotations.

Local Close Scope Q_scope.
Local Open Scope Z_scope.
Local Open Scope list_scope.
Local Open Scope string_scope.

(** ** The Python runtime pieces the code relies on *)

Module Py.

(** [str.isspace] on one character, for code points below 256:
    TAB..CR, FS..US, SPACE, NEL and NBSP. *)
Definition isspace (c : ascii) : bool :=
  let n := nat_of_ascii c in
  (((9 <=? n) && (n <=? 13)) || ((28 <=? n) && (n <=? 32))
   || (n =? 133) || (n =? 160))%nat.

Definition is_empty (s : string) : bool :=
  match s with EmptyString => true | String _ _ => false end.

(** Truth value of a [str]: the empty string is falsy. *)
Definition truthy (s : string) : bool := negb (is_empty s).

Fixpoint lstrip (s : string) : string :=
  match s with
  | EmptyString => EmptyString
  | String c r => if isspace c then lstrip r else s
  end.

Fixpoint rstrip (s : string) : string :=
  match s with
  | EmptyString => EmptyString
  | String c r =>
      let r' := rstrip r in
      if isspace c && is_empty r' then EmptyString else String c r'
  end.

(** [s.strip()] *)
Definition strip (s : string) : string := rstrip (lstrip s).

(** [s.split(sep)] for a one-character separator: every occurrence of
    [sep] cuts, empty pieces are kept, and the result is never empty. *)
Fixpoint split (sep : ascii) (s : string) : list string :=
  match s with
  | EmptyString => [EmptyString]
  | String c r =>
      if Ascii.eqb c sep then EmptyString :: split sep r
      else match split sep r with
           | p :: ps => String c p :: ps
           | [] => [String c EmptyString]
           end
  end.

(** [sep.join(xs)] *)
Definition join (sep : string) (xs : list string) : string :=
  String.concat sep xs.

(** [str(i)] / [f"{i}"] for an [int]. *)
Definition str_of_int (i : Z) : string :=
  NilZero.string_of_int (Z.to_int i).

(** [str.lower] on one character, for code points below 256: the
    upper-case letters A..Z, U+00C0..U+00D6 and U+00D8..U+00DE move up
    by 32. *)
Definition lower_char (c : ascii) : ascii :=
  let n := nat_of_ascii c in
  if (((65 <=? n) && (n <=? 90)) || ((192 <=? n) && (n <=? 214))
      || ((216 <=? n) && (n <=? 222)))%nat
  then ascii_of_nat (n + 32) else c.

Fixpoint lower (s : string) : string :=
  match s with
  | EmptyString => EmptyString
  | String c r => String (lower_char c) (lower r)
  end.

End Py.

(** ** Exceptions and results *)

Inductive exn : Type :=
| Exception (msg : string)
| ValueError (msg : string)
| AttributeError (msg : string)
| AssertionError (msg : string)
| PlaywrightError (msg : string)
| PlaywrightTimeoutError (msg : string)
| WebDriverException (msg : string)
| NoSuchElementException (msg : string)
| TimeoutException (msg : string)
| ElementClickInterceptedException (msg : string).

(** The classes named in the [except] clauses of the source. *)
Inductive exn_class : Type :=
| cls_Exception
| cls_AssertionError
| cls_PlaywrightTimeoutError
| cls_NoSuchElementException
| cls_TimeoutException
| cls_ElementClickInterceptedException.

(** [isinstance(e, cls)], following the class hierarchies of Python,
    Playwright and Selenium. *)
Definition isinstance (e : exn) (c : exn_class) : bool :=
  match c, e with
  | cls_Exception, _ => true
  | cls_AssertionError, AssertionError _ => true
  | cls_PlaywrightTimeoutError, PlaywrightTimeoutError _ => true
  | cls_NoSuchElementException, NoSuchElementException _ => true
  | cls_TimeoutException, TimeoutException _ => true
  | cls_ElementClickInterceptedException,
    ElementClickInterceptedException _ => true
  | _, _ => false
  end.

Inductive result (A : Type) : Type :=
| Ok (a : A)
| Err (e : exn).
Arguments Ok {A} a.
Arguments Err {A} e.

Definition is_ok {A} (r : result A) : bool :=
  match r with Ok _ => true | Err _ => false end.

(** ** [utils/locator.py] *)

(** The eight constants of selenium's [By]. *)
Inductive By : Type :=
| ID | NAME | CLASS_NAME | TAG_NAME
| CSS_SELECTOR | XPATH | LINK_TEXT | PARTIAL_LINK_TEXT.

(** The string each constant is bound to. *)
Definition By_str (b : By) : string :=
  match b with
  | ID => "id"
  | NAME => "name"
  | CLASS_NAME => "class name"
  | TAG_NAME => "tag name"
  | CSS_SELECTOR => "css selector"
  | XPATH => "xpath"
  | LINK_TEXT => "link text"
  | PARTIAL_LINK_TEXT => "partial link text"
  end.

Definition By_eqb (a b : By) : bool :=
  match a, b with
  | ID, ID | NAME, NAME | CLASS_NAME, CLASS_NAME | TAG_NAME, TAG_NAME
  | CSS_SELECTOR, CSS_SELECTOR | XPATH, XPATH | LINK_TEXT, LINK_TEXT
  | PARTIAL_LINK_TEXT, PARTIAL_LINK_TEXT => true
  | _, _ => false
  end.

(** A locator.  The field [by] of the source is [by_] here ([by] is
    reserved); it holds one of the [By] constants: the factories store the
    constant itself, so the source's [self.by is By.XPATH] is the
    comparison of constants.  [value] is the selector text. *)
Record BSLocator : Type := mkBSLocator { by_ : By; value : string }.

Module Locator.

Definition as_tuple (self : BSLocator) : string * string :=
  (By_str (by_ self), value self).

Definition id (element_id : string) : BSLocator := mkBSLocator ID element_id.
Definition name (n : string) : BSLocator := mkBSLocator NAME n.
Definition class_name (c : string) : BSLocator := mkBSLocator CLASS_NAME c.
Definition tag_name (t : string) : BSLocator := mkBSLocator TAG_NAME t.
Definition css (css_selector : string) : BSLocator :=
  mkBSLocator CSS_SELECTOR css_selector.
Definition xpath (x : string) : BSLocator := mkBSLocator XPATH x.
Definition link_text (t : string) : BSLocator := mkBSLocator LINK_TEXT t.
Definition partial_link_text (t : string) : BSLocator :=
  mkBSLocator PARTIAL_LINK_TEXT t.

(** The factory for each constant. *)
Definition make (b : By) (v : string) : BSLocator :=
  match b with
  | ID => id v
  | NAME => name v
  | CLASS_NAME => class_name v
  | TAG_NAME => tag_name v
  | CSS_SELECTOR => css v
  | XPATH => xpath v
  | LINK_TEXT => link_text v
  | PARTIAL_LINK_TEXT => partial_link_text v
  end.

Definition get_descendant (self other : BSLocator) : result BSLocator :=
  if By_eqb (by_ self) XPATH then
    Ok (xpath (value self ++ value other))
  else if By_eqb (by_ self) CSS_SELECTOR then
    let subselectors : list string :=
      map Py.strip (Py.split "," (value self)) in
    Ok (css (Py.join ", "
               (map (fun ss => ss ++ " " ++ value other)
                    (filter Py.truthy subselectors))))
  else Err (Exception "BSLocator Concatenation Error").

Definition get_nth_element (self : BSLocator) (i : Z) : result BSLocator :=
  if By_eqb (by_ self) XPATH then
    Ok (xpath ("(" ++ value self ++ ")[" ++ Py.str_of_int i ++ "]"))
  else if By_eqb (by_ self) CSS_SELECTOR then
    Ok (css (Py.join ", "
               (map (fun ss =>
                       Py.strip ss ++ ":nth-child(" ++ Py.str_of_int i ++ ")")
                    (filter (fun ss => Py.truthy (Py.strip ss))
                            (Py.split "," (value self))))))
  else Err (Exception ("Error getting " ++ Py.str_of_int i
                       ++ "-th child of " ++ value self)).

End Locator.

(** *** Locators as objects

    A [BSLocator] is a Python object.  Objects live in a store and are
    named by references; the constructor call [BSLocator(by, value)] made
    by the factories allocates a new object, and no method of the class
    assigns to a field of an existing one. *)

Module LocatorObjects.

Definition ref : Type := nat.
Definition store : Type := list BSLocator.

Definition deref (h : store) (r : ref) : option BSLocator := nth_error h r.

(** [BSLocator(by, value)]: [__init__] fills the fields of a fresh
    object. *)
Definition new (l : BSLocator) (h : store) : ref * store :=
  (length h, (h ++ [l])%list).

(** Runs a method whose only store effect is the construction of its
    result. *)
Definition constructing (r : result BSLocator) (h : store)
  : result ref * store :=
  match r with
  | Ok l => let (r', h') := new l h in (Ok r', h')
  | Err e => (Err e, h)
  end.

Definition get_descendant (self other : ref) (h : store)
  : option (result ref * store) :=
  match deref h self, deref h other with
  | Some s, Some o => Some (constructing (Locator.get_descendant s o) h)
  | _, _ => None
  end.

Definition get_nth_element (self : ref) (i : Z) (h : store)
  : option (result ref * store) :=
  match deref h self with
  | Some s => Some (constructing (Locator.get_nth_element s i) h)
  | None => None
  end.

End LocatorObjects.

(** ** A monad for the wrappers: session state and exceptions *)

Definition M (W A : Type) : Type := W -> result A * W.

Section Monad.
Context {W : Type}.

Definition ret {A} (a : A) : M W A := fun w => (Ok a, w).

Definition raise {A} (e : exn) : M W A := fun w => (Err e, w).

Definition lift {A} (r : result A) : M W A := fun w => (r, w).

Definition bind {A B} (m : M W A) (f : A -> M W B) : M W B :=
  fun w =>
    match m w with
    | (Ok a, w') => f a w'
    | (Err e, w') => (Err e, w')
    end.

(** [try: body / except cls as e: handler e].  The state reached when
    the exception was raised is the one the handler starts from. *)
Definition try_except {A} (body : M W A) (cls : exn_class)
           (handler : exn -> M W A) : M W A :=
  fun w =>
    match body w with
    | (Ok a, w') => (Ok a, w')
    | (Err e, w') =>
        if isinstance e cls then handler e w' else (Err e, w')
    end.

(** Two [except] clauses, tried in order. *)
Definition try_except2 {A} (body : M W A)
           (cls1 : exn_class) (handler1 : exn -> M W A)
           (cls2 : exn_class) (handler2 : exn -> M W A) : M W A :=
  fun w =>
    match body w with
    | (Ok a, w') => (Ok a, w')
    | (Err e, w') =>
        if isinstance e cls1 then handler1 e w'
        else if isinstance e cls2 then handler2 e w'
        else (Err e, w')
    end.

End Monad.

Declare Scope monad_scope.
Delimit Scope monad_scope with monad.
Notation "x <- m ;; k" := (bind m (fun x => k))
  (at level 61, m at next level, right associativity) : monad_scope.
Notation "m ;; k" := (bind m (fun _ => k))
  (at level 61, right associativity) : monad_scope.
Local Open Scope monad_scope.

(** ** The Playwright side: what [bscmfx.py] asks of the engine *)

Module Playwright.

(** Handles of engine objects (the Camoufox instance, the browser, the
    page). *)
Definition handle : Type := nat.

(** A Playwright [Locator] is a description that is resolved only when
    an action or an expectation is awaited on it. *)
Inductive Locator : Type :=
| Page_locator (page : handle) (selector : string)
| First (l : Locator)
| Nth (l : Locator) (index : Z)
| Filter_has_text (l : Locator) (text : string)
| Filter_has_not_text (l : Locator) (text : string).

(** The awaited engine calls, indexed by the type of their value.
    Timeouts are in milliseconds. *)
Inductive call : Type -> Type :=
| expect_to_be_attached (l : Locator) (timeout : Q) : call unit
| is_visible (l : Locator) (timeout : Q) : call bool
| inner_text (l : Locator) (timeout : Q) : call string
| all_inner_texts (l : Locator) : call (list string)
| wait_for_attached (l : Locator) (timeout : Q) : call unit
| count (l : Locator) : call Z
| get_attribute (l : Locator) (name : string) (timeout : Q)
  : call (option string)
| click (l : Locator) (timeout : Q) : call unit
| camoufox_aexit (instance : handle) : call unit
| asyncio_sleep (delay : Q) : call unit.

Inductive event : Type :=
| issued {X : Type} (c : call X).

(** What a locator description denotes on a page, given the elements a
    selector matches and the engine's text test. *)
Section Denotation.
Variable element : Type.
Variable select : handle -> string -> list element.
Variable has_text : element -> string -> bool.

Fixpoint denote (l : Locator) : list element :=
  match l with
  | Page_locator page selector => select page selector
  | First l' => firstn 1 (denote l')
  | Nth l' index =>
      if (index <? 0)%Z then
        firstn 1 (skipn (Z.to_nat (Z.of_nat (length (denote l')) + index))
                        (denote l'))
      else firstn 1 (skipn (Z.to_nat index) (denote l'))
  | Filter_has_text l' text =>
      filter (fun e => has_text e text) (denote l')
  | Filter_has_not_text l' text =>
      filter (fun e => negb (has_text e text)) (denote l')
  end.
End Denotation.

End Playwright.

(** ** [bsplaywright/bscmfx.py] *)

Module Cmfx.
Import Playwright.

(** The three attributes of a [BSCmfx] instance that hold engine
    objects; each is [None] until [initialize] and after [quit]. *)
Record BSCmfx : Type := mkBSCmfx {
  _camoufox_instance : option handle;
  browser : option handle;
  page : option handle
}.

Section Wrapper.
(** The engine: its state and how it answers a call. *)
Variable Engine : Type.
Variable engine_step : forall X, call X -> Engine -> result X * Engine.

Record Session : Type := mkSession {
  self : BSCmfx;
  engine : Engine;
  calls : list event
}.

Definition await {X} (c : call X) : M Session X :=
  fun s =>
    let (r, e') := engine_step X c (engine s) in
    (r, mkSession (self s) e' (calls s ++ [issued c])%list).

Definition get_self : M Session BSCmfx := fun s => (Ok (self s), s).

Definition set_self (v : BSCmfx) : M Session unit :=
  fun s => (Ok tt, mkSession v (engine s) (calls s)).

Definition get_pw_locator (locator : BSLocator) : result string :=
  if String.eqb (By_str (by_ locator)) "css selector" then
    Ok (value locator)
  else if String.eqb (By_str (by_ locator)) "xpath" then
    Ok ("xpath=" ++ value locator)
  else
    Err (ValueError ("Tipo de selector no v" ++
                     String (ascii_of_nat 225) "lido: " ++
                     By_str (by_ locator))).

(** [self.page.locator(self.get_pw_locator(locator))]: the attribute
    [locator] of [self.page] is looked up before the argument is
    evaluated, and fails on [None]. *)
Definition self_page_locator (locator : BSLocator) : M Session Locator :=
  me <- get_self ;;
  match page me with
  | None =>
      raise (AttributeError
               "'NoneType' object has no attribute 'locator'")
  | Some pg =>
      selector <- lift (get_pw_locator locator) ;;
      ret (Page_locator pg selector)
  end.

Definition wait_static (wait_time : Q) : M Session unit :=
  await (asyncio_sleep wait_time).

Definition is_element_present (locator : BSLocator) (timeout : Q)
  : M Session bool :=
  try_except
    (l <- self_page_locator locator ;;
     await (expect_to_be_attached (First l) (timeout * 1000)%Q) ;;
     ret true)
    cls_AssertionError (fun _ => ret false).

Definition is_element_visible (locator : BSLocator) (timeout : Q)
  : M Session bool :=
  try_except
    (l <- self_page_locator locator ;;
     await (is_visible (First l) (timeout * 1000)%Q))
    cls_PlaywrightTimeoutError (fun _ => ret false).

Definition wait_element_to_be_present (locator : BSLocator) (timeout : Q)
  : M Session unit :=
  l <- self_page_locator locator ;;
  await (expect_to_be_attached (First l) (timeout * 1000)%Q).

Definition get_attribute_value (locator : BSLocator) (attr : string)
           (timeout : Q) : M Session (option string) :=
  l <- self_page_locator locator ;;
  await (get_attribute l attr (timeout * 1000)%Q).

(** [attribute_value] is a [str] or [None]; [None] has no [lower], and
    [None == content] is [False]. *)
Definition check_attribute_is_equals (locator : BSLocator)
           (attr content : string) (ignore_case : bool) (timeout : Q)
  : M Session bool :=
  attribute_value <- get_attribute_value locator attr timeout ;;
  if ignore_case then
    match attribute_value with
    | Some a => ret (String.eqb (Py.lower a) (Py.lower content))
    | None =>
        raise (AttributeError
                 "'NoneType' object has no attribute 'lower'")
    end
  else
    match attribute_value with
    | Some a => ret (String.eqb a content)
    | None => ret false
    end.

Definition get_element_text (locator : BSLocator) (timeout : Q)
           (raise_exception : bool) : M Session (option string) :=
  try_except
    (l <- self_page_locator locator ;;
     t <- await (inner_text (First l) (timeout * 1000)%Q) ;;
     ret (Some t))
    cls_PlaywrightTimeoutError
    (fun e => if raise_exception then raise e else ret None).

(** The [try] block either finishes, leaving [pw_locator] bound, or
    the handler returns the empty list. *)
Definition get_elements_text (locator : BSLocator) (timeout : Q)
  : M Session (list string) :=
  bound <-
    try_except
      (wait_element_to_be_present locator timeout ;;
       pw_locator <- self_page_locator locator ;;
       await (expect_to_be_attached (First pw_locator)
                                    (timeout * 1000)%Q) ;;
       ret (Some pw_locator))
      cls_AssertionError (fun _ => ret None) ;;
  match bound with
  | None => ret []
  | Some pw_locator => await (all_inner_texts pw_locator)
  end.

Definition get_elements_count (locator : BSLocator) (timeout : Q)
  : M Session Z :=
  pw_loc <- self_page_locator locator ;;
  try_except
    (await (wait_for_attached (First pw_loc) (timeout * 1000)%Q) ;;
     await (count pw_loc))
    cls_PlaywrightTimeoutError (fun _ => ret 0%Z).

Definition click_element (locator : BSLocator) (timeout : Q)
  : M Session unit :=
  l <- self_page_locator locator ;;
  await (click l (timeout * 1000)%Q).

Definition click_nth_element (locator : BSLocator) (index : Z)
           (timeout : Q) : M Session unit :=
  l <- self_page_locator locator ;;
  await (click (Nth l index) (timeout * 1000)%Q).

(** The two [for] loops of [click_element_by_partial_texts]. *)
Definition narrow (loc : Locator)
           (partial_containing_texts : list string)
           (partial_non_containing_texts : option (list string))
  : Locator :=
  let loc1 :=
    fold_left (fun l pt => Filter_has_text l pt)
              partial_containing_texts loc in
  fold_left (fun l pt => Filter_has_not_text l pt)
            (match partial_non_containing_texts with
             | Some texts => texts
             | None => []
             end)
            loc1.

Definition click_element_by_partial_texts (locator : BSLocator)
           (partial_containing_texts : list string)
           (partial_non_containing_texts : option (list string))
           (timeout : Q) : M Session bool :=
  wait_element_to_be_present locator timeout ;;
  loc_to_click <- self_page_locator locator ;;
  try_except
    (let loc_to_click :=
       narrow loc_to_click partial_containing_texts
              partial_non_containing_texts in
     await (click (First loc_to_click) (timeout * 1000)%Q) ;;
     ret true)
    cls_PlaywrightTimeoutError (fun _ => ret false).

(** [hasattr(self, '_camoufox_instance')] always holds: the class
    defines the attribute.  An engine instance is truthy, [None] is
    not. *)
Definition quit : M Session unit :=
  me <- get_self ;;
  match _camoufox_instance me with
  | Some instance =>
      await (camoufox_aexit instance) ;;
      me <- get_self ;;
      set_self (mkBSCmfx None (browser me) (page me)) ;;
      me <- get_self ;;
      set_self (mkBSCmfx (_camoufox_instance me) None (page me)) ;;
      me <- get_self ;;
      set_self (mkBSCmfx (_camoufox_instance me) (browser me) None)
  | None => ret tt
  end.

(** [__aexit__] of the wrapper. *)
Definition __aexit__ : M Session unit := quit.

End Wrapper.

Arguments mkSession {Engine} self engine calls.
Arguments self {Engine} s.
Arguments engine {Engine} s.
Arguments calls {Engine} s.
Arguments await {Engine} engine_step {X} c s.
Arguments self_page_locator {Engine} locator s.
Arguments wait_static {Engine} engine_step wait_time s.
Arguments is_element_present {Engine} engine_step locator timeout s.
Arguments is_element_visible {Engine} engine_step locator timeout s.
Arguments wait_element_to_be_present {Engine} engine_step locator timeout s.
Arguments get_attribute_value {Engine} engine_step locator attr timeout s.
Arguments check_attribute_is_equals {Engine} engine_step locator attr
  content ignore_case timeout s.
Arguments get_element_text {Engine} engine_step locator timeout
  raise_exception s.
Arguments get_elements_text {Engine} engine_step locator timeout s.
Arguments get_elements_count {Engine} engine_step locator timeout s.
Arguments click_element {Engine} engine_step locator timeout s.
Arguments click_nth_element {Engine} engine_step locator index timeout s.
Arguments click_element_by_partial_texts {Engine} engine_step locator
  partial_containing_texts partial_non_containing_texts timeout s.
Arguments quit {Engine} engine_step s.
Arguments __aexit__ {Engine} engine_step s.
End Cmfx.

(** ** The Selenium side: what [webdriver.py] asks of the driver *)

Module Selenium.

(** A [WebElement] is a reference to an element of the page. *)
Definition WebElement : Type := nat.

(** The expected conditions the wrapper waits for, each applied to
    [locator.as_tuple()]. *)
Inductive condition : Type :=
| presence_of_element_located (locator : string * string)
| visibility_of_element_located (locator : string * string)
| invisibility_of_element_located (locator : string * string)
| element_to_be_clickable (locator : string * string).

(** The driver calls, indexed by the type of their value.
    [WebDriverWait_until t c] is [WebDriverWait(driver, t).until(c)]. *)
Inductive call : Type -> Type :=
| driver_find_element (by_ value : string) : call WebElement
| driver_find_elements (by_ value : string) : call (list WebElement)
| WebDriverWait_until (timeout : Q) (c : condition) : call unit
| element_text (e : WebElement) : call string
| element_is_displayed (e : WebElement) : call bool
| element_click (e : WebElement) : call unit
| driver_quit : call unit
| time_sleep (delay : Q) : call unit.

Inductive event : Type :=
| issued {X : Type} (c : call X).

End Selenium.

(** ** [bsselenium/webdriver.py] *)

Module WebDriver.
Import Selenium.

Section Wrapper.
Variable Driver : Type.
Variable driver_step : forall X, call X -> Driver -> result X * Driver.

Record Session : Type := mkSession {
  driver : Driver;
  calls : list event
}.

Definition invoke {X} (c : call X) : M Session X :=
  fun s =>
    let (r, d') := driver_step X c (driver s) in
    (r, mkSession d' (calls s ++ [issued c])%list).

Definition quit : M Session unit := invoke driver_quit.

Definition wait_static (wait_time : Q) : M Session unit :=
  invoke (time_sleep wait_time).

(** [find_element] calls itself, with [retry] set to [False]; [depth]
    bounds the nesting of calls. *)
Fixpoint find_element_at (depth : nat) (locator : BSLocator)
         (retry : bool) : M Session WebElement :=
  match depth with
  | O => raise (Exception "maximum recursion depth exceeded")
  | S depth' =>
      try_except
        (invoke (driver_find_element (By_str (by_ locator))
                                     (value locator)))
        cls_NoSuchElementException
        (fun e =>
           if negb retry then raise e
           else find_element_at depth' locator false)
  end.

Definition find_element (locator : BSLocator) (retry : bool)
  : M Session WebElement :=
  find_element_at 2 locator retry.

Fixpoint find_elements_at (depth : nat) (locator : BSLocator)
         (retry : bool) : M Session (list WebElement) :=
  match depth with
  | O => raise (Exception "maximum recursion depth exceeded")
  | S depth' =>
      elements <- invoke (driver_find_elements (By_str (by_ locator))
                                               (value locator)) ;;
      if negb (match elements with [] => false | _ :: _ => true end)
         && retry
      then find_elements_at depth' locator false
      else ret elements
  end.

Definition find_elements (locator : BSLocator) (retry : bool)
  : M Session (list WebElement) :=
  find_elements_at 2 locator retry.

Definition wait_element_to_be_present (locator : BSLocator)
           (tolerance_time : Q) : M Session unit :=
  invoke (WebDriverWait_until tolerance_time
            (presence_of_element_located (Locator.as_tuple locator))).

Definition wait_element_to_be_clickable (locator : BSLocator)
           (tolerance_time : Q) (raise_exception : bool)
  : M Session unit :=
  try_except
    (invoke (WebDriverWait_until tolerance_time
               (element_to_be_clickable (Locator.as_tuple locator))))
    cls_TimeoutException
    (fun e => if raise_exception then raise e else ret tt).

Definition wait_element_to_be_visible (locator : BSLocator)
           (raise_exception : bool) (tolerance_time : Q)
  : M Session unit :=
  try_except
    (invoke (WebDriverWait_until tolerance_time
               (visibility_of_element_located
                  (Locator.as_tuple locator))))
    cls_TimeoutException
    (fun e => if raise_exception then raise e else ret tt).

Definition wait_element_to_be_invisible (locator : BSLocator)
           (raise_exception : bool) (tolerance_time : Q)
  : M Session unit :=
  try_except
    (invoke (WebDriverWait_until tolerance_time
               (invisibility_of_element_located
                  (Locator.as_tuple locator))))
    cls_TimeoutException
    (fun e => if raise_exception then raise e else ret tt).

(** [tolerance_time] of the wait keeps its default, 10. *)
Definition click_element (locator : BSLocator) : M Session unit :=
  wait_element_to_be_clickable locator 10%Q true ;;
  e <- find_element locator false ;;
  invoke (element_click e).

(** A handler that does not re-raise falls off the end of the
    function: the value is [None]. *)
Definition get_text (locator : BSLocator) (raise_exception : bool)
           (timeout : Q) : M Session (option string) :=
  wait_element_to_be_visible locator raise_exception timeout ;;
  try_except
    (e <- find_element locator false ;;
     t <- invoke (element_text e) ;;
     ret (Some t))
    cls_TimeoutException
    (fun e => if raise_exception then raise e else ret None).

Definition is_element_present (locator : BSLocator) (tolerance_time : Q)
  : M Session bool :=
  try_except
    (invoke (WebDriverWait_until tolerance_time
               (presence_of_element_located
                  (Locator.as_tuple locator))) ;;
     ret true)
    cls_TimeoutException (fun _ => ret false).

(** [a and b]: [b] is evaluated only when [a] is true. *)
Definition is_element_displayed (locator : BSLocator)
           (tolerance_time : Q) : M Session bool :=
  present <- is_element_present locator tolerance_time ;;
  if present then
    e <- find_element locator false ;;
    invoke (element_is_displayed e)
  else ret false.

Definition is_element_clickable (locator : BSLocator)
           (tolerance_time : Q) : M Session bool :=
  try_except2
    (invoke (WebDriverWait_until tolerance_time
               (element_to_be_clickable (Locator.as_tuple locator))) ;;
     ret true)
    cls_TimeoutException (fun _ => ret false)
    cls_ElementClickInterceptedException (fun _ => ret false).

End Wrapper.

Arguments mkSession {Driver} driver calls.
Arguments driver {Driver} s.
Arguments calls {Driver} s.
Arguments invoke {Driver} driver_step {X} c s.
Arguments quit {Driver} driver_step s.
Arguments wait_static {Driver} driver_step wait_time s.
Arguments find_element_at {Driver} driver_step depth locator retry s.
Arguments find_element {Driver} driver_step locator retry s.
Arguments find_elements_at {Driver} driver_step depth locator retry s.
Arguments find_elements {Driver} driver_step locator retry s.
Arguments wait_element_to_be_present {Driver} driver_step locator
  tolerance_time s.
Arguments wait_element_to_be_clickable {Driver} driver_step locator
  tolerance_time raise_exception s.
Arguments wait_element_to_be_visible {Driver} driver_step locator
  raise_exception tolerance_time s.
Arguments wait_element_to_be_invisible {Driver} driver_step locator
  raise_exception tolerance_time s.
Arguments click_element {Driver} driver_step locator s.
Arguments get_text {Driver} driver_step locator raise_exception timeout s.
Arguments is_element_present {Driver} driver_step locator tolerance_time s.
Arguments is_element_displayed {Driver} driver_step locator
  tolerance_time s.
Arguments is_element_clickable {Driver} driver_step locator
  tolerance_time s.
End WebDriver.

(** ** Vocabulary of the properties *)

(** The comma-separated subselectors of a css value: the pieces between
    commas, trimmed, the empty ones dropped. *)
Definition subselectors (v : string) : list string :=
  filter Py.truthy (map Py.strip (Py.split "," v)).

Fixpoint no_comma (s : string) : bool :=
  match s with
  | EmptyString => true
  | String c r => negb (Ascii.eqb c ",") && no_comma r
  end.

(** A single subselector: not empty, without a comma, already trimmed. *)
Definition is_subselector (s : string) : bool :=
  Py.truthy s && no_comma s && String.eqb (Py.strip s) s.

(** The strategies on which the derivations are defined. *)
Definition derivable (S : By) : bool :=
  match S with
  | CSS_SELECTOR | XPATH => true
  | _ => false
  end.

(** An outcome that is a value or an exception of class [cls]. *)
Definition value_or {A} (cls : exn_class) (r : result A) : bool :=
  match r with
  | Ok _ => true
  | Err e => isinstance e cls
  end.

(** The message of the [ValueError] raised by [get_pw_locator]. *)
Definition invalid_selector_type (b : By) : exn :=
  ValueError ("Tipo de selector no v" ++ String (ascii_of_nat 225) "lido: "
              ++ By_str b).

Definition none_has_no_lower : exn :=
  AttributeError "'NoneType' object has no attribute 'lower'".

(** The number of element lookups among the driver calls issued. *)
Fixpoint count_lookups (evs : list Selenium.event) : nat :=
  match evs with
  | [] => O
  | Selenium.issued c :: rest =>
      match c with
      | Selenium.driver_find_element _ _ => S (count_lookups rest)
      | Selenium.driver_find_elements _ _ => S (count_lookups rest)
      | _ => count_lookups rest
      end
  end.

(** [n] calls of a method in sequence: the outcomes, oldest first, and the
    final session. *)
Fixpoint repeatedly {W A} (m : M W A) (n : nat) (w : W)
  : list (result A) * W :=
  match n with
  | O => ([], w)
  | S n' =>
      let (r, w') := m w in
      let (rs, w'') := repeatedly m n' w' in
      (r :: rs, w'')
  end.

(** A successful derivation: the result is a reference that named nothing
    before, it now names a locator of strategy [S], and every object of
    the store before the call, the receiver among them, is as it was. *)
Definition derives (S : By) (h : LocatorObjects.store)
           (out : option (result LocatorObjects.ref * LocatorObjects.store))
  : Prop :=
  exists (l : BSLocator) (h' : LocatorObjects.store),
    out = Some (Ok (length h), h')
    /\ LocatorObjects.deref h (length h) = None
    /\ LocatorObjects.deref h' (length h) = Some l
    /\ by_ l = S
    /\ (forall r x, LocatorObjects.deref h r = Some x ->
                    LocatorObjects.deref h' r = Some x).

(** The Playwright session after the engine has answered [c] and moved to
    state [e']. *)
Definition answered {Engine X} (s : Cmfx.Session Engine)
           (c : Playwright.call X) (e' : Engine) : Cmfx.Session Engine :=
  Cmfx.mkSession (Cmfx.self s) e'
                 (Cmfx.calls s ++ [Playwright.issued c])%list.

(** The Selenium session after the driver has answered [c] and moved to
    state [d']. *)
Definition replied {Driver X} (s : WebDriver.Session Driver)
           (c : Selenium.call X) (d' : Driver) : WebDriver.Session Driver :=
  WebDriver.mkSession d' (WebDriver.calls s ++ [Selenium.issued c])%list.

(** An element passes the narrowing when it has every include text and
    no exclude text. *)
Definition passes {element : Type} (has_text : element -> string -> bool)
           (includes : list string) (excludes : option (list string))
           (e : element) : bool :=
  forallb (has_text e) includes
  && forallb (fun t => negb (has_text e t))
             (match excludes with Some texts => texts | None => [] end).

(** The lookups a method adds to the driver calls of a session. *)
Definition lookups_by {Driver A} (m : M (WebDriver.Session Driver) A)
           (s : WebDriver.Session Driver) : nat :=
  count_lookups (WebDriver.calls (snd (m s)))
  - count_lookups (WebDriver.calls s).

(** ** Engines to run the wrappers on *)

(** A page that does not change: each selector matches a fixed list of
    elements.  The engine state is the list of elements clicked so far. *)
Module StaticPage.
Import Playwright.

Record element : Type := mkElement {
  text : string;
  attributes : list (string * string);
  visible : bool
}.

Fixpoint contains (needle hay : string) : bool :=
  String.prefix needle hay
  || match hay with
     | EmptyString => false
     | String _ rest => contains needle rest
     end.

Definition has_text (e : element) (t : string) : bool :=
  contains (Py.lower t) (Py.lower (text e)).

Fixpoint lookup (k : string) (kvs : list (string * string))
  : option string :=
  match kvs with
  | [] => None
  | (k', v) :: rest => if String.eqb k k' then Some v else lookup k rest
  end.

Section Page.
Variable select : handle -> string -> list element.

Definition resolve (l : Locator) : list element :=
  denote element select has_text l.

Definition timed_out {A} : result A :=
  Err (PlaywrightTimeoutError "Timeout exceeded").

Definition step (X : Type) (c : call X) (clicked : list element)
  : result X * list element :=
  match c in call T return result T * list element with
  | expect_to_be_attached l _ =>
      (match resolve l with
       | [] => Err (AssertionError "Locator expected to be attached")
       | _ :: _ => Ok tt
       end, clicked)
  | is_visible l _ =>
      (Ok (match resolve l with [] => false | e :: _ => visible e end),
       clicked)
  | inner_text l _ =>
      (match resolve l with [] => timed_out | e :: _ => Ok (text e) end,
       clicked)
  | all_inner_texts l => (Ok (map text (resolve l)), clicked)
  | wait_for_attached l _ =>
      (match resolve l with [] => timed_out | _ :: _ => Ok tt end,
       clicked)
  | count l => (Ok (Z.of_nat (length (resolve l))), clicked)
  | get_attribute l name _ =>
      (match resolve l with
       | [] => timed_out
       | e :: _ => Ok (lookup name (attributes e))
       end, clicked)
  | click l _ =>
      match resolve l with
      | [] => (timed_out, clicked)
      | e :: _ =>
          if visible e then (Ok tt, (clicked ++ [e])%list)
          else (timed_out, clicked)
      end
  | camoufox_aexit _ => (Ok tt, clicked)
  | asyncio_sleep _ => (Ok tt, clicked)
  end.
End Page.

(** A page without elements. *)
Definition blank : handle -> string -> list element := fun _ _ => [].

(** Three buttons and a link without an [href]. *)
Definition save_as : element := mkElement "Save as..." [] true.
Definition save_draft : element := mkElement "Save draft" [] true.
Definition save : element := mkElement "Save" [("class", "Primary")] true.
Definition anchor : element := mkElement "home" [("class", "nav")] true.

Definition form : handle -> string -> list element :=
  fun _ selector =>
    if String.eqb selector "button" then [save_as; save_draft; save]
    else if String.eqb selector "a" then [anchor]
    else [].

(** An initialised wrapper and a closed one. *)
Definition active : Cmfx.BSCmfx :=
  Cmfx.mkBSCmfx (Some 1%nat) (Some 2%nat) (Some 3%nat).
Definition closed : Cmfx.BSCmfx := Cmfx.mkBSCmfx None None None.

Definition session (me : Cmfx.BSCmfx) : Cmfx.Session (list element) :=
  Cmfx.mkSession me [] [].

End StaticPage.

(** A driver for a page on which the element sought is found from the
    [appears_at]-th lookup on (never, when [None]); the driver state counts
    the lookups made. *)
Module ScriptedDriver.
Import Selenium.

Record script : Type := mkScript {
  appears_at : option nat;
  waits_pass : bool;
  text : string;
  displayed : bool
}.

Definition found (sc : script) (lookups : nat) : bool :=
  match appears_at sc with
  | Some k => (k <=? lookups)%nat
  | None => false
  end.

Definition step (sc : script) (X : Type) (c : call X) (lookups : nat)
  : result X * nat :=
  match c in call T return result T * nat with
  | driver_find_element _ _ =>
      (if found sc lookups then Ok 0%nat
       else Err (NoSuchElementException "no such element"),
       S lookups)
  | driver_find_elements _ _ =>
      (Ok (if found sc lookups then [0%nat] else []), S lookups)
  | WebDriverWait_until _ _ =>
      (if waits_pass sc then Ok tt else Err (TimeoutException ""),
       lookups)
  | element_text _ => (Ok (text sc), lookups)
  | element_is_displayed _ => (Ok (displayed sc), lookups)
  | element_click _ => (Ok tt, lookups)
  | driver_quit => (Ok tt, lookups)
  | time_sleep _ => (Ok tt, lookups)
  end.

Definition never : script := mkScript None false "" false.
Definition late : script := mkScript (Some 1%nat) true "hello" true.
Definition ready : script := mkScript (Some 0%nat) true "hello" true.

Definition session : WebDriver.Session nat :=
  WebDriver.mkSession 0%nat [].

End ScriptedDriver.

(** ** Vocabulary of the further properties *)

(** What [get_nth_element] appends to a subselector. *)
Definition nth_suffix (i : Z) : string :=
  ":nth-child(" ++ Py.str_of_int i ++ ")".

(** A string that is empty or starts with a character that is not white
    space. *)
Definition starts_clean (s : string) : bool :=
  match s with
  | EmptyString => true
  | String c _ => negb (Py.isspace c)
  end.

(** What attribute access on [self.page] raises once the page is
    [None]. *)
Definition none_has_no_locator : exn :=
  AttributeError "'NoneType' object has no attribute 'locator'".

(** ** Python values and dictionaries *)

Module PyVal.

(** The values that travel through the wrappers' configuration. *)
#[warnings="-register-all"]
Inductive pyval : Type :=
| VNone
| VBool (b : bool)
| VInt (z : Z)
| VStr (s : string)
| VTuple (items : list pyval).

(** [bool(v)] *)
Definition truthy (v : pyval) : bool :=
  match v with
  | VNone => false
  | VBool b => b
  | VInt z => negb (z =? 0)%Z
  | VStr s => Py.truthy s
  | VTuple [] => false
  | VTuple (_ :: _) => true
  end.

Definition type_name (v : pyval) : string :=
  match v with
  | VNone => "NoneType"
  | VBool _ => "bool"
  | VInt _ => "int"
  | VStr _ => "str"
  | VTuple _ => "tuple"
  end.

(** [s.replace(old, new)] for one-character [old] and [new]. *)
Fixpoint replace_char (old new : ascii) (s : string) : string :=
  match s with
  | EmptyString => EmptyString
  | String c r =>
      String (if Ascii.eqb c old then new else c) (replace_char old new r)
  end.

Fixpoint has_char (c : ascii) (s : string) : bool :=
  match s with
  | EmptyString => false
  | String c' r => Ascii.eqb c' c || has_char c r
  end.

(** [sub in s] on strings. *)
Fixpoint contains (sub s : string) : bool :=
  String.prefix sub s
  || match s with
     | EmptyString => false
     | String _ rest => contains sub rest
     end.

(** The value of a script, as the engines hand it to Python.  The
    wrappers only compare such a value with a string and subtract two of
    them, so a list and a dictionary come without their content; a number
    is the rational it denotes. *)
Inductive jsvalue : Type :=
| JNone
| JBool (b : bool)
| JNumber (q : Q)
| JString (s : string)
| JList
| JDict.

Definition js_type_name (v : jsvalue) : string :=
  match v with
  | JNone => "NoneType"
  | JBool _ => "bool"
  | JNumber q => if (Zpos (Qden (Qred q)) =? 1)%Z then "int" else "float"
  | JString _ => "str"
  | JList => "list"
  | JDict => "dict"
  end.

(** [v == s] for a string [s]. *)
Definition js_equals_str (v : jsvalue) (s : string) : bool :=
  match v with
  | JString t => String.eqb t s
  | _ => false
  end.

(** The number a value is in arithmetic, if any: [bool] is a subclass of
    [int]. *)
Definition js_number (v : jsvalue) : option Q :=
  match v with
  | JBool b => Some (if b then 1%Q else 0%Q)
  | JNumber q => Some q
  | _ => None
  end.

(** A [dict] with [str] keys, in insertion order. *)
Definition dict : Type := list (string * pyval).

Fixpoint dict_get (k : string) (d : dict) : option pyval :=
  match d with
  | [] => None
  | (k', v) :: rest => if String.eqb k k' then Some v else dict_get k rest
  end.

(** [d[k] = v]: an existing key keeps its place. *)
Fixpoint dict_set (k : string) (v : pyval) (d : dict) : dict :=
  match d with
  | [] => [(k, v)]
  | (k', v') :: rest =>
      if String.eqb k k' then (k, v) :: rest
      else (k', v') :: dict_set k v rest
  end.

(** A dictionary display [{k1: v1, ..., **more}]: the entries are stored
    from left to right. *)
Definition dict_display (entries : list (string * pyval)) : dict :=
  fold_left (fun d kv => dict_set (fst kv) (snd kv) d) entries [].

Section Builtins.
(** The exception Python raises for a built-in class that has no
    constructor in [exn], from the name of the class and the message. *)
Variable builtin : string -> string -> exn.

(** [len(v)] *)
Definition len (v : pyval) : result Z :=
  match v with
  | VStr s => Ok (Z.of_nat (String.length s))
  | VTuple items => Ok (Z.of_nat (length items))
  | _ => Err (builtin "TypeError"
                      ("object of type '" ++ type_name v
                       ++ "' has no len()"))
  end.

(** [v[i]] for an index that is not negative. *)
Definition getitem (v : pyval) (i : nat) : result pyval :=
  match v with
  | VStr s =>
      match String.get i s with
      | Some c => Ok (VStr (String c EmptyString))
      | None => Err (builtin "IndexError" "string index out of range")
      end
  | VTuple items =>
      match nth_error items i with
      | Some x => Ok x
      | None => Err (builtin "IndexError" "tuple index out of range")
      end
  | _ => Err (builtin "TypeError"
                      ("'" ++ type_name v
                       ++ "' object is not subscriptable"))
  end.

(** [a - b] *)
Definition js_minus (a b : jsvalue) : result Q :=
  match js_number a, js_number b with
  | Some x, Some y => Ok (x - y)%Q
  | _, _ =>
      Err (builtin "TypeError"
                   ("unsupported operand type(s) for -: '"
                    ++ js_type_name a ++ "' and '" ++ js_type_name b
                    ++ "'"))
  end.

(** [d[k]] *)
Definition dict_getitem (d : dict) (k : string) : result pyval :=
  match dict_get k d with
  | Some v => Ok v
  | None => Err (builtin "KeyError" k)
  end.

End Builtins.

End PyVal.

(** ** What the rest of [bscmfx.py] asks of the engine and of the host *)

Module Host.
Import PyVal.

(** The bounding box of an element, as Playwright answers it. *)
Record box : Type := mkBox { x : Q; y : Q; width : Q; height : Q }.

(** The options of [new_page]: nothing, or a viewport. *)
Record viewport : Type := mkViewport { vp_width : pyval; vp_height : pyval }.

(** The calls of [Playwright.call], and the further ones: the host
    queries and the launch made by [initialize], random numbers, the
    interactions with an element and with the mouse, navigation, scripts,
    the other expectations, and the event loop.  [loop_create_task] and
    [loop_run_until_complete] are given the coroutine of [quit]. *)
Inductive call : Type -> Type :=
| playwright {X : Type} (c : Playwright.call X) : call X
| platform_system : call string
| locale_getdefaultlocale : call (option string * option string)
| Tk_new : call Playwright.handle
| Tk_withdraw (root : Playwright.handle) : call unit
| Tk_winfo_screenwidth (root : Playwright.handle) : call Z
| Tk_winfo_screenheight (root : Playwright.handle) : call Z
| Tk_destroy (root : Playwright.handle) : call unit
| AsyncCamoufox_new (config : dict) : call Playwright.handle
| camoufox_aenter (instance : Playwright.handle) : call Playwright.handle
| browser_new_page (browser : Playwright.handle)
                   (page_options : option viewport) : call Playwright.handle
| random_uniform (a b : Q) : call Q
| locator_focus (l : Playwright.Locator) : call unit
| locator_input_value (l : Playwright.Locator) (timeout : Q) : call string
| locator_click_count (l : Playwright.Locator) (click_count : Z) : call unit
| locator_press (l : Playwright.Locator) (key : string) : call unit
| locator_type (l : Playwright.Locator) (text : string) : call unit
| locator_fill (l : Playwright.Locator) (text : string) : call unit
| locator_wait_for_visible (l : Playwright.Locator) (timeout : Q)
  : call unit
| locator_hover (l : Playwright.Locator) : call unit
| locator_bounding_box (l : Playwright.Locator) (timeout : Q)
  : call (option box)
| mouse_move (page : Playwright.handle) (x y : Q) : call unit
| mouse_down (page : Playwright.handle) : call unit
| mouse_up (page : Playwright.handle) : call unit
| mouse_wheel (page : Playwright.handle) (delta_x delta_y : Q) : call unit
| page_goto (page : Playwright.handle) (url : string) (timeout : Q)
  : call unit
| page_screenshot (page : Playwright.handle) (path : string) : call unit
| page_wait_for_load_state (page : Playwright.handle) (timeout : Q)
  : call unit
| page_url (page : Playwright.handle) : call string
| page_evaluate (page : Playwright.handle) (expression : string)
                (arg : option string) : call jsvalue
| locator_evaluate (l : Playwright.Locator) (expression : string)
  : call jsvalue
| expect_to_be_visible (l : Playwright.Locator) (timeout : Q) : call unit
| expect_not_to_be_visible (l : Playwright.Locator) (timeout : Q)
  : call unit
| expect_to_be_enabled (l : Playwright.Locator) (timeout : Q) : call unit
| expect_to_have_text (l : Playwright.Locator) (text : string)
                      (timeout : Q) : call unit
| re_compile (pattern : string) : call Playwright.handle
| expect_to_have_attribute (l : Playwright.Locator) (name : string)
                           (pattern : Playwright.handle)
                           (ignore_case : bool) (timeout : Q) : call unit
| asyncio_get_event_loop : call Playwright.handle
| loop_is_running (loop : Playwright.handle) : call bool
| loop_create_task (loop : Playwright.handle) : call unit
| loop_run_until_complete (loop : Playwright.handle) : call unit.

Inductive event : Type :=
| issued {X : Type} (c : call X).

End Host.

(** ** [bsplaywright/bscmfx.py], continued *)

Module CmfxMore.
Import PyVal.
Import Host.

(** What [__init__] stores. *)
Record Settings : Type := mkSettings {
  is_headless : bool;
  humanize : bool;
  screen_resolution : option pyval;
  camoufox_config : dict
}.

Section Wrapper.
(** The machine: engine and host together. *)
Variable Machine : Type.
Variable step : forall X, call X -> Machine -> result X * Machine.
Variable builtin : string -> string -> exn.

(** The engine state of the session: the machine and every call made to
    it, in order. *)
Record World : Type := mkWorld {
  machine : Machine;
  log : list event
}.

Definition Session : Type := Cmfx.Session World.

(** How the machine answers the calls of [Playwright.call]. *)
Definition core_step (X : Type) (c : Playwright.call X) (w : World)
  : result X * World :=
  let (r, m') := step X (playwright c) (machine w) in
  (r, mkWorld m' (log w ++ [issued (playwright c)])%list).

Definition perform {X} (c : call X) : M Session X :=
  fun s =>
    let (r, m') := step X c (machine (Cmfx.engine s)) in
    (r, Cmfx.mkSession (Cmfx.self s)
          (mkWorld m' (log (Cmfx.engine s) ++ [issued c])%list)
          (Cmfx.calls s)).

Definition _get_locale : M Session string :=
  default <- perform locale_getdefaultlocale ;;
  match fst default with
  | Some language => ret (replace_char "_" "-" language)
  | None =>
      raise (AttributeError
               "'NoneType' object has no attribute 'replace'")
  end.

Definition _get_screen_resolution : M Session pyval :=
  root <- perform Tk_new ;;
  perform (Tk_withdraw root) ;;
  w <- perform (Tk_winfo_screenwidth root) ;;
  h <- perform (Tk_winfo_screenheight root) ;;
  perform (Tk_destroy root) ;;
  ret (VTuple [VInt w; VInt h]).

Definition _get_platform_and_web_gl
  : M Session (string * (string * string)) :=
  os_name <- perform platform_system ;;
  if String.eqb os_name "Windows" then
    ret ("windows",
         ("Google Inc. (NVIDIA)",
          "ANGLE (NVIDIA, NVIDIA GeForce GTX 980 Direct3D11 vs_5_0 ps_5_0), or similar"))
  else if String.eqb os_name "Darwin" then
    ret ("macos", ("Apple", "Apple M1, or similar"))
  else if String.eqb os_name "Linux" then
    ret ("linux", ("Intel", "Intel(R) HD Graphics, or similar"))
  else
    raise (Exception ("Sistema operativo no v" ++
                      String (ascii_of_nat 225) "lido detectado: " ++
                      os_name)).

(** The dictionary display of [initialize]. *)
Definition make_config (cfg : Settings)
           (os_and_web_gl_prop : string * (string * string))
           (window : pyval) (locale : string) : dict :=
  dict_display
    ([("headless", VBool (is_headless cfg));
      ("os", VStr (fst os_and_web_gl_prop));
      ("webgl_config",
       VTuple [VStr (fst (snd os_and_web_gl_prop));
               VStr (snd (snd os_and_web_gl_prop))]);
      ("window", window);
      ("locale", VStr locale);
      ("humanize", VBool (humanize cfg))]
     ++ camoufox_config cfg)%list.

(** The options of the new page: the viewport, when [config['window']] is
    truthy and has two items. *)
Definition make_page_options (config : dict) : result (option viewport) :=
  match dict_getitem builtin config "window" with
  | Err e => Err e
  | Ok window =>
      if truthy window then
        match len builtin window with
        | Err e => Err e
        | Ok n =>
            if (n =? 2)%Z then
              match getitem builtin window 0 with
              | Err e => Err e
              | Ok w =>
                  match getitem builtin window 1 with
                  | Err e => Err e
                  | Ok h => Ok (Some (mkViewport w h))
                  end
              end
            else Ok None
        end
      else Ok None
  end.

Definition set_camoufox_instance (v : option Playwright.handle)
  : M Session unit :=
  me <- Cmfx.get_self World ;;
  Cmfx.set_self World (Cmfx.mkBSCmfx v (Cmfx.browser me) (Cmfx.page me)).

Definition set_browser (v : option Playwright.handle) : M Session unit :=
  me <- Cmfx.get_self World ;;
  Cmfx.set_self World
    (Cmfx.mkBSCmfx (Cmfx._camoufox_instance me) v (Cmfx.page me)).

Definition set_page (v : option Playwright.handle) : M Session unit :=
  me <- Cmfx.get_self World ;;
  Cmfx.set_self World
    (Cmfx.mkBSCmfx (Cmfx._camoufox_instance me) (Cmfx.browser me) v).

Definition initialize (cfg : Settings) : M Session Cmfx.BSCmfx :=
  os_and_web_gl_prop <- _get_platform_and_web_gl ;;
  window <- match screen_resolution cfg with
            | Some resolution => ret resolution
            | None => _get_screen_resolution
            end ;;
  locale <- _get_locale ;;
  let config := make_config cfg os_and_web_gl_prop window locale in
  instance <- perform (AsyncCamoufox_new config) ;;
  set_camoufox_instance (Some instance) ;;
  browser <- perform (camoufox_aenter instance) ;;
  set_browser (Some browser) ;;
  page_options <- lift (make_page_options config) ;;
  page <- perform (browser_new_page browser page_options) ;;
  set_page (Some page) ;;
  Cmfx.get_self World.

Definition __aenter__ (cfg : Settings) : M Session Cmfx.BSCmfx :=
  initialize cfg ;;
  Cmfx.get_self World.

(** [quit] and [__aexit__] are the ones of [Cmfx], on this machine. *)
Definition quit : M Session unit := Cmfx.quit core_step.

Definition wait_random (_min _max : Q) : M Session unit :=
  delay <- perform (random_uniform _min _max) ;;
  Cmfx.await core_step (Playwright.asyncio_sleep delay).

Definition clear (locator : BSLocator) : M Session unit :=
  l <- Cmfx.self_page_locator locator ;;
  perform (locator_fill l "").

Definition clear_input (input_elem : Playwright.Locator) (timeout : Q)
  : M Session unit :=
  current <- perform (locator_input_value input_elem (timeout * 1000)%Q) ;;
  if Py.truthy current then
    perform (locator_click_count input_elem 3) ;;
    wait_random (1 # 10)%Q (2 # 10)%Q ;;
    perform (locator_press input_elem "Backspace")
  else ret tt.

(** The loop [for char in content] of [human_send_keys]. *)
Fixpoint type_each (input_element : Playwright.Locator)
         (min_delay max_delay : Q) (content : string) : M Session unit :=
  match content with
  | EmptyString => ret tt
  | String char rest =>
      perform (locator_type input_element (String char EmptyString)) ;;
      wait_random min_delay max_delay ;;
      type_each input_element min_delay max_delay rest
  end.

(** The literals 0.0187 and 0.123 are the rationals they denote. *)
Definition human_send_keys (locator : BSLocator) (content : string)
           (timeout : Q) : M Session unit :=
  let min_delay := (187 # 10000)%Q in
  let max_delay := (123 # 1000)%Q in
  input_element <- Cmfx.self_page_locator locator ;;
  perform (locator_focus input_element) ;;
  clear_input input_element timeout ;;
  type_each input_element min_delay max_delay content.

Definition human_send_keys_and_press_enter (locator : BSLocator)
           (content : string) (timeout : Q) : M Session unit :=
  human_send_keys locator content timeout ;;
  Cmfx.wait_static core_step (75 # 1000)%Q ;;
  l <- Cmfx.self_page_locator locator ;;
  perform (locator_press l "Enter").

(** [value] is any object; [str_] is its [str()].  The timeout of
    [human_send_keys] keeps its default, 10. *)
Definition clear_and_send_keys {Any : Type} (str_ : Any -> string)
           (locator : BSLocator) (value : Any) : M Session unit :=
  clear locator ;;
  human_send_keys locator (str_ value) 10%Q.

(** [self.page.mouse]: the attribute [mouse] of the page. *)
Definition self_page_mouse : M Session Playwright.handle :=
  me <- Cmfx.get_self World ;;
  match Cmfx.page me with
  | Some pg => ret pg
  | None =>
      raise (AttributeError "'NoneType' object has no attribute 'mouse'")
  end.

Definition manual_click_element (locator : BSLocator) (timeout : Q)
  : M Session unit :=
  l <- Cmfx.self_page_locator locator ;;
  perform (locator_wait_for_visible l (timeout * 1000)%Q) ;;
  perform (locator_hover l) ;;
  wait_random (1 # 10)%Q (2 # 10)%Q ;;
  locator_box <- perform (locator_bounding_box (Playwright.First l)
                                               (timeout * 1000)%Q) ;;
  pg <- self_page_mouse ;;
  match locator_box with
  | None =>
      raise (builtin "TypeError" "'NoneType' object is not subscriptable")
  | Some b =>
      perform (mouse_move pg (x b + width b / 2)%Q (y b + height b / 2)%Q)
  end ;;
  pg <- self_page_mouse ;;
  perform (mouse_down pg) ;;
  wait_random (25 # 1000)%Q (125 # 1000)%Q ;;
  pg <- self_page_mouse ;;
  perform (mouse_up pg).

End Wrapper.

Arguments mkWorld {Machine} machine log.
Arguments machine {Machine} w.
Arguments log {Machine} w.
Arguments core_step {Machine} step X c w.
Arguments perform {Machine} step {X} c s.
Arguments _get_locale {Machine} step s.
Arguments _get_screen_resolution {Machine} step s.
Arguments _get_platform_and_web_gl {Machine} step s.
Arguments initialize {Machine} step builtin cfg s.
Arguments __aenter__ {Machine} step builtin cfg s.
Arguments quit {Machine} step s.
Arguments wait_random {Machine} step _min _max s.
Arguments clear {Machine} step locator s.
Arguments clear_input {Machine} step input_elem timeout s.
Arguments type_each {Machine} step input_element min_delay max_delay
  content s.
Arguments human_send_keys {Machine} step locator content timeout s.
Arguments human_send_keys_and_press_enter {Machine} step locator content
  timeout s.
Arguments clear_and_send_keys {Machine} step {Any} str_ locator value s.
Arguments manual_click_element {Machine} step builtin locator timeout s.

End CmfxMore.

(** The session after the machine has answered [c] and moved to [m']. *)
Definition performed {Machine X} (s : CmfxMore.Session Machine)
           (c : Host.call X) (m' : Machine) : CmfxMore.Session Machine :=
  Cmfx.mkSession (Cmfx.self s)
    (CmfxMore.mkWorld m'
       (CmfxMore.log (Cmfx.engine s) ++ [Host.issued c])%list)
    (Cmfx.calls s).

(** The calls made to the machine in a session. *)
Definition history {Machine} (s : CmfxMore.Session Machine)
  : list Host.event :=
  CmfxMore.log (Cmfx.engine s).

(** The wrapper's own entries of the configuration of [initialize]. *)
Definition own_entries (cfg : CmfxMore.Settings)
           (os_and_web_gl_prop : string * (string * string))
           (window : PyVal.pyval) (locale : string) : PyVal.dict :=
  [("headless", PyVal.VBool (CmfxMore.is_headless cfg));
   ("os", PyVal.VStr (fst os_and_web_gl_prop));
   ("webgl_config",
    PyVal.VTuple [PyVal.VStr (fst (snd os_and_web_gl_prop));
                  PyVal.VStr (snd (snd os_and_web_gl_prop))]);
   ("window", window);
   ("locale", PyVal.VStr locale);
   ("humanize", PyVal.VBool (CmfxMore.humanize cfg))].

(** The operating systems [initialize] knows. *)
Definition classified (os_name : string) : bool :=
  String.eqb os_name "Windows" || String.eqb os_name "Darwin"
  || String.eqb os_name "Linux".

(** The number of engine launches among the calls. *)
Fixpoint launches (evs : list Host.event) : nat :=
  match evs with
  | [] => O
  | Host.issued c :: rest =>
      match c with
      | Host.AsyncCamoufox_new _ => S (launches rest)
      | _ => launches rest
      end
  end.

(** The text typed, call by call. *)
Fixpoint keys_typed (evs : list Host.event) : string :=
  match evs with
  | [] => EmptyString
  | Host.issued c :: rest =>
      match c with
      | Host.locator_type _ text => text ++ keys_typed rest
      | _ => keys_typed rest
      end
  end.

(** The number of times a key is pressed among the calls. *)
Fixpoint presses_of (key : string) (evs : list Host.event) : nat :=
  match evs with
  | [] => O
  | Host.issued c :: rest =>
      match c with
      | Host.locator_press _ k =>
          if String.eqb k key then S (presses_of key rest)
          else presses_of key rest
      | _ => presses_of key rest
      end
  end.

(** The number of multiple clicks among the calls. *)
Fixpoint multi_clicks (evs : list Host.event) : nat :=
  match evs with
  | [] => O
  | Host.issued c :: rest =>
      match c with
      | Host.locator_click_count _ _ => S (multi_clicks rest)
      | _ => multi_clicks rest
      end
  end.

(** The number of clicks made with [click_count] [n] among the calls. *)
Fixpoint clicks_of (n : Z) (evs : list Host.event) : nat :=
  match evs with
  | [] => O
  | Host.issued c :: rest =>
      match c with
      | Host.locator_click_count _ click_count =>
          if (click_count =? n)%Z then S (clicks_of n rest)
          else clicks_of n rest
      | _ => clicks_of n rest
      end
  end.

(** The typing calls, in order: the field typed into and the text of the
    call. *)
Fixpoint typing_calls (evs : list Host.event)
  : list (Playwright.Locator * string) :=
  match evs with
  | [] => []
  | Host.issued c :: rest =>
      match c with
      | Host.locator_type l text => (l, text) :: typing_calls rest
      | _ => typing_calls rest
      end
  end.

(** One call for each character of [text], in order, all on [target]. *)
Definition one_by_one {T : Type} (target : T) (text : string)
  : list (T * string) :=
  map (fun char => (target, String char EmptyString))
      (list_ascii_of_string text).

(** ** A machine to run the rest of the Playwright wrapper on *)

(** A desk: the host answers with a fixed platform, locale and screen,
    the engine hands out the handles 1, 2 and 3, the page is the one of
    [StaticPage.form], and a text field holds [field].  The machine state
    is the list of elements clicked. *)
Module Desk.
Import Host.

Record desk : Type := mkDesk {
  os_name : string;
  language : option string;
  field : string;
  page_opens : bool
}.

Definition step (d : desk) (X : Type) (c : call X)
           (clicked : list StaticPage.element)
  : result X * list StaticPage.element :=
  match c in call T return result T * list StaticPage.element with
  | playwright c' => StaticPage.step StaticPage.form _ c' clicked
  | platform_system => (Ok (os_name d), clicked)
  | locale_getdefaultlocale => (Ok (language d, Some "UTF-8"), clicked)
  | Tk_new => (Ok 7%nat, clicked)
  | Tk_withdraw _ => (Ok tt, clicked)
  | Tk_winfo_screenwidth _ => (Ok 1920%Z, clicked)
  | Tk_winfo_screenheight _ => (Ok 1080%Z, clicked)
  | Tk_destroy _ => (Ok tt, clicked)
  | AsyncCamoufox_new _ => (Ok 1%nat, clicked)
  | camoufox_aenter _ => (Ok 2%nat, clicked)
  | browser_new_page _ _ =>
      (if page_opens d then Ok 3%nat
       else Err (PlaywrightError "Target closed"), clicked)
  | random_uniform a _ => (Ok a, clicked)
  | locator_focus _ => (Ok tt, clicked)
  | locator_input_value _ _ => (Ok (field d), clicked)
  | locator_click_count _ _ => (Ok tt, clicked)
  | locator_press _ _ => (Ok tt, clicked)
  | locator_type _ _ => (Ok tt, clicked)
  | locator_fill _ _ => (Ok tt, clicked)
  | locator_wait_for_visible _ _ => (Ok tt, clicked)
  | locator_hover _ => (Ok tt, clicked)
  | locator_bounding_box _ _ => (Ok (Some (mkBox 0 0 10 10)), clicked)
  | mouse_move _ _ _ => (Ok tt, clicked)
  | mouse_down _ => (Ok tt, clicked)
  | mouse_up _ => (Ok tt, clicked)
  | mouse_wheel _ _ _ => (Ok tt, clicked)
  | page_goto _ _ _ => (Ok tt, clicked)
  | page_screenshot _ _ => (Ok tt, clicked)
  | page_wait_for_load_state _ _ => (Ok tt, clicked)
  | page_url _ => (Ok "about:blank", clicked)
  | page_evaluate _ _ _ => (Ok (PyVal.JNumber 0), clicked)
  | locator_evaluate _ _ => (Ok (PyVal.JNumber 0), clicked)
  | expect_to_be_visible _ _ => (Ok tt, clicked)
  | expect_not_to_be_visible _ _ => (Ok tt, clicked)
  | expect_to_be_enabled _ _ => (Ok tt, clicked)
  | expect_to_have_text _ _ _ => (Ok tt, clicked)
  | re_compile _ => (Ok 9%nat, clicked)
  | expect_to_have_attribute _ _ _ _ _ => (Ok tt, clicked)
  | asyncio_get_event_loop => (Ok 8%nat, clicked)
  | loop_is_running _ => (Ok false, clicked)
  | loop_create_task _ => (Ok tt, clicked)
  | loop_run_until_complete _ => (Ok tt, clicked)
  end.

Definition linux : desk := mkDesk "Linux" (Some "en_US") "" true.
Definition plan9 : desk := mkDesk "Plan9" (Some "en_US") "" true.
Definition no_locale : desk := mkDesk "Linux" None "" true.
Definition no_page : desk := mkDesk "Darwin" (Some "pt_BR") "" false.
Definition filled : desk := mkDesk "Linux" (Some "en_US") "old text" true.

(** The exception of a built-in class, for the runs on a desk. *)
Definition builtin (cls message : string) : exn :=
  Exception (cls ++ ": " ++ message).

Definition session (me : Cmfx.BSCmfx)
  : CmfxMore.Session (list StaticPage.element) :=
  Cmfx.mkSession me (CmfxMore.mkWorld [] []) [].

Definition defaults : CmfxMore.Settings :=
  CmfxMore.mkSettings false true None [].

End Desk.

(** The message of the exception [_get_platform_and_web_gl] raises. *)
Definition invalid_platform (os_name : string) : exn :=
  Exception ("Sistema operativo no v" ++
             String (ascii_of_nat 225) "lido detectado: " ++ os_name).


(** The configurations the engine was launched with, in order. *)
Fixpoint launched_with (evs : list Host.event) : list PyVal.dict :=
  match evs with
  | [] => []
  | Host.issued c :: rest =>
      match c with
      | Host.AsyncCamoufox_new config => config :: launched_with rest
      | _ => launched_with rest
      end
  end.

(** What a configuration built by [initialize] from the settings [cfg]
    holds: every pass-through option, and the wrapper's own value where
    no pass-through option has the key. *)
Definition overrides (cfg : CmfxMore.Settings) (config : PyVal.dict)
  : Prop :=
  (forall k v,
      PyVal.dict_get k (CmfxMore.camoufox_config cfg) = Some v ->
      PyVal.dict_get k config = Some v)
  /\ (PyVal.dict_get "headless" (CmfxMore.camoufox_config cfg) = None ->
      PyVal.dict_get "headless" config
      = Some (PyVal.VBool (CmfxMore.is_headless cfg)))
  /\ (PyVal.dict_get "humanize" (CmfxMore.camoufox_config cfg) = None ->
      PyVal.dict_get "humanize" config
      = Some (PyVal.VBool (CmfxMore.humanize cfg)))
  /\ (forall resolution,
         CmfxMore.screen_resolution cfg = Some resolution ->
         PyVal.dict_get "window" (CmfxMore.camoufox_config cfg) = None ->
         PyVal.dict_get "window" config = Some resolution).

(** Calls among which nothing is typed, no key is pressed and no multiple
    click is made; no typing call is among them, not even one of the empty
    text. *)
Definition quiet (evs : list Host.event) : Prop :=
  keys_typed evs = EmptyString
  /\ (forall key, presses_of key evs = O)
  /\ multi_clicks evs = O
  /\ typing_calls evs = [].

(** [done] is what was typed of [content]: a prefix of it. *)
Definition typed_of (content done : string) : Prop :=
  exists rest, content = done ++ rest.

(** A run of [m] from [s] adds the calls [new] to the history and keeps
    the wrapper's attributes. *)
Definition adds {Machine A} (m : M (CmfxMore.Session Machine) A)
           (s : CmfxMore.Session Machine) (new : list Host.event) : Prop :=
  history (snd (m s)) = (history s ++ new)%list
  /\ Cmfx.self (snd (m s)) = Cmfx.self s.

(** ** What the rest of [webdriver.py] asks of the driver *)

Module Browser.

(** Handles of driver objects (the options, the driver). *)
Definition handle : Type := nat.

(** The calls of [Selenium.call], and the further ones: reading an
    attribute, sending keys, clearing, random numbers, the construction
    of the driver, navigation, scripts and screenshots.

    [WebDriverWait_poll t] is the clock of a [WebDriverWait(driver, t)]
    between two evaluations of the condition it waits for: [true] when
    time is left, and the wait has then slept for its poll interval;
    [false] when the time is up. *)
Inductive call : Type -> Type :=
| selenium {X : Type} (c : Selenium.call X) : call X
| element_get_attribute (e : Selenium.WebElement) (name : string)
  : call (option string)
| element_send_keys (e : Selenium.WebElement) (text : string) : call unit
| element_clear (e : Selenium.WebElement) : call unit
| random_uniform (a b : Q) : call Q
| element_screenshot (e : Selenium.WebElement) (filename : string)
  : call bool
| ChromeOptions_new : call handle
| options_add_argument (options : handle) (argument : string)
  : call unit
| Chrome_new (options : handle) : call handle
| driver_execute_cdp_cmd (cmd : string) (cmd_args : PyVal.dict) : call unit
| driver_implicitly_wait (time_to_wait : Q) : call unit
| driver_get (url : string) : call unit
| driver_maximize_window : call unit
| driver_execute_script (script : string)
                        (args : list Selenium.WebElement)
  : call PyVal.jsvalue
| driver_current_url : call string
| driver_save_screenshot (filename : string) : call bool
| WebDriverWait_poll (timeout : Q) : call bool.

Inductive event : Type :=
| issued {X : Type} (c : call X).

End Browser.

(** ** [bsselenium/webdriver.py], continued *)

Module WebDriverMore.
Import Browser.

Section Wrapper.
Variable Machine : Type.
Variable step : forall X, call X -> Machine -> result X * Machine.

(** The driver state of the session: the machine and every call made to
    it, in order. *)
Record World : Type := mkWorld {
  machine : Machine;
  log : list event
}.

Definition Session : Type := WebDriver.Session World.

(** How the machine answers the calls of [Selenium.call]. *)
Definition core_step (X : Type) (c : Selenium.call X) (w : World)
  : result X * World :=
  let (r, m') := step X (selenium c) (machine w) in
  (r, mkWorld m' (log w ++ [issued (selenium c)])%list).

Definition perform {X} (c : call X) : M Session X :=
  fun s =>
    let (r, m') := step X c (machine (WebDriver.driver s)) in
    (r, WebDriver.mkSession
          (mkWorld m' (log (WebDriver.driver s) ++ [issued c])%list)
          (WebDriver.calls s)).

(** The class attributes 0.04 and 0.19, as the rationals the literals
    denote. *)
Definition min_human_typing_wait : Q := (4 # 100)%Q.
Definition max_human_typing_wait : Q := (19 # 100)%Q.

(** [time.sleep(random.uniform(_min, _max))] *)
Definition wait_random (_min _max : Q) : M Session unit :=
  delay <- perform (random_uniform _min _max) ;;
  WebDriver.invoke core_step (Selenium.time_sleep delay).

Definition clear (locator : BSLocator) : M Session unit :=
  WebDriver.wait_element_to_be_clickable core_step locator 10%Q true ;;
  e <- WebDriver.find_element core_step locator false ;;
  perform (element_clear e).

Definition send_keys (locator : BSLocator) (content : string)
  : M Session unit :=
  WebDriver.wait_element_to_be_present core_step locator 10%Q ;;
  e <- WebDriver.find_element core_step locator false ;;
  perform (element_send_keys e content).

Definition clear_and_send_keys (locator : BSLocator) (content : string)
  : M Session unit :=
  clear locator ;;
  send_keys locator content.

(** The loop [for char in str(content)] of [human_type]. *)
Fixpoint send_each (elem : Selenium.WebElement) (content : string)
  : M Session unit :=
  match content with
  | EmptyString => ret tt
  | String char rest =>
      perform (element_send_keys elem (String char EmptyString)) ;;
      wait_random min_human_typing_wait max_human_typing_wait ;;
      send_each elem rest
  end.

(** [content] is a [str], on which [str(content)] is the identity. *)
Definition human_type (locator : BSLocator) (content : string)
  : M Session unit :=
  WebDriver.wait_element_to_be_clickable core_step locator 10%Q true ;;
  elem <- WebDriver.find_element core_step locator false ;;
  wait_random min_human_typing_wait max_human_typing_wait ;;
  send_each elem content.

Definition clear_and_human_type (locator : BSLocator) (content : string)
  : M Session unit :=
  wait_random min_human_typing_wait max_human_typing_wait ;;
  clear locator ;;
  wait_random min_human_typing_wait max_human_typing_wait ;;
  human_type locator content.

Definition none_has_no_strip : exn :=
  AttributeError "'NoneType' object has no attribute 'strip'".

Definition get_class (locator : BSLocator) : M Session string :=
  WebDriver.wait_element_to_be_present core_step locator 10%Q ;;
  e <- WebDriver.find_element core_step locator false ;;
  attribute <- perform (element_get_attribute e "class") ;;
  match attribute with
  | Some v => ret (Py.strip v)
  | None => raise none_has_no_strip
  end.

Definition get_value (locator : BSLocator) : M Session string :=
  WebDriver.wait_element_to_be_present core_step locator 10%Q ;;
  e <- WebDriver.find_element core_step locator false ;;
  attribute <- perform (element_get_attribute e "value") ;;
  match attribute with
  | Some v => ret (Py.strip v)
  | None => raise none_has_no_strip
  end.

End Wrapper.

Arguments mkWorld {Machine} machine log.
Arguments machine {Machine} w.
Arguments log {Machine} w.
Arguments core_step {Machine} step X c w.
Arguments perform {Machine} step {X} c s.
Arguments wait_random {Machine} step _min _max s.
Arguments clear {Machine} step locator s.
Arguments send_keys {Machine} step locator content s.
Arguments clear_and_send_keys {Machine} step locator content s.
Arguments send_each {Machine} step elem content s.
Arguments human_type {Machine} step locator content s.
Arguments clear_and_human_type {Machine} step locator content s.
Arguments get_class {Machine} step locator s.
Arguments get_value {Machine} step locator s.

End WebDriverMore.

(** The calls made to the machine in a Selenium session. *)
Definition record {Machine} (s : WebDriverMore.Session Machine)
  : list Browser.event :=
  WebDriverMore.log (WebDriver.driver s).

(** The keys sent, call by call. *)
Fixpoint keys_sent (evs : list Browser.event) : string :=
  match evs with
  | [] => EmptyString
  | Browser.issued c :: rest =>
      match c with
      | Browser.element_send_keys _ text => text ++ keys_sent rest
      | _ => keys_sent rest
      end
  end.

(** The elements keys were sent to, call by call. *)
Fixpoint key_targets (evs : list Browser.event)
  : list Selenium.WebElement :=
  match evs with
  | [] => []
  | Browser.issued c :: rest =>
      match c with
      | Browser.element_send_keys e _ => e :: key_targets rest
      | _ => key_targets rest
      end
  end.

(** The [send_keys] calls, in order: the element and the text of the
    call. *)
Fixpoint sends (evs : list Browser.event)
  : list (Selenium.WebElement * string) :=
  match evs with
  | [] => []
  | Browser.issued c :: rest =>
      match c with
      | Browser.element_send_keys e text => (e, text) :: sends rest
      | _ => sends rest
      end
  end.

(** The number of element lookups among the calls. *)
Fixpoint lookups_in (evs : list Browser.event) : nat :=
  match evs with
  | [] => O
  | Browser.issued c :: rest =>
      match c with
      | Browser.selenium (Selenium.driver_find_element _ _) =>
          S (lookups_in rest)
      | Browser.selenium (Selenium.driver_find_elements _ _) =>
          S (lookups_in rest)
      | _ => lookups_in rest
      end
  end.

(** ** A machine to run the rest of the Selenium wrapper on *)

(** A kiosk: the driver of [ScriptedDriver], and one element with the
    attributes [attributes]. *)
Module Kiosk.
Import Browser.

Definition step (sc : ScriptedDriver.script)
           (attributes : list (string * string))
           (X : Type) (c : call X) (lookups : nat) : result X * nat :=
  match c in call T return result T * nat with
  | selenium c' => ScriptedDriver.step sc _ c' lookups
  | element_get_attribute _ name =>
      (Ok (StaticPage.lookup name attributes), lookups)
  | element_send_keys _ _ => (Ok tt, lookups)
  | element_clear _ => (Ok tt, lookups)
  | random_uniform a _ => (Ok a, lookups)
  | element_screenshot _ _ => (Ok true, lookups)
  | ChromeOptions_new => (Ok 5%nat, lookups)
  | options_add_argument _ _ => (Ok tt, lookups)
  | Chrome_new _ => (Ok 6%nat, lookups)
  | driver_execute_cdp_cmd _ _ => (Ok tt, lookups)
  | driver_implicitly_wait _ => (Ok tt, lookups)
  | driver_get _ => (Ok tt, lookups)
  | driver_maximize_window => (Ok tt, lookups)
  | driver_execute_script _ _ => (Ok (PyVal.JString "complete"), lookups)
  | driver_current_url => (Ok "about:blank", lookups)
  | driver_save_screenshot _ => (Ok true, lookups)
  | WebDriverWait_poll _ => (Ok true, lookups)
  end.

Definition session : WebDriverMore.Session nat :=
  WebDriver.mkSession (WebDriverMore.mkWorld 0%nat []) [].

End Kiosk.

(** What is done with the mouse, call by call. *)
Inductive mouse_act : Type := Move | Down | Up.

Fixpoint mouse_acts (evs : list Host.event) : list mouse_act :=
  match evs with
  | [] => []
  | Host.issued c :: rest =>
      match c with
      | Host.mouse_move _ _ _ => Move :: mouse_acts rest
      | Host.mouse_down _ => Down :: mouse_acts rest
      | Host.mouse_up _ => Up :: mouse_acts rest
      | _ => mouse_acts rest
      end
  end.

(** The number of times an element is cleared among the calls. *)
Fixpoint clears (evs : list Browser.event) : nat :=
  match evs with
  | [] => O
  | Browser.issued c :: rest =>
      match c with
      | Browser.element_clear _ => S (clears rest)
      | _ => clears rest
      end
  end.

(** ** [bsplaywright/bscmfx.py], the remaining methods *)

Module CmfxRest.
Import PyVal.
Import Host.

Definition newline : string := String (ascii_of_nat 10) EmptyString.

(** The script of [scroll_into_view], line by line. *)
Definition scroll_script : string :=
  newline
  ++ "            (element) => {" ++ newline
  ++ "                const rect = element.getBoundingClientRect();"
  ++ newline
  ++ "                const elementCenterY = rect.top + rect.height / 2;"
  ++ newline
  ++ "                const viewportCenterY = window.innerHeight / 2;"
  ++ newline
  ++ "                window.scrollBy(0, elementCenterY - viewportCenterY);"
  ++ newline
  ++ "            }" ++ newline
  ++ "        ".

Section Wrapper.
Variable Machine : Type.
Variable step : forall X, call X -> Machine -> result X * Machine.
Variable builtin : string -> string -> exn.

(** [self.page.<attribute>]: the page, or the [AttributeError] of
    [None]. *)
Definition self_page (attribute : string)
  : M (CmfxMore.Session Machine) Playwright.handle :=
  me <- Cmfx.get_self (CmfxMore.World Machine) ;;
  match Cmfx.page me with
  | Some pg => ret pg
  | None =>
      raise (AttributeError ("'NoneType' object has no attribute '"
                             ++ attribute ++ "'"))
  end.

Definition navigate_to (url : string) (timeout : Q)
  : M (CmfxMore.Session Machine) unit :=
  pg <- self_page "goto" ;;
  CmfxMore.perform step (page_goto pg url (timeout * 1000)%Q).

Definition save_screenshot (filepath : string)
  : M (CmfxMore.Session Machine) unit :=
  pg <- self_page "screenshot" ;;
  CmfxMore.perform step (page_screenshot pg filepath).

Definition wait_page_to_be_loaded (timeout : Q)
  : M (CmfxMore.Session Machine) unit :=
  pg <- self_page "wait_for_load_state" ;;
  CmfxMore.perform step (page_wait_for_load_state pg (timeout * 1000)%Q) ;;
  CmfxMore.wait_random step (15 # 100)%Q (3 # 10)%Q.

Definition wait_element_to_be_visible (locator : BSLocator) (timeout : Q)
  : M (CmfxMore.Session Machine) unit :=
  l <- Cmfx.self_page_locator locator ;;
  CmfxMore.perform step
    (expect_to_be_visible (Playwright.First l) (timeout * 1000)%Q).

Definition wait_element_to_be_invisible (locator : BSLocator) (timeout : Q)
  : M (CmfxMore.Session Machine) unit :=
  l <- Cmfx.self_page_locator locator ;;
  CmfxMore.perform step (expect_not_to_be_visible l (timeout * 1000)%Q).

Definition wait_element_to_be_enabled (locator : BSLocator) (timeout : Q)
  : M (CmfxMore.Session Machine) unit :=
  l <- Cmfx.self_page_locator locator ;;
  CmfxMore.perform step
    (expect_to_be_enabled (Playwright.First l) (timeout * 1000)%Q).

Definition wait_element_to_have_text (locator : BSLocator) (text : string)
           (timeout : Q) : M (CmfxMore.Session Machine) unit :=
  l <- Cmfx.self_page_locator locator ;;
  CmfxMore.perform step (expect_to_have_text l text (timeout * 1000)%Q).

(** The expectation is built on the locator before the arguments of
    [to_have_attribute], the compiled pattern among them, are
    evaluated. *)
Definition verify_attribute_contains (locator : BSLocator)
           (attr content : string) (ignore_case : bool) (timeout : Q)
  : M (CmfxMore.Session Machine) unit :=
  l <- Cmfx.self_page_locator locator ;;
  pattern <- CmfxMore.perform step (re_compile (".*" ++ content ++ ".*")) ;;
  CmfxMore.perform step
    (expect_to_have_attribute l attr pattern ignore_case
                              (timeout * 1000)%Q).

(** [self.page.mouse] is looked up before the difference that is its
    argument is computed. *)
Definition mouse_wheel_scroll (locator : BSLocator) (timeout : Q)
  : M (CmfxMore.Session Machine) unit :=
  element_handle <- Cmfx.self_page_locator locator ;;
  elem_top_pos <-
    CmfxMore.perform step
      (locator_evaluate element_handle "el => el.offsetTop") ;;
  pg <- self_page "evaluate" ;;
  current_scroll <-
    CmfxMore.perform step (page_evaluate pg "() => window.scrollY" None) ;;
  pg <- self_page "mouse" ;;
  delta <- lift (js_minus builtin elem_top_pos current_scroll) ;;
  CmfxMore.perform step (mouse_wheel pg 0 delta) ;;
  wait_element_to_be_visible locator timeout.

(** [elem_handle] is the selector text, which is what the script is
    given. *)
Definition scroll_into_view (locator : BSLocator) (timeout : Q)
  : M (CmfxMore.Session Machine) unit :=
  Cmfx.wait_element_to_be_present (CmfxMore.core_step step) locator
                                  timeout ;;
  elem_handle <- lift (Cmfx.get_pw_locator locator) ;;
  pg <- self_page "evaluate" ;;
  CmfxMore.perform step (page_evaluate pg scroll_script (Some elem_handle)) ;;
  ret tt.

Definition get_current_url : M (CmfxMore.Session Machine) string :=
  pg <- self_page "url" ;;
  CmfxMore.perform step (page_url pg).

(** [__del__]: when the event loop is running, [quit] is handed to it as
    a task, to be run later; otherwise the loop runs [quit] to its end
    before [run_until_complete] returns.  Whatever is raised is
    dropped. *)
Definition __del__ : M (CmfxMore.Session Machine) unit :=
  me <- Cmfx.get_self (CmfxMore.World Machine) ;;
  match Cmfx._camoufox_instance me with
  | Some _ =>
      try_except
        (loop <- CmfxMore.perform step asyncio_get_event_loop ;;
         running <- CmfxMore.perform step (loop_is_running loop) ;;
         if running then CmfxMore.perform step (loop_create_task loop)
         else
           CmfxMore.perform step (loop_run_until_complete loop) ;;
           CmfxMore.quit step)
        cls_Exception (fun _ => ret tt)
  | None => ret tt
  end.

End Wrapper.

Arguments self_page {Machine} attribute s.
Arguments navigate_to {Machine} step url timeout s.
Arguments save_screenshot {Machine} step filepath s.
Arguments wait_page_to_be_loaded {Machine} step timeout s.
Arguments wait_element_to_be_visible {Machine} step locator timeout s.
Arguments wait_element_to_be_invisible {Machine} step locator timeout s.
Arguments wait_element_to_be_enabled {Machine} step locator timeout s.
Arguments wait_element_to_have_text {Machine} step locator text timeout s.
Arguments verify_attribute_contains {Machine} step locator attr content
  ignore_case timeout s.
Arguments mouse_wheel_scroll {Machine} step builtin locator timeout s.
Arguments scroll_into_view {Machine} step locator timeout s.
Arguments get_current_url {Machine} step s.
Arguments __del__ {Machine} step s.

End CmfxRest.

(** ** [bsselenium/webdriver.py], the remaining methods *)

Module WebDriverRest.
Import PyVal.
Import Browser.

Definition user_agent : string :=
  "Mozilla/5.0 (Windows NT 10.0; Win64; x64) AppleWebKit/537.36 "
  ++ "(KHTML, like Gecko) Chrome/108.0.0.0 Safari/537.36".

Section Wrapper.
Variable Machine : Type.
Variable step : forall X, call X -> Machine -> result X * Machine.
Variable builtin : string -> string -> exn.

(** [self.options] is passed as [options]. *)
Definition headless (options : handle)
  : M (WebDriverMore.Session Machine) unit :=
  WebDriverMore.perform step (options_add_argument options "--headless").

(** The session holds the one driver, to which the later calls go. *)
Definition __init__ (is_headless : bool)
  : M (WebDriverMore.Session Machine) unit :=
  options <- WebDriverMore.perform step ChromeOptions_new ;;
  WebDriverMore.perform step (options_add_argument options "--incognito") ;;
  (if is_headless then headless options else ret tt) ;;
  WebDriverMore.perform step (Chrome_new options) ;;
  WebDriverMore.perform step
    (driver_execute_cdp_cmd "Network.setUserAgentOverride"
                            [("userAgent", VStr user_agent)]).

Definition close_tab (window_handle : string)
  : M (WebDriverMore.Session Machine) unit :=
  ret tt.

Definition set_implicit_wait (wait_time : Q)
  : M (WebDriverMore.Session Machine) unit :=
  WebDriverMore.perform step (driver_implicitly_wait wait_time).

Definition navigate_to (url : string)
  : M (WebDriverMore.Session Machine) unit :=
  WebDriverMore.perform step (driver_get url).

Definition maximize_window : M (WebDriverMore.Session Machine) unit :=
  WebDriverMore.perform step driver_maximize_window.

Definition grab_focus : M (WebDriverMore.Session Machine) unit :=
  WebDriverMore.perform step (driver_execute_script "window.focus();" []) ;;
  ret tt.

Definition get_current_url : M (WebDriverMore.Session Machine) string :=
  WebDriverMore.perform step driver_current_url.

Definition scroll_element_into_view (element_locator : BSLocator)
  : M (WebDriverMore.Session Machine) unit :=
  element <- WebDriver.find_element (WebDriverMore.core_step step)
                                    element_locator false ;;
  WebDriverMore.perform step
    (driver_execute_script
       "arguments[0].scrollIntoView({block: 'center'});" [element]) ;;
  ret tt.

Definition execute_script (script : string)
  : M (WebDriverMore.Session Machine) unit :=
  WebDriverMore.perform step (driver_execute_script script []) ;;
  ret tt.

Definition scroll_to_page_top : M (WebDriverMore.Session Machine) unit :=
  execute_script "window.scrollTo(0, 0);".

Definition save_screenshot (file_path : string)
  : M (WebDriverMore.Session Machine) unit :=
  WebDriverMore.perform step (driver_save_screenshot file_path) ;;
  ret tt.

Definition save_element_screenshot (element_locator : BSLocator)
           (file_path : string) : M (WebDriverMore.Session Machine) unit :=
  e <- WebDriver.find_element (WebDriverMore.core_step step)
                              element_locator false ;;
  WebDriverMore.perform step (element_screenshot e file_path) ;;
  ret tt.

(** [WebDriverWait(driver, timeout).until(method)] for a [method] of the
    wrapper's own.  Selenium evaluates [method]: a truthy value ends the
    wait; after a falsy value, or a [NoSuchElementException], which the
    wait ignores, it asks its clock, and either sleeps for the poll
    interval and evaluates [method] again, or, the time being up, raises
    [TimeoutException].  [rounds] bounds the evaluations that follow the
    first. *)
Fixpoint until_at (rounds : nat) (timeout : Q)
         (method : M (WebDriverMore.Session Machine) bool)
  : M (WebDriverMore.Session Machine) unit :=
  value <- try_except method cls_NoSuchElementException
                      (fun _ => ret false) ;;
  if value then ret tt
  else
    more <- WebDriverMore.perform step (WebDriverWait_poll timeout) ;;
    if more then
      match rounds with
      | O => raise (TimeoutException "")
      | S rounds' => until_at rounds' timeout method
      end
    else raise (TimeoutException "").

Variable rounds : nat.

Definition wait_page_to_be_loaded (max_time : Q)
  : M (WebDriverMore.Session Machine) unit :=
  until_at rounds max_time
    (state <- WebDriverMore.perform step
                (driver_execute_script "return document.readyState" []) ;;
     ret (js_equals_str state "complete")).

(** [content in self.find_element(locator).get_attribute(attr)]: an
    attribute that is [None] cannot be searched. *)
Definition attribute_contains (locator : BSLocator) (attr content : string)
  : M (WebDriverMore.Session Machine) bool :=
  e <- WebDriver.find_element (WebDriverMore.core_step step) locator false ;;
  attribute <- WebDriverMore.perform step (element_get_attribute e attr) ;;
  match attribute with
  | Some v => ret (contains content v)
  | None =>
      raise (builtin "TypeError"
                     "argument of type 'NoneType' is not iterable")
  end.

Definition wait_element_class_to_contain (locator : BSLocator)
           (content : string) (max_time : Q)
  : M (WebDriverMore.Session Machine) unit :=
  until_at rounds max_time (attribute_contains locator "class" content).

Definition wait_attribute_to_contain (locator : BSLocator)
           (attr content : string) (tolerance_time : Q)
           (raise_exception : bool)
  : M (WebDriverMore.Session Machine) unit :=
  try_except
    (until_at rounds tolerance_time
              (attribute_contains locator attr content))
    cls_Exception
    (fun e => if raise_exception then raise e else ret tt).

End Wrapper.

Arguments headless {Machine} step options s.
Arguments __init__ {Machine} step is_headless s.
Arguments close_tab {Machine} window_handle s.
Arguments set_implicit_wait {Machine} step wait_time s.
Arguments navigate_to {Machine} step url s.
Arguments maximize_window {Machine} step s.
Arguments grab_focus {Machine} step s.
Arguments get_current_url {Machine} step s.
Arguments scroll_element_into_view {Machine} step element_locator s.
Arguments execute_script {Machine} step script s.
Arguments scroll_to_page_top {Machine} step s.
Arguments save_screenshot {Machine} step file_path s.
Arguments save_element_screenshot {Machine} step element_locator
  file_path s.
Arguments until_at {Machine} step rounds timeout method s.
Arguments wait_page_to_be_loaded {Machine} step rounds max_time s.
Arguments attribute_contains {Machine} step builtin locator attr content s.
Arguments wait_element_class_to_contain {Machine} step builtin rounds
  locator content max_time s.
Arguments wait_attribute_to_contain {Machine} step builtin rounds locator
  attr content tolerance_time raise_exception s.

End WebDriverRest.

(** ** Traces: the calls of a run with their outcomes *)

(** An entry of a trace: a call, and whether it missed. *)
Record entry (event : Type) : Type := noted {
  what : event;
  missed : bool
}.
Arguments noted {event} what missed.
Arguments what {event} e.
Arguments missed {event} e.

Section Traces.
Variable event : Type.
(** The polls of a wait among the calls. *)
Variable is_poll : event -> bool.
(** A coarse sort of the calls: equal calls have equal tags. *)
Variable tag : event -> nat.

Definition polls (l : list (entry event)) : nat :=
  length (filter (fun n => is_poll (what n)) l).

(** A retry in a trace: a call that missed is issued again, and no wait
    has polled between the two. *)
Definition reissued (l : list (entry event)) : Prop :=
  exists a e b x c,
    l = (a ++ noted e true :: b ++ noted e x :: c)%list /\ polls b = O.

(** No call of the trace missed. *)
Definition unmissed (l : list (entry event)) : bool :=
  forallb (fun n => negb (missed n)) l.

(** Only the last call of the trace may have missed. *)
Fixpoint stops_at_miss (l : list (entry event)) : bool :=
  match l with
  | [] => true
  | n :: rest =>
      match rest with
      | [] => true
      | _ :: _ => negb (missed n) && stops_at_miss rest
      end
  end.

(** From here to the next poll there is no call tagged [t]; a poll tagged
    [t] counts as such a call. *)
Fixpoint clear_until_poll (t : nat) (l : list (entry event)) : bool :=
  match l with
  | [] => true
  | n :: rest =>
      if Nat.eqb (tag (what n)) t then false
      else if is_poll (what n) then true
      else clear_until_poll t rest
  end.

(** After each call that missed, no call of its tag follows before the
    next poll. *)
Fixpoint settled (l : list (entry event)) : bool :=
  match l with
  | [] => true
  | n :: rest =>
      (if missed n then clear_until_poll (tag (what n)) rest else true)
      && settled rest
  end.

End Traces.

Arguments polls {event} is_poll l.
Arguments reissued {event} is_poll l.
Arguments unmissed {event} l.
Arguments stops_at_miss {event} l.
Arguments clear_until_poll {event} is_poll tag t l.
Arguments settled {event} is_poll tag l.

Section Runs.
Context {W event : Type}.
Variable is_poll : event -> bool.
Variable tag : event -> nat.
(** The trace kept in a session. *)
Variable trace : W -> list (entry event).

(** A computation that makes no call. *)
Definition silent {A} (m : M W A) : Prop :=
  forall s, trace (snd (m s)) = trace s.

(** A computation that stops at the first call that misses, and then
    raises; no wait polls in it. *)
Definition halting {A} (m : M W A) : Prop :=
  forall s,
  exists new,
    trace (snd (m s)) = (trace s ++ new)%list
    /\ stops_at_miss new = true
    /\ polls is_poll new = O
    /\ (is_ok (fst (m s)) = true -> unmissed new = true).

(** A computation whose trace is settled; unless it is [polled], no
    wait polls in it. *)
Definition tidy (polled : bool) {A} (m : M W A) : Prop :=
  forall s,
  exists new,
    trace (snd (m s)) = (trace s ++ new)%list
    /\ settled is_poll tag new = true
    /\ (polled = false -> polls is_poll new = O).

End Runs.

(** *** The Selenium side *)

(** A call misses when it raises; a lookup of several elements also when
    it finds none. *)
Definition browser_misses {X} (c : Browser.call X) (r : result X) : bool :=
  match r with
  | Err _ => true
  | Ok v =>
      match c in Browser.call T return T -> bool with
      | Browser.selenium c' =>
          match c' in Selenium.call T return T -> bool with
          | Selenium.driver_find_elements _ _ =>
              fun elements =>
                match elements with
                | [] => true
                | _ :: _ => false
                end
          | _ => fun _ => false
          end
      | _ => fun _ => false
      end v
  end.

Definition browser_is_poll (e : Browser.event) : bool :=
  match e with
  | Browser.issued c =>
      match c with
      | Browser.WebDriverWait_poll _ => true
      | _ => false
      end
  end.

Definition browser_tag (e : Browser.event) : nat :=
  match e with
  | Browser.issued c =>
      match c with
      | Browser.selenium c' =>
          match c' with
          | Selenium.driver_find_element _ _ => 1
          | Selenium.driver_find_elements _ _ => 2
          | Selenium.WebDriverWait_until _ _ => 3
          | _ => 0
          end
      | Browser.WebDriverWait_poll _ => 4
      | _ => 0
      end
  end%nat.

(** A machine that keeps the trace of the calls it answers. *)
Definition browser_tracing {Machine}
           (step : forall X, Browser.call X -> Machine -> result X * Machine)
           (X : Type) (c : Browser.call X)
           (st : Machine * list (entry Browser.event))
  : result X * (Machine * list (entry Browser.event)) :=
  let (r, m') := step X c (fst st) in
  (r, (m', (snd st ++ [noted (Browser.issued c) (browser_misses c r)])%list)).

Definition browser_trace {Machine}
           (s : WebDriverMore.Session
                  (Machine * list (entry Browser.event)))
  : list (entry Browser.event) :=
  snd (WebDriverMore.machine (WebDriver.driver s)).

(** The methods of [BSWebDriver], with their arguments. *)
Module WebDriverOps.

Inductive operation : Type :=
| __init__ (is_headless : bool)
| quit
| close_tab (window_handle : string)
| headless (options : Browser.handle)
| set_implicit_wait (wait_time : Q)
| navigate_to (url : string)
| maximize_window
| grab_focus
| find_element (locator : BSLocator) (retry : bool)
| find_elements (locator : BSLocator) (retry : bool)
| click_element (locator : BSLocator)
| clear (locator : BSLocator)
| send_keys (locator : BSLocator) (content : string)
| clear_and_send_keys (locator : BSLocator) (content : string)
| human_type (locator : BSLocator) (content : string)
| clear_and_human_type (locator : BSLocator) (content : string)
| get_text (locator : BSLocator) (raise_exception : bool) (timeout : Q)
| get_class (locator : BSLocator)
| get_value (locator : BSLocator)
| is_element_present (locator : BSLocator) (tolerance_time : Q)
| is_element_displayed (locator : BSLocator) (tolerance_time : Q)
| is_element_clickable (locator : BSLocator) (tolerance_time : Q)
| wait_element_to_be_present (locator : BSLocator) (tolerance_time : Q)
| wait_element_to_be_clickable (locator : BSLocator) (tolerance_time : Q)
                               (raise_exception : bool)
| wait_element_to_be_visible (locator : BSLocator) (raise_exception : bool)
                             (tolerance_time : Q)
| wait_element_to_be_invisible (locator : BSLocator)
                               (raise_exception : bool)
                               (tolerance_time : Q)
| wait_page_to_be_loaded (max_time : Q)
| wait_element_class_to_contain (locator : BSLocator) (content : string)
                                (max_time : Q)
| wait_attribute_to_contain (locator : BSLocator) (attr content : string)
                            (tolerance_time : Q) (raise_exception : bool)
| get_current_url
| scroll_element_into_view (element_locator : BSLocator)
| scroll_to_page_top
| execute_script (script : string)
| save_screenshot (file_path : string)
| save_element_screenshot (element_locator : BSLocator)
                          (file_path : string)
| wait_random (_min _max : Q)
| wait_static (wait_time : Q).

(** The session a method leaves behind. *)
Definition run {Machine}
           (step : forall X, Browser.call X -> Machine -> result X * Machine)
           (builtin : string -> string -> exn) (rounds : nat)
           (o : operation) (s : WebDriverMore.Session Machine)
  : WebDriverMore.Session Machine :=
  let core := WebDriverMore.core_step step in
  match o with
  | __init__ is_headless => snd (WebDriverRest.__init__ step is_headless s)
  | quit => snd (WebDriver.quit core s)
  | close_tab window_handle => snd (WebDriverRest.close_tab window_handle s)
  | headless options => snd (WebDriverRest.headless step options s)
  | set_implicit_wait wait_time =>
      snd (WebDriverRest.set_implicit_wait step wait_time s)
  | navigate_to url => snd (WebDriverRest.navigate_to step url s)
  | maximize_window => snd (WebDriverRest.maximize_window step s)
  | grab_focus => snd (WebDriverRest.grab_focus step s)
  | find_element locator retry =>
      snd (WebDriver.find_element core locator retry s)
  | find_elements locator retry =>
      snd (WebDriver.find_elements core locator retry s)
  | click_element locator => snd (WebDriver.click_element core locator s)
  | clear locator => snd (WebDriverMore.clear step locator s)
  | send_keys locator content =>
      snd (WebDriverMore.send_keys step locator content s)
  | clear_and_send_keys locator content =>
      snd (WebDriverMore.clear_and_send_keys step locator content s)
  | human_type locator content =>
      snd (WebDriverMore.human_type step locator content s)
  | clear_and_human_type locator content =>
      snd (WebDriverMore.clear_and_human_type step locator content s)
  | get_text locator raise_exception timeout =>
      snd (WebDriver.get_text core locator raise_exception timeout s)
  | get_class locator => snd (WebDriverMore.get_class step locator s)
  | get_value locator => snd (WebDriverMore.get_value step locator s)
  | is_element_present locator tolerance_time =>
      snd (WebDriver.is_element_present core locator tolerance_time s)
  | is_element_displayed locator tolerance_time =>
      snd (WebDriver.is_element_displayed core locator tolerance_time s)
  | is_element_clickable locator tolerance_time =>
      snd (WebDriver.is_element_clickable core locator tolerance_time s)
  | wait_element_to_be_present locator tolerance_time =>
      snd (WebDriver.wait_element_to_be_present core locator
                                                tolerance_time s)
  | wait_element_to_be_clickable locator tolerance_time raise_exception =>
      snd (WebDriver.wait_element_to_be_clickable core locator
                                                  tolerance_time
                                                  raise_exception s)
  | wait_element_to_be_visible locator raise_exception tolerance_time =>
      snd (WebDriver.wait_element_to_be_visible core locator
                                                raise_exception
                                                tolerance_time s)
  | wait_element_to_be_invisible locator raise_exception tolerance_time =>
      snd (WebDriver.wait_element_to_be_invisible core locator
                                                  raise_exception
                                                  tolerance_time s)
  | wait_page_to_be_loaded max_time =>
      snd (WebDriverRest.wait_page_to_be_loaded step rounds max_time s)
  | wait_element_class_to_contain locator content max_time =>
      snd (WebDriverRest.wait_element_class_to_contain
             step builtin rounds locator content max_time s)
  | wait_attribute_to_contain locator attr content tolerance_time
                              raise_exception =>
      snd (WebDriverRest.wait_attribute_to_contain
             step builtin rounds locator attr content tolerance_time
             raise_exception s)
  | get_current_url => snd (WebDriverRest.get_current_url step s)
  | scroll_element_into_view element_locator =>
      snd (WebDriverRest.scroll_element_into_view step element_locator s)
  | scroll_to_page_top => snd (WebDriverRest.scroll_to_page_top step s)
  | execute_script script => snd (WebDriverRest.execute_script step script s)
  | save_screenshot file_path =>
      snd (WebDriverRest.save_screenshot step file_path s)
  | save_element_screenshot element_locator file_path =>
      snd (WebDriverRest.save_element_screenshot step element_locator
                                                 file_path s)
  | wait_random _min _max => snd (WebDriverMore.wait_random step _min _max s)
  | wait_static wait_time => snd (WebDriver.wait_static core wait_time s)
  end.

(** The lookups asked to retry. *)
Definition retrying (o : operation) : bool :=
  match o with
  | find_element _ retry => retry
  | find_elements _ retry => retry
  | _ => false
  end.

(** The waits on a condition of the wrapper's own. *)
Definition polling (o : operation) : bool :=
  match o with
  | wait_page_to_be_loaded _ => true
  | wait_element_class_to_contain _ _ _ => true
  | wait_attribute_to_contain _ _ _ _ _ => true
  | _ => false
  end.

End WebDriverOps.

(** *** The Playwright side *)

(** A call misses when it raises. *)
Definition host_misses {X} (c : Host.call X) (r : result X) : bool :=
  negb (is_ok r).

Definition host_is_poll (e : Host.event) : bool := false.

Definition host_tag (e : Host.event) : nat := O.

Definition host_tracing {Machine}
           (step : forall X, Host.call X -> Machine -> result X * Machine)
           (X : Type) (c : Host.call X)
           (st : Machine * list (entry Host.event))
  : result X * (Machine * list (entry Host.event)) :=
  let (r, m') := step X c (fst st) in
  (r, (m', (snd st ++ [noted (Host.issued c) (host_misses c r)])%list)).

Definition host_trace {Machine}
           (s : CmfxMore.Session (Machine * list (entry Host.event)))
  : list (entry Host.event) :=
  snd (CmfxMore.machine (Cmfx.engine s)).

(** The methods of [BSCmfx], with their arguments.  [__init__] only
    stores the settings, which [initialize] and [__aenter__] are given
    here; the value of [clear_and_send_keys] is given by its [str()]. *)
Module CmfxOps.

Inductive operation : Type :=
| __init__ (cfg : CmfxMore.Settings)
| initialize (cfg : CmfxMore.Settings)
| _get_locale
| _get_screen_resolution
| _get_platform_and_web_gl
| get_pw_locator (locator : BSLocator)
| navigate_to (url : string) (timeout : Q)
| save_screenshot (filepath : string)
| wait_random (_min _max : Q)
| wait_static (wait_time : Q)
| wait_page_to_be_loaded (timeout : Q)
| is_element_present (locator : BSLocator) (timeout : Q)
| is_element_visible (locator : BSLocator) (timeout : Q)
| wait_element_to_be_present (locator : BSLocator) (timeout : Q)
| wait_element_to_be_visible (locator : BSLocator) (timeout : Q)
| wait_element_to_be_invisible (locator : BSLocator) (timeout : Q)
| wait_element_to_be_enabled (locator : BSLocator) (timeout : Q)
| wait_element_to_have_text (locator : BSLocator) (text : string)
                            (timeout : Q)
| verify_attribute_contains (locator : BSLocator) (attr content : string)
                            (ignore_case : bool) (timeout : Q)
| check_attribute_is_equals (locator : BSLocator) (attr content : string)
                            (ignore_case : bool) (timeout : Q)
| get_attribute_value (locator : BSLocator) (attr : string) (timeout : Q)
| get_element_text (locator : BSLocator) (timeout : Q)
                   (raise_exception : bool)
| get_elements_text (locator : BSLocator) (timeout : Q)
| get_elements_count (locator : BSLocator) (timeout : Q)
| manual_click_element (locator : BSLocator) (timeout : Q)
| click_element (locator : BSLocator) (timeout : Q)
| click_nth_element (locator : BSLocator) (index : Z) (timeout : Q)
| click_element_by_partial_texts
    (locator : BSLocator) (partial_containing_texts : list string)
    (partial_non_containing_texts : option (list string)) (timeout : Q)
| clear (locator : BSLocator)
| clear_input (input_elem : Playwright.Locator) (timeout : Q)
| human_send_keys_and_press_enter (locator : BSLocator) (content : string)
                                  (timeout : Q)
| human_send_keys (locator : BSLocator) (content : string) (timeout : Q)
| clear_and_send_keys (locator : BSLocator) (value : string)
| mouse_wheel_scroll (locator : BSLocator) (timeout : Q)
| scroll_into_view (locator : BSLocator) (timeout : Q)
| get_current_url
| quit
| __aenter__ (cfg : CmfxMore.Settings)
| __aexit__
| __del__.

(** The session a method leaves behind. *)
Definition run {Machine}
           (step : forall X, Host.call X -> Machine -> result X * Machine)
           (builtin : string -> string -> exn)
           (o : operation) (s : CmfxMore.Session Machine)
  : CmfxMore.Session Machine :=
  let core := CmfxMore.core_step step in
  match o with
  | __init__ _ => s
  | initialize cfg => snd (CmfxMore.initialize step builtin cfg s)
  | _get_locale => snd (CmfxMore._get_locale step s)
  | _get_screen_resolution => snd (CmfxMore._get_screen_resolution step s)
  | _get_platform_and_web_gl =>
      snd (CmfxMore._get_platform_and_web_gl step s)
  | get_pw_locator _ => s
  | navigate_to url timeout => snd (CmfxRest.navigate_to step url timeout s)
  | save_screenshot filepath => snd (CmfxRest.save_screenshot step filepath s)
  | wait_random _min _max => snd (CmfxMore.wait_random step _min _max s)
  | wait_static wait_time => snd (Cmfx.wait_static core wait_time s)
  | wait_page_to_be_loaded timeout =>
      snd (CmfxRest.wait_page_to_be_loaded step timeout s)
  | is_element_present locator timeout =>
      snd (Cmfx.is_element_present core locator timeout s)
  | is_element_visible locator timeout =>
      snd (Cmfx.is_element_visible core locator timeout s)
  | wait_element_to_be_present locator timeout =>
      snd (Cmfx.wait_element_to_be_present core locator timeout s)
  | wait_element_to_be_visible locator timeout =>
      snd (CmfxRest.wait_element_to_be_visible step locator timeout s)
  | wait_element_to_be_invisible locator timeout =>
      snd (CmfxRest.wait_element_to_be_invisible step locator timeout s)
  | wait_element_to_be_enabled locator timeout =>
      snd (CmfxRest.wait_element_to_be_enabled step locator timeout s)
  | wait_element_to_have_text locator text timeout =>
      snd (CmfxRest.wait_element_to_have_text step locator text timeout s)
  | verify_attribute_contains locator attr content ignore_case timeout =>
      snd (CmfxRest.verify_attribute_contains step locator attr content
                                              ignore_case timeout s)
  | check_attribute_is_equals locator attr content ignore_case timeout =>
      snd (Cmfx.check_attribute_is_equals core locator attr content
                                          ignore_case timeout s)
  | get_attribute_value locator attr timeout =>
      snd (Cmfx.get_attribute_value core locator attr timeout s)
  | get_element_text locator timeout raise_exception =>
      snd (Cmfx.get_element_text core locator timeout raise_exception s)
  | get_elements_text locator timeout =>
      snd (Cmfx.get_elements_text core locator timeout s)
  | get_elements_count locator timeout =>
      snd (Cmfx.get_elements_count core locator timeout s)
  | manual_click_element locator timeout =>
      snd (CmfxMore.manual_click_element step builtin locator timeout s)
  | click_element locator timeout =>
      snd (Cmfx.click_element core locator timeout s)
  | click_nth_element locator index timeout =>
      snd (Cmfx.click_nth_element core locator index timeout s)
  | click_element_by_partial_texts locator partial_containing_texts
                                   partial_non_containing_texts timeout =>
      snd (Cmfx.click_element_by_partial_texts
             core locator partial_containing_texts
             partial_non_containing_texts timeout s)
  | clear locator => snd (CmfxMore.clear step locator s)
  | clear_input input_elem timeout =>
      snd (CmfxMore.clear_input step input_elem timeout s)
  | human_send_keys_and_press_enter locator content timeout =>
      snd (CmfxMore.human_send_keys_and_press_enter step locator content
                                                    timeout s)
  | human_send_keys locator content timeout =>
      snd (CmfxMore.human_send_keys step locator content timeout s)
  | clear_and_send_keys locator value =>
      snd (CmfxMore.clear_and_send_keys step (fun v : string => v)
                                        locator value s)
  | mouse_wheel_scroll locator timeout =>
      snd (CmfxRest.mouse_wheel_scroll step builtin locator timeout s)
  | scroll_into_view locator timeout =>
      snd (CmfxRest.scroll_into_view step locator timeout s)
  | get_current_url => snd (CmfxRest.get_current_url step s)
  | quit => snd (CmfxMore.quit step s)
  | __aenter__ cfg => snd (CmfxMore.__aenter__ step builtin cfg s)
  | __aexit__ => snd (Cmfx.__aexit__ core s)
  | __del__ => snd (CmfxRest.__del__ step s)
  end.

End CmfxOps.

(** * Properties *)

(** ** Strings *)

Lemma split_no_comma (s : string) :
  no_comma s = true -> Py.split "," s = [s].
Proof.
  induction s as [|c r IH]; simpl; intros H.
  - reflexivity.
  - apply andb_prop in H as [Hc Hr].
    destruct (Ascii.eqb c ","); [discriminate|].
    now rewrite (IH Hr).
Qed.

Lemma split_app_comma (a r : string) :
  no_comma a = true ->
  Py.split "," (a ++ String "," r) = a :: Py.split "," r.
Proof.
  induction a as [|c a IH]; simpl; intros H.
  - reflexivity.
  - apply andb_prop in H as [Hc Ha].
    destruct (Ascii.eqb c ","); [discriminate|].
    now rewrite (IH Ha).
Qed.

Lemma join_cons2 (sep x y : string) (l : list string) :
  Py.join sep (x :: y :: l) = x ++ sep ++ Py.join sep (y :: l).
Proof. reflexivity. Qed.

(** Splitting a ", "-joined list of comma-free pieces gives the pieces
    back, all but the first with the blank that followed the comma. *)
Lemma split_join (l : list string) :
  forall x : string,
    no_comma x = true -> forallb no_comma l = true ->
    Py.split "," (Py.join ", " (x :: l)) = x :: map (String " ") l.
Proof.
  induction l as [|y l IH]; intros x Hx Hl.
  - simpl. now apply split_no_comma.
  - simpl in Hl. apply andb_prop in Hl as [Hy Hl].
    rewrite join_cons2.
    change (x ++ ", " ++ Py.join ", " (y :: l))
      with (x ++ String "," (String " " (Py.join ", " (y :: l)))).
    rewrite (split_app_comma _ _ Hx).
    change (Py.split "," (String " " (Py.join ", " (y :: l))))
      with (match Py.split "," (Py.join ", " (y :: l)) with
            | p :: ps => String " " p :: ps
            | [] => [String " " EmptyString]
            end).
    now rewrite (IH y Hy Hl).
Qed.

Lemma strip_after_blank (s : string) : Py.strip (String " " s) = Py.strip s.
Proof. reflexivity. Qed.

Lemma is_subselector_inv (s : string) :
  is_subselector s = true ->
  Py.truthy s = true /\ no_comma s = true /\ Py.strip s = s.
Proof.
  unfold is_subselector. intros H.
  apply andb_prop in H as [H H3]. apply andb_prop in H as [H1 H2].
  repeat split; trivial. now apply String.eqb_eq.
Qed.

Lemma forallb_subselector_no_comma (l : list string) :
  forallb is_subselector l = true -> forallb no_comma l = true.
Proof.
  induction l as [|x l IH]; simpl; intros H; [reflexivity|].
  apply andb_prop in H as [Hx Hl].
  apply is_subselector_inv in Hx as (_ & Hx & _).
  now rewrite Hx, (IH Hl).
Qed.

Lemma trimmed_pieces (l : list string) :
  forallb is_subselector l = true ->
  filter Py.truthy (map Py.strip (map (String " ") l)) = l.
Proof.
  induction l as [|x l IH]; simpl; intros H; [reflexivity|].
  apply andb_prop in H as [Hx Hl].
  apply is_subselector_inv in Hx as (Ht & _ & Hs).
  rewrite strip_after_blank, Hs, Ht. now rewrite (IH Hl).
Qed.

(** A value written as subselectors joined by ", " is read back as those
    subselectors. *)
Lemma subselectors_join (subs : list string) :
  forallb is_subselector subs = true ->
  subselectors (Py.join ", " subs) = subs.
Proof.
  destruct subs as [|x l]; intros H; [reflexivity|].
  pose proof (forallb_subselector_no_comma _ H) as Hn.
  simpl in H, Hn.
  apply andb_prop in H as [Hx Hl]. apply andb_prop in Hn as [Hnx Hnl].
  unfold subselectors. rewrite (split_join l x Hnx Hnl).
  apply is_subselector_inv in Hx as (Ht & _ & Hs).
  cbn [map filter]. rewrite Hs, Ht. now rewrite (trimmed_pieces l Hl).
Qed.

(** The comprehension of [get_nth_element] ranges over the same pieces as
    the one of [get_descendant]. *)
Lemma nth_pieces (f : string -> string) (l : list string) :
  map (fun ss => f (Py.strip ss)) (filter (fun ss => Py.truthy (Py.strip ss)) l)
  = map f (filter Py.truthy (map Py.strip l)).
Proof.
  induction l as [|x l IH]; simpl; [reflexivity|].
  destruct (Py.truthy (Py.strip x)); simpl; now rewrite IH.
Qed.

(** ** Locators *)

Lemma get_descendant_css (v : string) (other : BSLocator) :
  Locator.get_descendant (Locator.css v) other
  = Ok (Locator.css
          (Py.join ", " (map (fun ss => ss ++ " " ++ value other)
                             (subselectors v)))).
Proof. reflexivity. Qed.

Lemma get_nth_element_css (v : string) (i : Z) :
  Locator.get_nth_element (Locator.css v) i
  = Ok (Locator.css
          (Py.join ", "
             (map (fun ss => ss ++ ":nth-child(" ++ Py.str_of_int i ++ ")")
                  (subselectors v)))).
Proof.
  unfold Locator.get_nth_element, subselectors.
  cbn [by_ Locator.css By_eqb value].
  now rewrite (nth_pieces
                 (fun ss => ss ++ ":nth-child(" ++ Py.str_of_int i ++ ")")).
Qed.

Example get_descendant_drops_empty_pieces :
  Locator.get_descendant (Locator.css " ul ,, ol ,") (Locator.css "li")
  = Ok (Locator.css "ul li, ol li").
Proof. reflexivity. Qed.

Example get_nth_element_negative_index :
  Locator.get_nth_element (Locator.css "tr, td.x") (-2)
  = Ok (Locator.css "tr:nth-child(-2), td.x:nth-child(-2)").
Proof. reflexivity. Qed.

Example get_descendant_on_id :
  Locator.get_descendant (Locator.id "main") (Locator.css "li")
  = Err (Exception "BSLocator Concatenation Error").
Proof. reflexivity. Qed.

(** C1.  Descendant derivation on a css-selector locator reads the
    parent's value as a comma-separated union of subselectors and rewrites
    each subselector [ss] as [ss ++ " " ++ child value], joined again by
    ", "; a parent value "a, b" with child value "c" gives "a c, b c".  On
    an xpath locator the result is the xpath locator whose value is the
    parent value followed by the child value. *)
Theorem get_descendant_spec :
  (forall (v : string) (other : BSLocator),
      Locator.get_descendant (Locator.css v) other
      = Ok (Locator.css
              (Py.join ", " (map (fun ss => ss ++ " " ++ value other)
                                 (subselectors v)))))
  /\ (forall (subs : list string) (other : BSLocator),
         forallb is_subselector subs = true ->
         Locator.get_descendant (Locator.css (Py.join ", " subs)) other
         = Ok (Locator.css
                 (Py.join ", " (map (fun ss => ss ++ " " ++ value other)
                                    subs))))
  /\ Locator.get_descendant (Locator.css "a, b") (Locator.css "c")
     = Ok (Locator.css "a c, b c")
  /\ (forall (v : string) (other : BSLocator),
         Locator.get_descendant (Locator.xpath v) other
         = Ok (Locator.xpath (v ++ value other))).
Proof.
  repeat split.
  - intros subs other H.
    now rewrite get_descendant_css, (subselectors_join subs H).
Qed.

Lemma get_descendant_spec_witness :
  forallb is_subselector ["ul.menu > li"; "nav a"] = true
  /\ Locator.get_descendant (Locator.css "ul.menu > li, nav a")
                            (Locator.css "span")
     = Ok (Locator.css "ul.menu > li span, nav a span").
Proof.
  split; [reflexivity|].
  exact (proj1 (proj2 get_descendant_spec)
               ["ul.menu > li"; "nav a"] (Locator.css "span") eq_refl).
Defined.

(** C2.  For every integer [i], nth derivation on an xpath locator with
    value [v] gives the xpath locator with value "(v)[i]" ([i] in
    decimal), so nth 3 on "//div" gives "(//div)[3]"; on a css-selector
    locator it appends ":nth-child(i)" to every comma-separated
    subselector of the value. *)
Theorem get_nth_element_spec :
  (forall (v : string) (i : Z),
      Locator.get_nth_element (Locator.xpath v) i
      = Ok (Locator.xpath ("(" ++ v ++ ")[" ++ Py.str_of_int i ++ "]")))
  /\ Locator.get_nth_element (Locator.xpath "//div") 3
     = Ok (Locator.xpath "(//div)[3]")
  /\ (forall (v : string) (i : Z),
         Locator.get_nth_element (Locator.css v) i
         = Ok (Locator.css
                 (Py.join ", "
                    (map (fun ss =>
                            ss ++ ":nth-child(" ++ Py.str_of_int i ++ ")")
                         (subselectors v)))))
  /\ (forall (subs : list string) (i : Z),
         forallb is_subselector subs = true ->
         Locator.get_nth_element (Locator.css (Py.join ", " subs)) i
         = Ok (Locator.css
                 (Py.join ", "
                    (map (fun ss =>
                            ss ++ ":nth-child(" ++ Py.str_of_int i ++ ")")
                         subs)))).
Proof.
  repeat split.
  - intros v i. apply get_nth_element_css.
  - intros subs i H.
    now rewrite get_nth_element_css, (subselectors_join subs H).
Qed.

Lemma get_nth_element_spec_witness :
  forallb is_subselector ["tr.odd"; "tr.even"] = true
  /\ Locator.get_nth_element (Locator.css "tr.odd, tr.even") 2
     = Ok (Locator.css "tr.odd:nth-child(2), tr.even:nth-child(2)").
Proof.
  split; [reflexivity|].
  exact (proj2 (proj2 (proj2 get_nth_element_spec))
               ["tr.odd"; "tr.even"] 2 eq_refl).
Defined.

(** *** Derivations and the store *)

Lemma deref_new_fresh (h : LocatorObjects.store) :
  LocatorObjects.deref h (length h) = None.
Proof. unfold LocatorObjects.deref. apply nth_error_None. lia. Qed.

Lemma deref_new_result (h : LocatorObjects.store) (l : BSLocator) :
  LocatorObjects.deref (h ++ [l])%list (length h) = Some l.
Proof.
  unfold LocatorObjects.deref.
  rewrite nth_error_app2 by lia. now rewrite Nat.sub_diag.
Qed.

Lemma deref_new_old (h : LocatorObjects.store) (l x : BSLocator)
      (r : LocatorObjects.ref) :
  LocatorObjects.deref h r = Some x ->
  LocatorObjects.deref (h ++ [l])%list r = Some x.
Proof.
  unfold LocatorObjects.deref. intros H.
  rewrite nth_error_app1; [exact H|].
  apply nth_error_Some. congruence.
Qed.

Lemma constructing_derives (S : By) (h : LocatorObjects.store)
      (l : BSLocator) :
  by_ l = S ->
  derives S h (Some (LocatorObjects.constructing (Ok l) h)).
Proof.
  intros Hl. exists l, (h ++ [l])%list. repeat split.
  - apply deref_new_fresh.
  - apply deref_new_result.
  - exact Hl.
  - intros r x. apply deref_new_old.
Qed.

(** C3.  For each of the eight strategies [S] and both derivations: on a
    locator of strategy [S] that is neither css-selector nor xpath the
    derivation raises its error and the store is unchanged; on a
    css-selector or xpath locator it succeeds, the result is a new
    locator of the same strategy and the receiver is not modified. *)
Theorem derivation_by_strategy :
  forall (S : By) (v : string) (o : BSLocator) (i : Z)
         (h : LocatorObjects.store) (self other : LocatorObjects.ref),
    LocatorObjects.deref h self = Some (Locator.make S v) ->
    LocatorObjects.deref h other = Some o ->
    if derivable S then
      derives S h (LocatorObjects.get_descendant self other h)
      /\ derives S h (LocatorObjects.get_nth_element self i h)
    else
      LocatorObjects.get_descendant self other h
      = Some (Err (Exception "BSLocator Concatenation Error"), h)
      /\ LocatorObjects.get_nth_element self i h
         = Some (Err (Exception ("Error getting " ++ Py.str_of_int i
                                 ++ "-th child of " ++ v)), h).
Proof.
  intros S v o i h self other Hs Ho.
  unfold LocatorObjects.get_descendant, LocatorObjects.get_nth_element.
  rewrite Hs, Ho.
  destruct S; cbn [derivable]; split;
    try reflexivity; now apply constructing_derives.
Qed.

Lemma derivation_by_strategy_witness :
  (derives CSS_SELECTOR [Locator.css "a, b"; Locator.css "c"]
     (LocatorObjects.get_descendant 0%nat 1%nat
        [Locator.css "a, b"; Locator.css "c"])
   /\ derives CSS_SELECTOR [Locator.css "a, b"; Locator.css "c"]
        (LocatorObjects.get_nth_element 0%nat 3
           [Locator.css "a, b"; Locator.css "c"]))
  /\ (LocatorObjects.get_descendant 0%nat 1%nat
        [Locator.id "main"; Locator.css "c"]
      = Some (Err (Exception "BSLocator Concatenation Error"),
              [Locator.id "main"; Locator.css "c"])
      /\ LocatorObjects.get_nth_element 0%nat 3
           [Locator.id "main"; Locator.css "c"]
         = Some (Err (Exception "Error getting 3-th child of main"),
                 [Locator.id "main"; Locator.css "c"])).
Proof.
  split.
  - exact (derivation_by_strategy CSS_SELECTOR "a, b" (Locator.css "c") 3
             [Locator.css "a, b"; Locator.css "c"] 0%nat 1%nat
             eq_refl eq_refl).
  - exact (derivation_by_strategy ID "main" (Locator.css "c") 3
             [Locator.id "main"; Locator.css "c"] 0%nat 1%nat
             eq_refl eq_refl).
Defined.

(** ** The Playwright wrapper *)

Lemma get_pw_locator_derivable (locator : BSLocator) :
  derivable (by_ locator) = true ->
  exists selector, Cmfx.get_pw_locator locator = Ok selector.
Proof.
  destruct locator as [b v]. destruct b; cbn; intros H;
    try discriminate; eexists; reflexivity.
Qed.

Lemma get_pw_locator_other (locator : BSLocator) :
  derivable (by_ locator) = false ->
  Cmfx.get_pw_locator locator = Err (invalid_selector_type (by_ locator)).
Proof.
  destruct locator as [b v]. destruct b; cbn; intros H;
    try discriminate; reflexivity.
Qed.

Section CmfxRuns.
Import Playwright.
Variable Engine : Type.
Variable step : forall X, call X -> Engine -> result X * Engine.

Lemma await_run {X} (c : call X) (s : Cmfx.Session Engine) :
  Cmfx.await step c s
  = (fst (step X c (Cmfx.engine s)),
     answered s c (snd (step X c (Cmfx.engine s)))).
Proof.
  unfold Cmfx.await, answered. now destruct (step X c (Cmfx.engine s)).
Qed.

Lemma self_page_locator_closed (locator : BSLocator)
      (s : Cmfx.Session Engine) :
  Cmfx.page (Cmfx.self s) = None ->
  Cmfx.self_page_locator locator s
  = (Err (AttributeError "'NoneType' object has no attribute 'locator'"), s).
Proof.
  intros H. unfold Cmfx.self_page_locator, bind, Cmfx.get_self.
  now rewrite H.
Qed.

Lemma self_page_locator_run (locator : BSLocator) (s : Cmfx.Session Engine)
      (pg : handle) :
  Cmfx.page (Cmfx.self s) = Some pg ->
  Cmfx.self_page_locator locator s
  = match Cmfx.get_pw_locator locator with
    | Ok selector => (Ok (Page_locator pg selector), s)
    | Err e => (Err e, s)
    end.
Proof.
  intros H. unfold Cmfx.self_page_locator, bind, Cmfx.get_self, lift, ret.
  rewrite H. now destruct (Cmfx.get_pw_locator locator).
Qed.

(** On a locator that Playwright cannot take, a method that starts by
    building the Playwright locator raises the [ValueError]. *)
Ltac invalid_locator H Hpg :=
  rewrite (self_page_locator_run _ _ _ Hpg), (get_pw_locator_other _ H);
  reflexivity.

Ltac valid_locator Hsel Hpg :=
  rewrite (self_page_locator_run _ _ _ Hpg), Hsel.

Lemma is_element_present_run (locator : BSLocator) (timeout : Q)
      (s : Cmfx.Session Engine) (pg : handle) (selector : string) :
  Cmfx.page (Cmfx.self s) = Some pg ->
  Cmfx.get_pw_locator locator = Ok selector ->
  let c := expect_to_be_attached (First (Page_locator pg selector))
                                 (timeout * 1000)%Q in
  let s' := answered s c (snd (step _ c (Cmfx.engine s))) in
  Cmfx.is_element_present step locator timeout s
  = match fst (step _ c (Cmfx.engine s)) with
    | Ok _ => (Ok true, s')
    | Err e =>
        if isinstance e cls_AssertionError then (Ok false, s')
        else (Err e, s')
    end.
Proof.
  intros Hpg Hsel c s'.
  unfold Cmfx.is_element_present, try_except, bind.
  valid_locator Hsel Hpg. rewrite await_run. fold c. fold s'.
  destruct (fst (step unit c (Cmfx.engine s))) as [[]|e]; [reflexivity|].
  now destruct (isinstance e cls_AssertionError).
Qed.

Lemma is_element_visible_run (locator : BSLocator) (timeout : Q)
      (s : Cmfx.Session Engine) (pg : handle) (selector : string) :
  Cmfx.page (Cmfx.self s) = Some pg ->
  Cmfx.get_pw_locator locator = Ok selector ->
  let c := is_visible (First (Page_locator pg selector))
                      (timeout * 1000)%Q in
  let s' := answered s c (snd (step _ c (Cmfx.engine s))) in
  Cmfx.is_element_visible step locator timeout s
  = match fst (step _ c (Cmfx.engine s)) with
    | Ok b => (Ok b, s')
    | Err e =>
        if isinstance e cls_PlaywrightTimeoutError then (Ok false, s')
        else (Err e, s')
    end.
Proof.
  intros Hpg Hsel c s'.
  unfold Cmfx.is_element_visible, try_except, bind.
  valid_locator Hsel Hpg. rewrite await_run. fold c. fold s'.
  destruct (fst (step bool c (Cmfx.engine s))) as [b|e]; [reflexivity|].
  now destruct (isinstance e cls_PlaywrightTimeoutError).
Qed.

Lemma probes_invalid (locator : BSLocator) (timeout : Q)
      (s : Cmfx.Session Engine) (pg : handle) :
  Cmfx.page (Cmfx.self s) = Some pg ->
  derivable (by_ locator) = false ->
  Cmfx.is_element_present step locator timeout s
  = (Err (invalid_selector_type (by_ locator)), s)
  /\ Cmfx.is_element_visible step locator timeout s
     = (Err (invalid_selector_type (by_ locator)), s).
Proof.
  intros Hpg H.
  unfold Cmfx.is_element_present, Cmfx.is_element_visible, try_except, bind.
  split; invalid_locator H Hpg.
Qed.


Lemma get_element_text_run (locator : BSLocator) (timeout : Q)
      (raise_exception : bool) (s : Cmfx.Session Engine) (pg : handle)
      (selector : string) :
  Cmfx.page (Cmfx.self s) = Some pg ->
  Cmfx.get_pw_locator locator = Ok selector ->
  let c := inner_text (First (Page_locator pg selector))
                      (timeout * 1000)%Q in
  let s' := answered s c (snd (step _ c (Cmfx.engine s))) in
  Cmfx.get_element_text step locator timeout raise_exception s
  = match fst (step _ c (Cmfx.engine s)) with
    | Ok t => (Ok (Some t), s')
    | Err e =>
        if isinstance e cls_PlaywrightTimeoutError then
          if raise_exception then (Err e, s') else (Ok None, s')
        else (Err e, s')
    end.
Proof.
  intros Hpg Hsel c s'.
  unfold Cmfx.get_element_text, try_except, bind.
  valid_locator Hsel Hpg. rewrite await_run. fold c. fold s'.
  destruct (fst (step string c (Cmfx.engine s))) as [t|e]; [reflexivity|].
  destruct (isinstance e cls_PlaywrightTimeoutError); [|reflexivity].
  now destruct raise_exception.
Qed.

Lemma get_element_text_invalid (locator : BSLocator) (timeout : Q)
      (raise_exception : bool) (s : Cmfx.Session Engine) (pg : handle) :
  Cmfx.page (Cmfx.self s) = Some pg ->
  derivable (by_ locator) = false ->
  Cmfx.get_element_text step locator timeout raise_exception s
  = (Err (invalid_selector_type (by_ locator)), s).
Proof.
  intros Hpg H. unfold Cmfx.get_element_text, try_except, bind.
  invalid_locator H Hpg.
Qed.

Lemma wait_element_to_be_present_run (locator : BSLocator) (timeout : Q)
      (s : Cmfx.Session Engine) (pg : handle) (selector : string) :
  Cmfx.page (Cmfx.self s) = Some pg ->
  Cmfx.get_pw_locator locator = Ok selector ->
  let c := expect_to_be_attached (First (Page_locator pg selector))
                                 (timeout * 1000)%Q in
  Cmfx.wait_element_to_be_present step locator timeout s
  = (fst (step _ c (Cmfx.engine s)),
     answered s c (snd (step _ c (Cmfx.engine s)))).
Proof.
  intros Hpg Hsel c. unfold Cmfx.wait_element_to_be_present, bind.
  valid_locator Hsel Hpg. now rewrite await_run.
Qed.

Lemma get_elements_text_run (locator : BSLocator) (timeout : Q)
      (s : Cmfx.Session Engine) (pg : handle) (selector : string) :
  Cmfx.page (Cmfx.self s) = Some pg ->
  Cmfx.get_pw_locator locator = Ok selector ->
  let c := expect_to_be_attached (First (Page_locator pg selector))
                                 (timeout * 1000)%Q in
  let s1 := answered s c (snd (step _ c (Cmfx.engine s))) in
  let s2 := answered s1 c (snd (step _ c (Cmfx.engine s1))) in
  Cmfx.get_elements_text step locator timeout s
  = match fst (step _ c (Cmfx.engine s)) with
    | Err e =>
        if isinstance e cls_AssertionError then (Ok [], s1) else (Err e, s1)
    | Ok _ =>
        match fst (step _ c (Cmfx.engine s1)) with
        | Err e =>
            if isinstance e cls_AssertionError then (Ok [], s2)
            else (Err e, s2)
        | Ok _ =>
            Cmfx.await step (all_inner_texts (Page_locator pg selector)) s2
        end
    end.
Proof.
  intros Hpg Hsel c s1 s2.
  unfold Cmfx.get_elements_text, try_except, bind at 1 2.
  rewrite (wait_element_to_be_present_run _ _ _ _ _ Hpg Hsel).
  fold c. fold s1. cbn [fst snd].
  destruct (fst (step unit c (Cmfx.engine s))) as [[]|e].
  - assert (Hpg1 : Cmfx.page (Cmfx.self s1) = Some pg) by exact Hpg.
    unfold bind. valid_locator Hsel Hpg1. rewrite await_run.
    fold c. fold s2.
    destruct (fst (step unit c (Cmfx.engine s1))) as [[]|e];
      [reflexivity|].
    now destruct (isinstance e cls_AssertionError).
  - now destruct (isinstance e cls_AssertionError).
Qed.

Lemma get_elements_count_run (locator : BSLocator) (timeout : Q)
      (s : Cmfx.Session Engine) (pg : handle) (selector : string) :
  Cmfx.page (Cmfx.self s) = Some pg ->
  Cmfx.get_pw_locator locator = Ok selector ->
  let c := wait_for_attached (First (Page_locator pg selector))
                             (timeout * 1000)%Q in
  let k := count (Page_locator pg selector) in
  let s1 := answered s c (snd (step _ c (Cmfx.engine s))) in
  let s2 := answered s1 k (snd (step _ k (Cmfx.engine s1))) in
  Cmfx.get_elements_count step locator timeout s
  = match fst (step _ c (Cmfx.engine s)) with
    | Err e =>
        if isinstance e cls_PlaywrightTimeoutError then (Ok 0%Z, s1)
        else (Err e, s1)
    | Ok _ =>
        match fst (step _ k (Cmfx.engine s1)) with
        | Err e =>
            if isinstance e cls_PlaywrightTimeoutError then (Ok 0%Z, s2)
            else (Err e, s2)
        | Ok n => (Ok n, s2)
        end
    end.
Proof.
  intros Hpg Hsel c k s1 s2.
  unfold Cmfx.get_elements_count, try_except, bind.
  valid_locator Hsel Hpg. rewrite await_run. fold c. fold s1.
  destruct (fst (step unit c (Cmfx.engine s))) as [[]|e].
  - rewrite await_run. fold k. fold s2.
    destruct (fst (step Z k (Cmfx.engine s1))) as [n|e]; [reflexivity|].
    now destruct (isinstance e cls_PlaywrightTimeoutError).
  - now destruct (isinstance e cls_PlaywrightTimeoutError).
Qed.

Lemma plural_getters_invalid (locator : BSLocator) (timeout : Q)
      (s : Cmfx.Session Engine) (pg : handle) :
  Cmfx.page (Cmfx.self s) = Some pg ->
  derivable (by_ locator) = false ->
  Cmfx.get_elements_text step locator timeout s
  = (Err (invalid_selector_type (by_ locator)), s)
  /\ Cmfx.get_elements_count step locator timeout s
     = (Err (invalid_selector_type (by_ locator)), s).
Proof.
  intros Hpg H. split.
  - unfold Cmfx.get_elements_text, try_except, bind at 1 2.
    unfold Cmfx.wait_element_to_be_present, bind. invalid_locator H Hpg.
  - unfold Cmfx.get_elements_count, bind. invalid_locator H Hpg.
Qed.

Lemma click_element_by_partial_texts_run (locator : BSLocator)
      (includes : list string) (excludes : option (list string))
      (timeout : Q) (s : Cmfx.Session Engine) (pg : handle)
      (selector : string) :
  Cmfx.page (Cmfx.self s) = Some pg ->
  Cmfx.get_pw_locator locator = Ok selector ->
  let c := expect_to_be_attached (First (Page_locator pg selector))
                                 (timeout * 1000)%Q in
  let k := click (First (Cmfx.narrow (Page_locator pg selector)
                                     includes excludes))
                 (timeout * 1000)%Q in
  let s1 := answered s c (snd (step _ c (Cmfx.engine s))) in
  let s2 := answered s1 k (snd (step _ k (Cmfx.engine s1))) in
  Cmfx.click_element_by_partial_texts step locator includes excludes
                                      timeout s
  = match fst (step _ c (Cmfx.engine s)) with
    | Err e => (Err e, s1)
    | Ok _ =>
        match fst (step _ k (Cmfx.engine s1)) with
        | Ok _ => (Ok true, s2)
        | Err e =>
            if isinstance e cls_PlaywrightTimeoutError then (Ok false, s2)
            else (Err e, s2)
        end
    end.
Proof.
  intros Hpg Hsel c k s1 s2.
  unfold Cmfx.click_element_by_partial_texts, bind at 1.
  rewrite (wait_element_to_be_present_run _ _ _ _ _ Hpg Hsel).
  fold c. fold s1. cbn [fst snd].
  destruct (fst (step unit c (Cmfx.engine s))) as [[]|e]; [|reflexivity].
  assert (Hpg1 : Cmfx.page (Cmfx.self s1) = Some pg) by exact Hpg.
  unfold try_except, bind. valid_locator Hsel Hpg1.
  rewrite await_run. fold k. fold s2.
  destruct (fst (step unit k (Cmfx.engine s1))) as [[]|e]; [reflexivity|].
  now destruct (isinstance e cls_PlaywrightTimeoutError).
Qed.

Lemma click_element_by_partial_texts_invalid (locator : BSLocator)
      (includes : list string) (excludes : option (list string))
      (timeout : Q) (s : Cmfx.Session Engine) (pg : handle) :
  Cmfx.page (Cmfx.self s) = Some pg ->
  derivable (by_ locator) = false ->
  Cmfx.click_element_by_partial_texts step locator includes excludes
                                      timeout s
  = (Err (invalid_selector_type (by_ locator)), s).
Proof.
  intros Hpg H.
  unfold Cmfx.click_element_by_partial_texts, bind at 1.
  unfold Cmfx.wait_element_to_be_present, bind. invalid_locator H Hpg.
Qed.

Lemma check_attribute_is_equals_run (locator : BSLocator)
      (attr content : string) (ignore_case : bool) (timeout : Q)
      (s : Cmfx.Session Engine) (pg : handle) (selector : string) :
  Cmfx.page (Cmfx.self s) = Some pg ->
  Cmfx.get_pw_locator locator = Ok selector ->
  let c := get_attribute (Page_locator pg selector) attr
                         (timeout * 1000)%Q in
  let s' := answered s c (snd (step _ c (Cmfx.engine s))) in
  Cmfx.check_attribute_is_equals step locator attr content ignore_case
                                 timeout s
  = (match fst (step _ c (Cmfx.engine s)) with
     | Err e => Err e
     | Ok None => if ignore_case then Err none_has_no_lower else Ok false
     | Ok (Some a) =>
         if ignore_case
         then Ok (String.eqb (Py.lower a) (Py.lower content))
         else Ok (String.eqb a content)
     end, s').
Proof.
  intros Hpg Hsel c s'.
  unfold Cmfx.check_attribute_is_equals, Cmfx.get_attribute_value.
  unfold bind at 1 2.
  valid_locator Hsel Hpg. rewrite await_run. fold c. fold s'.
  destruct (fst (step (option string) c (Cmfx.engine s))) as [[a|]|e];
    destruct ignore_case; reflexivity.
Qed.

Lemma quit_closed (s : Cmfx.Session Engine) :
  Cmfx._camoufox_instance (Cmfx.self s) = None ->
  Cmfx.quit step s = (Ok tt, s).
Proof.
  intros H. unfold Cmfx.quit, bind, Cmfx.get_self. now rewrite H.
Qed.

Lemma quit_run (s : Cmfx.Session Engine) (instance : handle) :
  Cmfx._camoufox_instance (Cmfx.self s) = Some instance ->
  let c := camoufox_aexit instance in
  Cmfx.quit step s
  = match fst (step _ c (Cmfx.engine s)) with
    | Ok _ =>
        (Ok tt,
         Cmfx.mkSession (Cmfx.mkBSCmfx None None None)
                        (snd (step _ c (Cmfx.engine s)))
                        (Cmfx.calls s ++ [issued c])%list)
    | Err e => (Err e, answered s c (snd (step _ c (Cmfx.engine s))))
    end.
Proof.
  intros H c. unfold Cmfx.quit, bind at 1 2, Cmfx.get_self at 1.
  rewrite H. rewrite await_run. fold c.
  destruct (fst (step unit c (Cmfx.engine s))) as [[]|e]; reflexivity.
Qed.

End CmfxRuns.

(** *** What the narrowed locator denotes *)

Section Narrowing.
Import Playwright.
Variable element : Type.
Variable select : handle -> string -> list element.
Variable has_text : element -> string -> bool.

Lemma filter_filter (p q : element -> bool) (l : list element) :
  filter p (filter q l) = filter (fun e => q e && p e) l.
Proof.
  induction l as [|x l IH]; simpl; [reflexivity|].
  destruct (q x); simpl; [destruct (p x)|]; now rewrite IH.
Qed.

Lemma denote_includes (texts : list string) :
  forall loc : Locator,
    denote element select has_text
           (fold_left (fun l pt => Filter_has_text l pt) texts loc)
    = filter (fun e => forallb (has_text e) texts)
             (denote element select has_text loc).
Proof.
  induction texts as [|t texts IH]; intros loc; simpl.
  - induction (denote element select has_text loc) as [|x l IHl];
      simpl; [reflexivity|now rewrite <- IHl].
  - rewrite IH. simpl. apply filter_filter.
Qed.

Lemma denote_excludes (texts : list string) :
  forall loc : Locator,
    denote element select has_text
           (fold_left (fun l pt => Filter_has_not_text l pt) texts loc)
    = filter (fun e => forallb (fun t => negb (has_text e t)) texts)
             (denote element select has_text loc).
Proof.
  induction texts as [|t texts IH]; intros loc; simpl.
  - induction (denote element select has_text loc) as [|x l IHl];
      simpl; [reflexivity|now rewrite <- IHl].
  - rewrite IH. simpl. apply filter_filter.
Qed.

Lemma denote_narrow (loc : Locator) (includes : list string)
      (excludes : option (list string)) :
  denote element select has_text (Cmfx.narrow loc includes excludes)
  = filter (passes has_text includes excludes)
           (denote element select has_text loc).
Proof.
  unfold Cmfx.narrow. rewrite denote_excludes, denote_includes.
  apply filter_filter.
Qed.

(** The locator that is clicked denotes the first element, in document
    order, among those the base locator matches that pass. *)
Lemma denote_click_target (loc : Locator) (includes : list string)
      (excludes : option (list string)) :
  denote element select has_text (First (Cmfx.narrow loc includes excludes))
  = firstn 1 (filter (passes has_text includes excludes)
                     (denote element select has_text loc)).
Proof. simpl. now rewrite denote_narrow. Qed.

End Narrowing.

(** ** The Selenium wrapper *)

Section WebDriverRuns.
Import Selenium.
Variable Driver : Type.
Variable step : forall X, call X -> Driver -> result X * Driver.

Lemma invoke_run {X} (c : call X) (s : WebDriver.Session Driver) :
  WebDriver.invoke step c s
  = (fst (step X c (WebDriver.driver s)),
     replied s c (snd (step X c (WebDriver.driver s)))).
Proof.
  unfold WebDriver.invoke, replied.
  now destruct (step X c (WebDriver.driver s)).
Qed.

(** With [retry] false a call of [find_element] is one driver lookup,
    whatever its outcome and whatever the depth left. *)
Lemma find_element_at_no_retry (depth : nat) (locator : BSLocator)
      (s : WebDriver.Session Driver) :
  WebDriver.find_element_at step (S depth) locator false s
  = WebDriver.invoke step
      (driver_find_element (By_str (by_ locator)) (value locator)) s.
Proof.
  cbn [WebDriver.find_element_at]. unfold try_except. rewrite invoke_run.
  destruct (fst (step _ _ (WebDriver.driver s))) as [e|x]; [reflexivity|].
  now destruct (isinstance x cls_NoSuchElementException).
Qed.

Lemma find_element_at_run (depth : nat) (locator : BSLocator) (retry : bool)
      (s : WebDriver.Session Driver) :
  let c := driver_find_element (By_str (by_ locator)) (value locator) in
  let s1 := replied s c (snd (step _ c (WebDriver.driver s))) in
  WebDriver.find_element_at step (S (S depth)) locator retry s
  = match fst (step _ c (WebDriver.driver s)) with
    | Ok e => (Ok e, s1)
    | Err x =>
        if isinstance x cls_NoSuchElementException && retry
        then WebDriver.invoke step c s1
        else (Err x, s1)
    end.
Proof.
  intros c s1.
  change (WebDriver.find_element_at step (S (S depth)) locator retry s)
    with (try_except (WebDriver.invoke step c) cls_NoSuchElementException
            (fun e => if negb retry then raise e
                      else WebDriver.find_element_at step (S depth)
                                                     locator false) s).
  unfold try_except. rewrite invoke_run. fold s1.
  destruct (fst (step _ c (WebDriver.driver s))) as [e|x]; [reflexivity|].
  destruct (isinstance x cls_NoSuchElementException); [|reflexivity].
  destruct retry; cbn [negb andb]; [|reflexivity].
  apply find_element_at_no_retry.
Qed.

Lemma find_element_run (locator : BSLocator) (retry : bool)
      (s : WebDriver.Session Driver) :
  let c := driver_find_element (By_str (by_ locator)) (value locator) in
  let s1 := replied s c (snd (step _ c (WebDriver.driver s))) in
  WebDriver.find_element step locator retry s
  = match fst (step _ c (WebDriver.driver s)) with
    | Ok e => (Ok e, s1)
    | Err x =>
        if isinstance x cls_NoSuchElementException && retry
        then WebDriver.invoke step c s1
        else (Err x, s1)
    end.
Proof. apply (find_element_at_run 0). Qed.

(** Two levels of calls are all [find_element] ever uses. *)
Lemma find_element_depth (depth : nat) (locator : BSLocator) (retry : bool)
      (s : WebDriver.Session Driver) :
  WebDriver.find_element_at step (S (S depth)) locator retry s
  = WebDriver.find_element step locator retry s.
Proof. now rewrite find_element_at_run, find_element_run. Qed.

Lemma find_elements_at_no_retry (depth : nat) (locator : BSLocator)
      (s : WebDriver.Session Driver) :
  WebDriver.find_elements_at step (S depth) locator false s
  = WebDriver.invoke step
      (driver_find_elements (By_str (by_ locator)) (value locator)) s.
Proof.
  cbn [WebDriver.find_elements_at]. unfold bind. rewrite invoke_run.
  destruct (fst (step _ _ (WebDriver.driver s))) as [els|x]; [|reflexivity].
  now rewrite andb_false_r.
Qed.

Lemma find_elements_at_run (depth : nat) (locator : BSLocator)
      (retry : bool) (s : WebDriver.Session Driver) :
  let c := driver_find_elements (By_str (by_ locator)) (value locator) in
  let s1 := replied s c (snd (step _ c (WebDriver.driver s))) in
  WebDriver.find_elements_at step (S (S depth)) locator retry s
  = match fst (step _ c (WebDriver.driver s)) with
    | Ok [] => if retry then WebDriver.invoke step c s1 else (Ok [], s1)
    | Ok (e :: els) => (Ok (e :: els), s1)
    | Err x => (Err x, s1)
    end.
Proof.
  intros c s1.
  change (WebDriver.find_elements_at step (S (S depth)) locator retry s)
    with ((elements <- WebDriver.invoke step c ;;
           if negb (match elements with [] => false | _ :: _ => true end)
              && retry
           then WebDriver.find_elements_at step (S depth) locator false
           else ret elements) s).
  unfold bind. rewrite invoke_run. fold s1.
  destruct (fst (step _ c (WebDriver.driver s))) as [[|e els]|x];
    try reflexivity.
  destruct retry; cbn [negb andb]; [|reflexivity].
  apply find_elements_at_no_retry.
Qed.

Lemma find_elements_run (locator : BSLocator) (retry : bool)
      (s : WebDriver.Session Driver) :
  let c := driver_find_elements (By_str (by_ locator)) (value locator) in
  let s1 := replied s c (snd (step _ c (WebDriver.driver s))) in
  WebDriver.find_elements step locator retry s
  = match fst (step _ c (WebDriver.driver s)) with
    | Ok [] => if retry then WebDriver.invoke step c s1 else (Ok [], s1)
    | Ok (e :: els) => (Ok (e :: els), s1)
    | Err x => (Err x, s1)
    end.
Proof. apply (find_elements_at_run 0). Qed.

Lemma find_elements_depth (depth : nat) (locator : BSLocator) (retry : bool)
      (s : WebDriver.Session Driver) :
  WebDriver.find_elements_at step (S (S depth)) locator retry s
  = WebDriver.find_elements step locator retry s.
Proof. now rewrite find_elements_at_run, find_elements_run. Qed.

Lemma is_element_present_sel_run (locator : BSLocator) (tolerance_time : Q)
      (s : WebDriver.Session Driver) :
  let c := WebDriverWait_until tolerance_time
             (presence_of_element_located (Locator.as_tuple locator)) in
  let s1 := replied s c (snd (step _ c (WebDriver.driver s))) in
  WebDriver.is_element_present step locator tolerance_time s
  = match fst (step _ c (WebDriver.driver s)) with
    | Ok _ => (Ok true, s1)
    | Err x =>
        if isinstance x cls_TimeoutException then (Ok false, s1)
        else (Err x, s1)
    end.
Proof.
  intros c s1. unfold WebDriver.is_element_present, try_except, bind.
  rewrite invoke_run. fold c. fold s1.
  destruct (fst (step _ c (WebDriver.driver s))) as [[]|x]; [reflexivity|].
  now destruct (isinstance x cls_TimeoutException).
Qed.

Lemma is_element_displayed_run (locator : BSLocator) (tolerance_time : Q)
      (s : WebDriver.Session Driver) :
  let c := WebDriverWait_until tolerance_time
             (presence_of_element_located (Locator.as_tuple locator)) in
  let s1 := replied s c (snd (step _ c (WebDriver.driver s))) in
  let f := driver_find_element (By_str (by_ locator)) (value locator) in
  let s2 := replied s1 f (snd (step _ f (WebDriver.driver s1))) in
  WebDriver.is_element_displayed step locator tolerance_time s
  = match fst (step _ c (WebDriver.driver s)) with
    | Ok _ =>
        match fst (step _ f (WebDriver.driver s1)) with
        | Ok e => WebDriver.invoke step (element_is_displayed e) s2
        | Err x => (Err x, s2)
        end
    | Err x =>
        if isinstance x cls_TimeoutException then (Ok false, s1)
        else (Err x, s1)
    end.
Proof.
  intros c s1 f s2. unfold WebDriver.is_element_displayed, bind at 1.
  rewrite is_element_present_sel_run. fold c. fold s1.
  destruct (fst (step _ c (WebDriver.driver s))) as [[]|x].
  - unfold bind. unfold WebDriver.find_element.
    rewrite find_element_at_no_retry, invoke_run. fold f. fold s2.
    now destruct (fst (step _ f (WebDriver.driver s1))).
  - now destruct (isinstance x cls_TimeoutException).
Qed.

Lemma wait_element_to_be_visible_run (locator : BSLocator)
      (raise_exception : bool) (tolerance_time : Q)
      (s : WebDriver.Session Driver) :
  let c := WebDriverWait_until tolerance_time
             (visibility_of_element_located (Locator.as_tuple locator)) in
  let s1 := replied s c (snd (step _ c (WebDriver.driver s))) in
  WebDriver.wait_element_to_be_visible step locator raise_exception
                                       tolerance_time s
  = match fst (step _ c (WebDriver.driver s)) with
    | Ok _ => (Ok tt, s1)
    | Err x =>
        if isinstance x cls_TimeoutException && negb raise_exception
        then (Ok tt, s1) else (Err x, s1)
    end.
Proof.
  intros c s1. unfold WebDriver.wait_element_to_be_visible, try_except.
  rewrite invoke_run. fold c. fold s1.
  destruct (fst (step _ c (WebDriver.driver s))) as [[]|x]; [reflexivity|].
  destruct (isinstance x cls_TimeoutException); [|reflexivity].
  now destruct raise_exception.
Qed.

(** After the wait has let [get_text] through, to session [s1]: the
    lookup and the reading of the text. *)
Lemma get_text_tail_run (locator : BSLocator) (raise_exception : bool)
      (s1 : WebDriver.Session Driver) :
  let f := driver_find_element (By_str (by_ locator)) (value locator) in
  let s2 := replied s1 f (snd (step _ f (WebDriver.driver s1))) in
  try_except
    (e <- WebDriver.find_element step locator false ;;
     t <- WebDriver.invoke step (element_text e) ;;
     ret (Some t))
    cls_TimeoutException
    (fun e => if raise_exception then raise e else ret None) s1
  = match fst (step _ f (WebDriver.driver s1)) with
    | Ok e =>
        let k := element_text e in
        let s3 := replied s2 k (snd (step _ k (WebDriver.driver s2))) in
        match fst (step _ k (WebDriver.driver s2)) with
        | Ok t => (Ok (Some t), s3)
        | Err x =>
            if isinstance x cls_TimeoutException && negb raise_exception
            then (Ok None, s3) else (Err x, s3)
        end
    | Err x =>
        if isinstance x cls_TimeoutException && negb raise_exception
        then (Ok None, s2) else (Err x, s2)
    end.
Proof.
  intros f s2. unfold try_except, bind, WebDriver.find_element.
  rewrite find_element_at_no_retry, invoke_run. fold f. fold s2.
  destruct (fst (step _ f (WebDriver.driver s1))) as [e|x].
  - rewrite invoke_run.
    destruct (fst (step _ (element_text e) (WebDriver.driver s2)))
      as [t|x]; [reflexivity|].
    destruct (isinstance x cls_TimeoutException); [|reflexivity].
    now destruct raise_exception.
  - destruct (isinstance x cls_TimeoutException); [|reflexivity].
    now destruct raise_exception.
Qed.

Lemma get_text_run (locator : BSLocator) (raise_exception : bool)
      (timeout : Q) (s : WebDriver.Session Driver) :
  let c := WebDriverWait_until timeout
             (visibility_of_element_located (Locator.as_tuple locator)) in
  let s1 := replied s c (snd (step _ c (WebDriver.driver s))) in
  let tail :=
    try_except
      (e <- WebDriver.find_element step locator false ;;
       t <- WebDriver.invoke step (element_text e) ;;
       ret (Some t))
      cls_TimeoutException
      (fun e => if raise_exception then raise e else ret None) in
  WebDriver.get_text step locator raise_exception timeout s
  = match fst (step _ c (WebDriver.driver s)) with
    | Ok _ => tail s1
    | Err x =>
        if isinstance x cls_TimeoutException && negb raise_exception
        then tail s1 else (Err x, s1)
    end.
Proof.
  intros c s1 tail. unfold WebDriver.get_text, bind at 1.
  rewrite wait_element_to_be_visible_run. fold c. fold s1.
  destruct (fst (step _ c (WebDriver.driver s))) as [[]|x]; [reflexivity|].
  now destruct (isinstance x cls_TimeoutException && negb raise_exception).
Qed.

End WebDriverRuns.

(** ** Probes *)

(** C4, as stated, fails: on a locator of strategy id the Playwright
    wrapper's presence probe raises the [ValueError] of [get_pw_locator]. *)
Lemma is_element_present_id_locator_raises :
  fst (Cmfx.is_element_present (StaticPage.step StaticPage.form)
         (Locator.id "main") 10%Q (StaticPage.session StaticPage.active))
  = Err (invalid_selector_type ID).
Proof. reflexivity. Qed.

(** C4, amended.  On an active Playwright session: for a css-selector or
    xpath locator, when the engine answers the attached expectation by
    passing or by its [AssertionError], [is_element_present] returns a
    boolean, true iff the expectation passed, and when the engine answers
    the visibility check with a boolean or its [TimeoutError],
    [is_element_visible] returns a boolean, true iff the check answered
    true; for a locator of any of the six other strategies both raise the
    [ValueError] of [get_pw_locator].  On the Selenium wrapper, for a
    locator of any strategy: when the presence wait passes or times out,
    [is_element_present] returns a boolean, true iff the wait passed;
    [is_element_displayed] returns false when the wait timed out, and,
    when the wait passed and the lookup that follows finds an element, what
    that element's [is_displayed] answers. *)
Theorem probes_spec :
  (forall (Engine : Type)
          (step : forall X, Playwright.call X -> Engine -> result X * Engine)
          (locator : BSLocator) (timeout : Q) (s : Cmfx.Session Engine)
          (pg : Playwright.handle),
      Cmfx.page (Cmfx.self s) = Some pg ->
      if derivable (by_ locator) then
        exists selector,
          Cmfx.get_pw_locator locator = Ok selector
          /\ let target :=
               Playwright.First (Playwright.Page_locator pg selector) in
             let attached :=
               fst (step _ (Playwright.expect_to_be_attached
                              target (timeout * 1000)%Q)
                         (Cmfx.engine s)) in
             let visible :=
               fst (step _ (Playwright.is_visible target (timeout * 1000)%Q)
                         (Cmfx.engine s)) in
             (value_or cls_AssertionError attached = true ->
              exists b,
                fst (Cmfx.is_element_present step locator timeout s) = Ok b
                /\ (b = true <-> attached = Ok tt))
             /\ (value_or cls_PlaywrightTimeoutError visible = true ->
                 exists b,
                   fst (Cmfx.is_element_visible step locator timeout s)
                   = Ok b
                   /\ (b = true <-> visible = Ok true))
      else
        fst (Cmfx.is_element_present step locator timeout s)
        = Err (invalid_selector_type (by_ locator))
        /\ fst (Cmfx.is_element_visible step locator timeout s)
           = Err (invalid_selector_type (by_ locator)))
  /\ (forall (Driver : Type)
             (step : forall X, Selenium.call X -> Driver -> result X * Driver)
             (locator : BSLocator) (tolerance_time : Q)
             (s : WebDriver.Session Driver),
         let wait :=
           Selenium.WebDriverWait_until tolerance_time
             (Selenium.presence_of_element_located
                (Locator.as_tuple locator)) in
         let present := fst (step _ wait (WebDriver.driver s)) in
         let s1 := replied s wait (snd (step _ wait (WebDriver.driver s))) in
         let lookup :=
           Selenium.driver_find_element (By_str (by_ locator))
                                        (value locator) in
         (value_or cls_TimeoutException present = true ->
          exists b,
            fst (WebDriver.is_element_present step locator tolerance_time s)
            = Ok b
            /\ (b = true <-> present = Ok tt))
         /\ (forall m,
                present = Err (TimeoutException m) ->
                fst (WebDriver.is_element_displayed step locator
                                                    tolerance_time s)
                = Ok false)
         /\ (forall e b,
                present = Ok tt ->
                fst (step _ lookup (WebDriver.driver s1)) = Ok e ->
                fst (step _ (Selenium.element_is_displayed e)
                          (snd (step _ lookup (WebDriver.driver s1))))
                = Ok b ->
                fst (WebDriver.is_element_displayed step locator
                                                    tolerance_time s)
                = Ok b)).
Proof.
  split.
  - intros Engine step locator timeout s pg Hpg.
    destruct (derivable (by_ locator)) eqn:Hd.
    + destruct (get_pw_locator_derivable _ Hd) as [selector Hsel].
      exists selector. split; [exact Hsel|]. cbv zeta. split.
      * rewrite (is_element_present_run _ step _ _ _ _ _ Hpg Hsel).
        cbv zeta.
        destruct (fst (step unit _ (Cmfx.engine s))) as [[]|e];
          cbn [value_or]; intros Hv.
        -- exists true. now split.
        -- rewrite Hv. exists false. split; [reflexivity|].
           split; discriminate.
      * rewrite (is_element_visible_run _ step _ _ _ _ _ Hpg Hsel).
        cbv zeta.
        destruct (fst (step bool _ (Cmfx.engine s))) as [b|e];
          cbn [value_or]; intros Hv.
        -- exists b. split; [reflexivity|]. split; congruence.
        -- rewrite Hv. exists false. split; [reflexivity|].
           split; discriminate.
    + destruct (probes_invalid _ step locator timeout s pg Hpg Hd)
        as [H1 H2].
      now rewrite H1, H2.
  - intros Driver step locator tol s. cbv zeta. repeat split.
    + rewrite is_element_present_sel_run. cbv zeta.
      destruct (fst (step unit _ (WebDriver.driver s))) as [[]|e];
        cbn [value_or]; intros Hv.
      * exists true. now split.
      * rewrite Hv. exists false. split; [reflexivity|].
        split; discriminate.
    + intros m Hp. rewrite is_element_displayed_run. cbv zeta.
      now rewrite Hp.
    + intros e b Hp Hl Hb. rewrite is_element_displayed_run. cbv zeta.
      rewrite Hp, Hl, invoke_run. exact Hb.
Qed.

Lemma probes_spec_witness :
  fst (Cmfx.is_element_present (StaticPage.step StaticPage.form)
         (Locator.css "button") 10%Q (StaticPage.session StaticPage.active))
  = Ok true
  /\ fst (WebDriver.is_element_displayed
            (ScriptedDriver.step ScriptedDriver.ready)
            (Locator.id "main") 10%Q ScriptedDriver.session)
     = Ok true.
Proof.
  split.
  - destruct (proj1 probes_spec _ (StaticPage.step StaticPage.form)
                (Locator.css "button") 10%Q
                (StaticPage.session StaticPage.active) 3%nat eq_refl)
      as (selector & Hsel & Hpresent & _).
    injection Hsel as <-.
    destruct (Hpresent eq_refl) as (b & Hb & Hiff).
    rewrite Hb. f_equal. now apply Hiff.
  - exact (proj2 (proj2 (proj2 probes_spec _
                           (ScriptedDriver.step ScriptedDriver.ready)
                           (Locator.id "main") 10%Q ScriptedDriver.session))
                 0%nat true eq_refl eq_refl eq_refl).
Defined.

(** ** The singular text getter *)

(** C5, as stated, fails: with the flag false and no element on the page,
    [BSCmfx.get_element_text] on a locator of strategy id raises the
    [ValueError] of [get_pw_locator] instead of returning [None]. *)
Lemma get_element_text_id_locator_raises :
  fst (Cmfx.get_element_text (StaticPage.step StaticPage.blank)
         (Locator.id "title") 10%Q false
         (StaticPage.session StaticPage.active))
  = Err (invalid_selector_type ID).
Proof. reflexivity. Qed.

(** C5, amended.  On an active Playwright session and for a css-selector
    or xpath locator, when the engine's [inner_text] times out,
    [get_element_text] returns [None] with the flag false and raises that
    [TimeoutError] with the flag true.  On the Selenium wrapper, for every
    locator, when the visibility wait times out, [get_text] with the flag
    true raises that [TimeoutException]. *)
Theorem text_getter_spec :
  (forall (Engine : Type)
          (step : forall X, Playwright.call X -> Engine -> result X * Engine)
          (locator : BSLocator) (timeout : Q) (s : Cmfx.Session Engine)
          (pg : Playwright.handle),
      Cmfx.page (Cmfx.self s) = Some pg ->
      derivable (by_ locator) = true ->
      exists selector,
        Cmfx.get_pw_locator locator = Ok selector
        /\ forall m,
            fst (step _ (Playwright.inner_text
                           (Playwright.First
                              (Playwright.Page_locator pg selector))
                           (timeout * 1000)%Q)
                      (Cmfx.engine s))
            = Err (PlaywrightTimeoutError m) ->
            fst (Cmfx.get_element_text step locator timeout false s)
            = Ok None
            /\ fst (Cmfx.get_element_text step locator timeout true s)
               = Err (PlaywrightTimeoutError m))
  /\ (forall (Driver : Type)
             (step : forall X, Selenium.call X -> Driver -> result X * Driver)
             (locator : BSLocator) (timeout : Q)
             (s : WebDriver.Session Driver) (m : string),
         fst (step _ (Selenium.WebDriverWait_until timeout
                        (Selenium.visibility_of_element_located
                           (Locator.as_tuple locator)))
                   (WebDriver.driver s))
         = Err (TimeoutException m) ->
         fst (WebDriver.get_text step locator true timeout s)
         = Err (TimeoutException m)).
Proof.
  split.
  - intros Engine step locator timeout s pg Hpg Hd.
    destruct (get_pw_locator_derivable _ Hd) as [selector Hsel].
    exists selector. split; [exact Hsel|]. intros m Hm.
    rewrite !(get_element_text_run _ step _ _ _ _ _ _ Hpg Hsel).
    cbv zeta. now rewrite Hm.
  - intros Driver step locator timeout s m Hm.
    rewrite get_text_run. cbv zeta. now rewrite Hm.
Qed.

Lemma text_getter_spec_witness :
  (fst (Cmfx.get_element_text (StaticPage.step StaticPage.form)
          (Locator.css "h1") 10%Q false
          (StaticPage.session StaticPage.active))
   = Ok None
   /\ fst (Cmfx.get_element_text (StaticPage.step StaticPage.form)
             (Locator.css "h1") 10%Q true
             (StaticPage.session StaticPage.active))
      = Err (PlaywrightTimeoutError "Timeout exceeded"))
  /\ fst (WebDriver.get_text (ScriptedDriver.step ScriptedDriver.never)
            (Locator.id "title") true 10%Q ScriptedDriver.session)
     = Err (TimeoutException "").
Proof.
  split.
  - destruct (proj1 text_getter_spec _ (StaticPage.step StaticPage.form)
                (Locator.css "h1") 10%Q
                (StaticPage.session StaticPage.active) 3%nat
                eq_refl eq_refl)
      as (selector & Hsel & H).
    injection Hsel as <-.
    exact (H "Timeout exceeded" eq_refl).
  - exact (proj2 text_getter_spec _
             (ScriptedDriver.step ScriptedDriver.never)
             (Locator.id "title") 10%Q ScriptedDriver.session ""
             eq_refl).
Defined.

(** What [BSWebDriver.get_text] does with the flag false when the element
    never appears: the visibility wait times out and is swallowed, then
    the lookup raises [NoSuchElementException], which the handler for
    [TimeoutException] does not catch. *)
Lemma get_text_missing_element (Driver : Type)
      (step : forall X, Selenium.call X -> Driver -> result X * Driver)
      (locator : BSLocator) (timeout : Q) (s : WebDriver.Session Driver)
      (m m' : string) :
  let wait :=
    Selenium.WebDriverWait_until timeout
      (Selenium.visibility_of_element_located (Locator.as_tuple locator)) in
  let s1 := replied s wait (snd (step _ wait (WebDriver.driver s))) in
  fst (step _ wait (WebDriver.driver s)) = Err (TimeoutException m) ->
  fst (step _ (Selenium.driver_find_element (By_str (by_ locator))
                                            (value locator))
            (WebDriver.driver s1))
  = Err (NoSuchElementException m') ->
  fst (WebDriver.get_text step locator false timeout s)
  = Err (NoSuchElementException m').
Proof.
  intros wait s1 Hw Hl. rewrite get_text_run. cbv zeta.
  fold wait. fold s1. rewrite Hw. cbn [isinstance negb andb].
  etransitivity;
    [apply f_equal; exact (get_text_tail_run _ step locator false s1)|].
  cbv zeta. now rewrite Hl.
Qed.

Example get_text_missing_element_run :
  fst (WebDriver.get_text (ScriptedDriver.step ScriptedDriver.never)
         (Locator.css "h1") false 10%Q ScriptedDriver.session)
  = Err (NoSuchElementException "no such element").
Proof. reflexivity. Qed.

(** ** Clicking by partial texts *)

(** C6, as stated, fails: when nothing matches the base locator within
    the timeout, so that no element satisfies the filter, the presence
    wait made before the [try] raises and the method does not return
    false. *)
Lemma click_absent_base_raises :
  fst (Cmfx.click_element_by_partial_texts
         (StaticPage.step StaticPage.blank) (Locator.css "button")
         ["Save"] None 10%Q (StaticPage.session StaticPage.active))
  = Err (AssertionError "Locator expected to be attached").
Proof. reflexivity. Qed.

(** C6, amended.  On an active Playwright session, for a css-selector or
    xpath base locator and every include list, exclude list and timeout,
    when an element matching the base locator attaches within the timeout:
    the click is dispatched on the first of the elements matched by the
    base locator that contain every include text and none of the exclude
    texts; the method returns true when the click succeeds and false when
    the click times out. *)
Theorem click_by_partial_texts_spec :
  forall (Engine : Type)
         (step : forall X, Playwright.call X -> Engine -> result X * Engine)
         (locator : BSLocator) (includes : list string)
         (excludes : option (list string)) (timeout : Q)
         (s : Cmfx.Session Engine) (pg : Playwright.handle),
    Cmfx.page (Cmfx.self s) = Some pg ->
    derivable (by_ locator) = true ->
    exists selector,
      Cmfx.get_pw_locator locator = Ok selector
      /\ let base := Playwright.Page_locator pg selector in
         let wait :=
           Playwright.expect_to_be_attached (Playwright.First base)
                                            (timeout * 1000)%Q in
         let s1 := answered s wait (snd (step _ wait (Cmfx.engine s))) in
         let target :=
           Playwright.First (Cmfx.narrow base includes excludes) in
         let press := Playwright.click target (timeout * 1000)%Q in
         let s2 := answered s1 press (snd (step _ press (Cmfx.engine s1))) in
         (forall (element : Type)
                 (select : Playwright.handle -> string -> list element)
                 (has_text : element -> string -> bool),
             Playwright.denote element select has_text target
             = firstn 1 (filter (passes has_text includes excludes)
                                (select pg selector)))
         /\ (fst (step _ wait (Cmfx.engine s)) = Ok tt ->
             (fst (step _ press (Cmfx.engine s1)) = Ok tt ->
              Cmfx.click_element_by_partial_texts step locator includes
                                                  excludes timeout s
              = (Ok true, s2))
             /\ (forall m,
                    fst (step _ press (Cmfx.engine s1))
                    = Err (PlaywrightTimeoutError m) ->
                    Cmfx.click_element_by_partial_texts step locator
                                                        includes excludes
                                                        timeout s
                    = (Ok false, s2))).
Proof.
  intros Engine step locator includes excludes timeout s pg Hpg Hd.
  destruct (get_pw_locator_derivable _ Hd) as [selector Hsel].
  exists selector. split; [exact Hsel|]. cbv zeta. split.
  - intros element select has_text. apply denote_click_target.
  - intros Hw.
    rewrite (click_element_by_partial_texts_run
               _ step _ _ _ _ _ _ _ Hpg Hsel).
    cbv zeta. rewrite Hw. split.
    + intros Hc. now rewrite Hc.
    + intros m Hc. now rewrite Hc.
Qed.

Lemma click_by_partial_texts_spec_witness :
  (let r := Cmfx.click_element_by_partial_texts
              (StaticPage.step StaticPage.form) (Locator.css "button")
              ["save"] (Some ["as"; "draft"]) 10%Q
              (StaticPage.session StaticPage.active) in
   fst r = Ok true /\ Cmfx.engine (snd r) = [StaticPage.save])
  /\ fst (Cmfx.click_element_by_partial_texts
            (StaticPage.step StaticPage.form) (Locator.css "button")
            ["save"; "cancel"] None 10%Q
            (StaticPage.session StaticPage.active))
     = Ok false.
Proof.
  split.
  - destruct (click_by_partial_texts_spec _
                (StaticPage.step StaticPage.form) (Locator.css "button")
                ["save"] (Some ["as"; "draft"]) 10%Q
                (StaticPage.session StaticPage.active) 3%nat
                eq_refl eq_refl)
      as (selector & Hsel & _ & H).
    injection Hsel as <-.
    destruct (H eq_refl) as [Hclicked _].
    cbv zeta. rewrite (Hclicked eq_refl). split; reflexivity.
  - destruct (click_by_partial_texts_spec _
                (StaticPage.step StaticPage.form) (Locator.css "button")
                ["save"; "cancel"] None 10%Q
                (StaticPage.session StaticPage.active) 3%nat
                eq_refl eq_refl)
      as (selector & Hsel & _ & H).
    injection Hsel as <-.
    destruct (H eq_refl) as [_ Htimeout].
    now rewrite (Htimeout "Timeout exceeded" eq_refl).
Defined.

(** ** The plural getters *)

(** C7, as stated, fails: on a page without elements, where a locator of
    strategy id matches nothing, [get_elements_text] raises the
    [ValueError] of [get_pw_locator]. *)
Lemma get_elements_text_id_locator_raises :
  fst (Cmfx.get_elements_text (StaticPage.step StaticPage.blank)
         (Locator.id "results") 10%Q (StaticPage.session StaticPage.active))
  = Err (invalid_selector_type ID).
Proof. reflexivity. Qed.

(** C7, amended.  On an active Playwright session, for a css-selector or
    xpath locator and every timeout: when no element attaches within the
    timeout, so that the engine's attached expectation fails with its
    [AssertionError] and its wait for [attached] with its [TimeoutError],
    [get_elements_text] returns the empty list and [get_elements_count]
    returns 0; neither raises. *)
Theorem plural_getters_spec :
  forall (Engine : Type)
         (step : forall X, Playwright.call X -> Engine -> result X * Engine)
         (locator : BSLocator) (timeout : Q) (s : Cmfx.Session Engine)
         (pg : Playwright.handle),
    Cmfx.page (Cmfx.self s) = Some pg ->
    derivable (by_ locator) = true ->
    exists selector,
      Cmfx.get_pw_locator locator = Ok selector
      /\ let target :=
           Playwright.First (Playwright.Page_locator pg selector) in
         (forall m,
             fst (step _ (Playwright.expect_to_be_attached
                            target (timeout * 1000)%Q)
                       (Cmfx.engine s))
             = Err (AssertionError m) ->
             fst (Cmfx.get_elements_text step locator timeout s) = Ok [])
         /\ (forall m,
                fst (step _ (Playwright.wait_for_attached
                               target (timeout * 1000)%Q)
                          (Cmfx.engine s))
                = Err (PlaywrightTimeoutError m) ->
                fst (Cmfx.get_elements_count step locator timeout s)
                = Ok 0%Z).
Proof.
  intros Engine step locator timeout s pg Hpg Hd.
  destruct (get_pw_locator_derivable _ Hd) as [selector Hsel].
  exists selector. split; [exact Hsel|]. cbv zeta. split; intros m Hm.
  - rewrite (get_elements_text_run _ step _ _ _ _ _ Hpg Hsel).
    cbv zeta. now rewrite Hm.
  - rewrite (get_elements_count_run _ step _ _ _ _ _ Hpg Hsel).
    cbv zeta. now rewrite Hm.
Qed.

Lemma plural_getters_spec_witness :
  fst (Cmfx.get_elements_text (StaticPage.step StaticPage.form)
         (Locator.xpath "//table//tr") 10%Q
         (StaticPage.session StaticPage.active))
  = Ok []
  /\ fst (Cmfx.get_elements_count (StaticPage.step StaticPage.form)
            (Locator.xpath "//table//tr") 10%Q
            (StaticPage.session StaticPage.active))
     = Ok 0%Z.
Proof.
  destruct (plural_getters_spec _ (StaticPage.step StaticPage.form)
              (Locator.xpath "//table//tr") 10%Q
              (StaticPage.session StaticPage.active) 3%nat
              eq_refl eq_refl)
    as (selector & Hsel & Htext & Hcount).
  injection Hsel as <-.
  split.
  - exact (Htext "Locator expected to be attached" eq_refl).
  - exact (Hcount "Timeout exceeded" eq_refl).
Defined.

(** ** Lookup and retry *)

Lemma count_lookups_app (a b : list Selenium.event) :
  count_lookups (a ++ b) = (count_lookups a + count_lookups b)%nat.
Proof.
  induction a as [|[X c] a IH]; simpl; [reflexivity|].
  destruct c; simpl; now rewrite IH.
Qed.

Ltac tally :=
  unfold lookups_by, replied, raise, ret; cbn [snd WebDriver.calls];
  rewrite ?count_lookups_app; cbn [count_lookups]; lia.

Section Lookups.
Import Selenium.
Variable Driver : Type.
Variable step : forall X, call X -> Driver -> result X * Driver.

Lemma get_text_one_lookup (locator : BSLocator) (raise_exception : bool)
      (timeout : Q) (s : WebDriver.Session Driver) :
  (lookups_by (WebDriver.get_text step locator raise_exception timeout) s
   <= 1)%nat.
Proof.
  unfold lookups_by. rewrite get_text_run. cbv zeta.
  rewrite get_text_tail_run. cbv zeta.
  destruct (fst (step unit _ (WebDriver.driver s))) as [[]|x].
  2: destruct (isinstance x cls_TimeoutException && negb raise_exception);
    [|tally].
  all: match goal with
       | |- context [fst (step WebElement ?f ?d)] =>
           destruct (fst (step WebElement f d)) as [e|y]
       end.
  all: try match goal with
           | |- context [fst (step string ?k ?d)] =>
               destruct (fst (step string k d)) as [t|z]
           end.
  all: repeat match goal with
              | |- context [if ?b then _ else _] => destruct b
              end.
  all: tally.
Qed.

Lemma is_element_displayed_one_lookup (locator : BSLocator)
      (tolerance_time : Q) (s : WebDriver.Session Driver) :
  (lookups_by (WebDriver.is_element_displayed step locator tolerance_time) s
   <= 1)%nat.
Proof.
  unfold lookups_by. rewrite is_element_displayed_run. cbv zeta.
  destruct (fst (step unit _ (WebDriver.driver s))) as [[]|x].
  - match goal with
    | |- context [fst (step WebElement ?f ?d)] =>
        destruct (fst (step WebElement f d)) as [e|y]
    end.
    + rewrite invoke_run. tally.
    + tally.
  - destruct (isinstance x cls_TimeoutException); tally.
Qed.

Lemma click_element_one_lookup (locator : BSLocator)
      (s : WebDriver.Session Driver) :
  (lookups_by (WebDriver.click_element step locator) s <= 1)%nat.
Proof.
  unfold lookups_by, WebDriver.click_element,
    WebDriver.wait_element_to_be_clickable, WebDriver.find_element.
  unfold bind at 1. unfold try_except. rewrite invoke_run.
  destruct (fst (step unit _ (WebDriver.driver s))) as [[]|x].
  2: destruct (isinstance x cls_TimeoutException); tally.
  unfold bind. rewrite find_element_at_no_retry, invoke_run.
  match goal with
  | |- context [fst (step WebElement ?f ?d)] =>
      destruct (fst (step WebElement f d)) as [e|y]
  end.
  - rewrite invoke_run. tally.
  - tally.
Qed.

End Lookups.


(** ** Closing the Playwright session *)

Lemma quit_closed_repeatedly (Engine : Type)
      (step : forall X, Playwright.call X -> Engine -> result X * Engine)
      (n : nat) (s : Cmfx.Session Engine) :
  Cmfx._camoufox_instance (Cmfx.self s) = None ->
  repeatedly (Cmfx.quit step) n s = (repeat (Ok tt) n, s).
Proof.
  intros H. induction n as [|n IH]; simpl; [reflexivity|].
  now rewrite (quit_closed _ step s H), IH.
Qed.

(** C9.  [quit] is idempotent in sequence.  A first call on a wrapper
    that holds an engine instance, whose release returns, releases that
    instance, once, and sets the instance, browser and page attributes to
    [None]; every later call, and every call on a wrapper that holds no
    instance, returns without raising, issues no engine call and leaves
    the three attributes [None]. *)
Theorem quit_idempotent :
  forall (Engine : Type)
         (step : forall X, Playwright.call X -> Engine -> result X * Engine)
         (s : Cmfx.Session Engine),
    (Cmfx._camoufox_instance (Cmfx.self s) = None ->
     Cmfx.quit step s = (Ok tt, s))
    /\ (forall instance,
           Cmfx._camoufox_instance (Cmfx.self s) = Some instance ->
           let release := Playwright.camoufox_aexit instance in
           fst (step _ release (Cmfx.engine s)) = Ok tt ->
           let s1 :=
             Cmfx.mkSession (Cmfx.mkBSCmfx None None None)
                            (snd (step _ release (Cmfx.engine s)))
                            (Cmfx.calls s ++ [Playwright.issued release])%list
           in
           Cmfx.quit step s = (Ok tt, s1)
           /\ Cmfx.quit step s1 = (Ok tt, s1)
           /\ forall n, repeatedly (Cmfx.quit step) n s1
                        = (repeat (Ok tt) n, s1)).
Proof.
  intros Engine step s. split.
  - apply quit_closed.
  - intros instance Hi release Hr s1.
    split; [|split].
    + rewrite (quit_run _ step s instance Hi). cbv zeta. fold release.
      now rewrite Hr.
    + now apply quit_closed.
    + intros n. now apply quit_closed_repeatedly.
Qed.

Lemma quit_idempotent_witness :
  Cmfx.quit (StaticPage.step StaticPage.form)
            (StaticPage.session StaticPage.active)
  = (Ok tt,
     Cmfx.mkSession StaticPage.closed []
       [Playwright.issued (Playwright.camoufox_aexit 1%nat)])
  /\ repeatedly (Cmfx.quit (StaticPage.step StaticPage.form)) 3
       (Cmfx.mkSession StaticPage.closed []
          [Playwright.issued (Playwright.camoufox_aexit 1%nat)])
     = ([Ok tt; Ok tt; Ok tt],
        Cmfx.mkSession StaticPage.closed []
          [Playwright.issued (Playwright.camoufox_aexit 1%nat)])
  /\ Cmfx.quit (StaticPage.step StaticPage.form)
               (StaticPage.session StaticPage.closed)
     = (Ok tt, StaticPage.session StaticPage.closed).
Proof.
  destruct (proj2 (quit_idempotent _ (StaticPage.step StaticPage.form)
                     (StaticPage.session StaticPage.active))
                  1%nat eq_refl eq_refl)
    as (Hfirst & _ & Hlater).
  split; [exact Hfirst|]. split; [exact (Hlater 3%nat)|].
  exact (proj1 (quit_idempotent _ (StaticPage.step StaticPage.form)
                  (StaticPage.session StaticPage.closed))
               eq_refl).
Defined.

(** ** Comparing an attribute *)

(** C10.  There is an input of [check_attribute_is_equals] on which it
    raises instead of returning false: an element without the requested
    attribute, with [ignore_case] true, where lower-casing [None] raises
    [AttributeError].  On an active session, for a css-selector or xpath
    locator and whenever the engine answers the attribute lookup, the
    method returns a boolean exactly when the attribute is present or
    [ignore_case] is false. *)
Theorem check_attribute_is_equals_partial :
  fst (Cmfx.check_attribute_is_equals (StaticPage.step StaticPage.form)
         (Locator.css "a") "href" "/home" true 10%Q
         (StaticPage.session StaticPage.active))
  = Err none_has_no_lower
  /\ forall (Engine : Type)
            (step : forall X, Playwright.call X -> Engine -> result X * Engine)
            (locator : BSLocator) (attr content : string)
            (ignore_case : bool) (timeout : Q) (s : Cmfx.Session Engine)
            (pg : Playwright.handle),
      Cmfx.page (Cmfx.self s) = Some pg ->
      derivable (by_ locator) = true ->
      exists selector,
        Cmfx.get_pw_locator locator = Ok selector
        /\ forall a,
            fst (step _ (Playwright.get_attribute
                           (Playwright.Page_locator pg selector) attr
                           (timeout * 1000)%Q)
                      (Cmfx.engine s))
            = Ok a ->
            let r := fst (Cmfx.check_attribute_is_equals
                            step locator attr content ignore_case
                            timeout s) in
            (is_ok r = true <-> a <> None \/ ignore_case = false)
            /\ (a = None -> ignore_case = true -> r = Err none_has_no_lower)
            /\ (a = None -> ignore_case = false -> r = Ok false)
            /\ (forall v,
                   a = Some v ->
                   r = Ok (if ignore_case
                           then String.eqb (Py.lower v) (Py.lower content)
                           else String.eqb v content)).
Proof.
  split; [reflexivity|].
  intros Engine step locator attr content ignore_case timeout s pg Hpg Hd.
  destruct (get_pw_locator_derivable _ Hd) as [selector Hsel].
  exists selector. split; [exact Hsel|]. intros a Ha.
  rewrite (check_attribute_is_equals_run
             _ step _ _ _ _ _ _ _ _ Hpg Hsel).
  cbv zeta. rewrite Ha. cbn [fst].
  destruct a as [v|]; destruct ignore_case; cbn [is_ok];
    repeat split; intros; try congruence; auto;
    try (left; discriminate).
  destruct H as [H|H]; congruence.
Qed.

Lemma check_attribute_is_equals_partial_witness :
  fst (Cmfx.check_attribute_is_equals (StaticPage.step StaticPage.form)
         (Locator.css "a") "class" "NAV" true 10%Q
         (StaticPage.session StaticPage.active))
  = Ok true
  /\ fst (Cmfx.check_attribute_is_equals (StaticPage.step StaticPage.form)
            (Locator.css "a") "href" "/home" false 10%Q
            (StaticPage.session StaticPage.active))
     = Ok false.
Proof.
  split.
  - destruct (proj2 check_attribute_is_equals_partial _
                (StaticPage.step StaticPage.form) (Locator.css "a")
                "class" "NAV" true 10%Q
                (StaticPage.session StaticPage.active) 3%nat
                eq_refl eq_refl)
      as (selector & Hsel & H).
    injection Hsel as <-.
    destruct (H (Some "nav") eq_refl) as (_ & _ & _ & Hv).
    exact (Hv "nav" eq_refl).
  - destruct (proj2 check_attribute_is_equals_partial _
                (StaticPage.step StaticPage.form) (Locator.css "a")
                "href" "/home" false 10%Q
                (StaticPage.session StaticPage.active) 3%nat
                eq_refl eq_refl)
      as (selector & Hsel & H).
    injection Hsel as <-.
    destruct (H None eq_refl) as (_ & _ & Hn & _).
    exact (Hn eq_refl eq_refl).
Defined.

(** * Further properties *)

(** ** Trimming and splitting *)

Lemma no_comma_app (a b : string) :
  no_comma (a ++ b) = no_comma a && no_comma b.
Proof.
  induction a as [|c a IH]; simpl; [reflexivity|].
  now rewrite IH, andb_assoc.
Qed.

Lemma split_pieces_no_comma (s : string) :
  forallb no_comma (Py.split "," s) = true.
Proof.
  induction s as [|c r IH]; simpl; [reflexivity|].
  destruct (Ascii.eqb c ",") eqn:E; simpl; [exact IH|].
  destruct (Py.split "," r) as [|p ps]; simpl in *; now rewrite E.
Qed.

Lemma lstrip_no_comma (s : string) :
  no_comma s = true -> no_comma (Py.lstrip s) = true.
Proof.
  induction s as [|c r IH]; simpl; intros H; [reflexivity|].
  apply andb_prop in H as [Hc Hr].
  destruct (Py.isspace c); [now apply IH|]. simpl. now rewrite Hc, Hr.
Qed.

Lemma rstrip_no_comma (s : string) :
  no_comma s = true -> no_comma (Py.rstrip s) = true.
Proof.
  induction s as [|c r IH]; simpl; intros H; [reflexivity|].
  apply andb_prop in H as [Hc Hr].
  destruct (Py.isspace c && Py.is_empty (Py.rstrip r)); [reflexivity|].
  simpl. now rewrite Hc, (IH Hr).
Qed.

Lemma lstrip_starts_clean (s : string) :
  starts_clean (Py.lstrip s) = true.
Proof.
  induction s as [|c r IH]; simpl; [reflexivity|].
  destruct (Py.isspace c) eqn:E; [exact IH|]. simpl. now rewrite E.
Qed.

Lemma lstrip_fixed (s : string) :
  starts_clean s = true -> Py.lstrip s = s.
Proof.
  destruct s as [|c r]; simpl; [reflexivity|].
  now destruct (Py.isspace c).
Qed.

Lemma rstrip_starts_clean (s : string) :
  starts_clean s = true -> starts_clean (Py.rstrip s) = true.
Proof.
  destruct s as [|c r]; simpl; [reflexivity|].
  destruct (Py.isspace c) eqn:E; [discriminate|]. simpl. now rewrite E.
Qed.

Lemma rstrip_idem (s : string) : Py.rstrip (Py.rstrip s) = Py.rstrip s.
Proof.
  induction s as [|c r IH]; simpl; [reflexivity|].
  destruct (Py.isspace c && Py.is_empty (Py.rstrip r)) eqn:E;
    [reflexivity|].
  simpl. now rewrite IH, E.
Qed.

(** Trimming twice is trimming once. *)
Lemma strip_idem (s : string) : Py.strip (Py.strip s) = Py.strip s.
Proof.
  unfold Py.strip.
  rewrite (lstrip_fixed (Py.rstrip (Py.lstrip s))).
  - apply rstrip_idem.
  - apply rstrip_starts_clean, lstrip_starts_clean.
Qed.

Lemma strip_no_comma (s : string) :
  no_comma s = true -> no_comma (Py.strip s) = true.
Proof. intros H. now apply rstrip_no_comma, lstrip_no_comma. Qed.

(** The pieces that a css value is read as are subselectors. *)
Lemma subselectors_are_subselectors (v : string) :
  forallb is_subselector (subselectors v) = true.
Proof.
  unfold subselectors.
  pose proof (split_pieces_no_comma v) as H.
  induction (Py.split "," v) as [|x l IH]; simpl in *; [reflexivity|].
  apply andb_prop in H as [Hx Hl].
  destruct (Py.truthy (Py.strip x)) eqn:E; [|now apply IH]. simpl.
  rewrite (IH Hl), andb_true_r. unfold is_subselector.
  rewrite E, (strip_no_comma _ Hx), strip_idem. simpl.
  apply String.eqb_refl.
Qed.

Lemma trimmed_starts_clean (s : string) :
  Py.strip s = s -> starts_clean s = true.
Proof.
  intros H. rewrite <- H. unfold Py.strip.
  apply rstrip_starts_clean, lstrip_starts_clean.
Qed.

Lemma trimmed_rstrip (s : string) : Py.strip s = s -> Py.rstrip s = s.
Proof.
  intros H. pose proof (trimmed_starts_clean s H) as Hc.
  unfold Py.strip in H. now rewrite (lstrip_fixed s Hc) in H.
Qed.

Lemma rstrip_app_fixed (a suf : string) :
  Py.is_empty suf = false -> Py.rstrip suf = suf ->
  Py.rstrip (a ++ suf) = a ++ suf.
Proof.
  intros Hne Hfix. induction a as [|c a IH]; simpl; [exact Hfix|].
  rewrite IH.
  replace (Py.is_empty (a ++ suf)) with false;
    [now rewrite andb_false_r|].
  destruct a; simpl; [now rewrite Hne|reflexivity].
Qed.

(** A subselector followed by a comma-free text that does not end in
    white space is a subselector. *)
Lemma is_subselector_app (ss suf : string) :
  is_subselector ss = true ->
  no_comma suf = true -> Py.is_empty suf = false -> Py.rstrip suf = suf ->
  is_subselector (ss ++ suf) = true.
Proof.
  intros Hss Hn Hne Hfix.
  apply is_subselector_inv in Hss as (Ht & Hc & Hs).
  pose proof (trimmed_starts_clean ss Hs) as Hclean.
  unfold is_subselector.
  rewrite no_comma_app, Hc, Hn.
  assert (Hstrip : Py.strip (ss ++ suf) = ss ++ suf).
  { unfold Py.strip. rewrite lstrip_fixed.
    - now apply rstrip_app_fixed.
    - destruct ss as [|c r]; [discriminate|exact Hclean]. }
  rewrite Hstrip, String.eqb_refl.
  destruct ss; [discriminate|reflexivity].
Qed.

Lemma subselectors_map_suffix (suf : string) (l : list string) :
  forallb is_subselector l = true ->
  no_comma suf = true -> Py.is_empty suf = false -> Py.rstrip suf = suf ->
  subselectors (Py.join ", " (map (fun ss => ss ++ suf) l))
  = map (fun ss => ss ++ suf) l.
Proof.
  intros Hl Hn Hne Hfix. apply subselectors_join.
  induction l as [|x l IH]; simpl in *; [reflexivity|].
  apply andb_prop in Hl as [Hx Hl].
  now rewrite (is_subselector_app x suf Hx Hn Hne Hfix), (IH Hl).
Qed.

Lemma string_of_uint_no_comma (d : Decimal.uint) :
  no_comma (NilEmpty.string_of_uint d) = true.
Proof. induction d; simpl; trivial. Qed.

Lemma str_of_int_no_comma (i : Z) : no_comma (Py.str_of_int i) = true.
Proof.
  unfold Py.str_of_int, NilZero.string_of_int, NilZero.string_of_uint.
  destruct (Z.to_int i) as [d|d]; destruct d; simpl;
    trivial; apply string_of_uint_no_comma.
Qed.

Lemma str_app_assoc (a b c : string) : (a ++ b) ++ c = a ++ b ++ c.
Proof. induction a as [|x a IH]; simpl; [reflexivity|now rewrite IH]. Qed.

Lemma nth_suffix_ok (i : Z) :
  no_comma (nth_suffix i) = true
  /\ Py.is_empty (nth_suffix i) = false
  /\ Py.rstrip (nth_suffix i) = nth_suffix i.
Proof.
  unfold nth_suffix. repeat split.
  - rewrite !no_comma_app, str_of_int_no_comma. reflexivity.
  - rewrite <- (str_app_assoc ":nth-child(" (Py.str_of_int i) ")").
    now apply rstrip_app_fixed.
Qed.

(** ** Derivations compose *)

(** X1.  On a css-selector locator nth derivation can be chained: the
    value it produces is read back as the subselectors of the original
    value, each with its ":nth-child(i)", so a second derivation with [j]
    gives, for every subselector [ss], [ss:nth-child(i):nth-child(j)]. *)
Theorem nth_child_chain :
  forall (v : string) (i j : Z),
  exists r1 : BSLocator,
    Locator.get_nth_element (Locator.css v) i = Ok r1
    /\ by_ r1 = CSS_SELECTOR
    /\ subselectors (value r1)
       = map (fun ss => ss ++ nth_suffix i) (subselectors v)
    /\ Locator.get_nth_element r1 j
       = Ok (Locator.css
               (Py.join ", "
                  (map (fun ss => (ss ++ nth_suffix i) ++ nth_suffix j)
                       (subselectors v)))).
Proof.
  intros v i j.
  destruct (nth_suffix_ok i) as (Hn & He & Hr).
  eexists. split; [apply get_nth_element_css|].
  split; [reflexivity|].
  assert (Hsub : subselectors
                   (Py.join ", " (map (fun ss => ss ++ nth_suffix i)
                                      (subselectors v)))
                 = map (fun ss => ss ++ nth_suffix i) (subselectors v)).
  { apply subselectors_map_suffix; trivial.
    apply subselectors_are_subselectors. }
  split; [exact Hsub|].
  match goal with
  | |- Locator.get_nth_element ?r _ = _ =>
      change r with (Locator.css (value r))
  end.
  rewrite get_nth_element_css. cbn [value Locator.css].
  fold (nth_suffix i). fold (nth_suffix j).
  change (fun ss : string => ss ++ ":nth-child(" ++ Py.str_of_int i ++ ")")
    with (fun ss : string => ss ++ nth_suffix i).
  rewrite Hsub, map_map. reflexivity.
Qed.

Example nth_child_chain_example :
  exists r1,
    Locator.get_nth_element (Locator.css "ul > li , ol > li") 2 = Ok r1
    /\ Locator.get_nth_element r1 1
       = Ok (Locator.css
               ("ul > li:nth-child(2):nth-child(1), "
                ++ "ol > li:nth-child(2):nth-child(1)")).
Proof. eexists. split; reflexivity. Qed.

Lemma subselectors_single (b : string) :
  is_subselector b = true -> subselectors b = [b].
Proof.
  intros H. apply (subselectors_join [b]). simpl. now rewrite H.
Qed.

Lemma descendant_suffix_ok (b : string) :
  is_subselector b = true ->
  no_comma (" " ++ b) = true
  /\ Py.is_empty (" " ++ b) = false
  /\ Py.rstrip (" " ++ b) = " " ++ b.
Proof.
  intros H. apply is_subselector_inv in H as (Ht & Hc & Hs).
  repeat split.
  - simpl. exact Hc.
  - apply rstrip_app_fixed.
    + destruct b; [discriminate|reflexivity].
    + now apply trimmed_rstrip.
Qed.

(** X2.  Descendant derivation is associative within a strategy: for a
    parent [p] and a child [b] of the same strategy, css-selector or
    xpath, where a css child is a single subselector, deriving [b] from
    [p] and then [c] from the result gives the same locator as deriving
    from [p] the descendant [c] of [b]. *)
Theorem get_descendant_assoc :
  forall (p b c : BSLocator),
    derivable (by_ p) = true ->
    by_ b = by_ p ->
    (by_ p = CSS_SELECTOR -> is_subselector (value b) = true) ->
    exists r1 r2 : BSLocator,
      Locator.get_descendant p b = Ok r1
      /\ Locator.get_descendant b c = Ok r2
      /\ Locator.get_descendant r1 c = Locator.get_descendant p r2.
Proof.
  intros [pb pv] [bb bv] [cb cv] Hd Hb Hsub. cbn [by_ value] in *.
  subst bb. destruct pb; try discriminate.
  - (* css selector *)
    specialize (Hsub eq_refl).
    destruct (descendant_suffix_ok bv Hsub) as (Hn & He & Hr).
    change (mkBSLocator CSS_SELECTOR pv) with (Locator.css pv).
    change (mkBSLocator CSS_SELECTOR bv) with (Locator.css bv).
    do 2 eexists.
    split; [apply get_descendant_css|].
    split; [apply get_descendant_css|].
    rewrite !get_descendant_css. cbn [value Locator.css].
    change (fun ss : string => ss ++ " " ++ bv)
      with (fun ss : string => ss ++ (" " ++ bv)).
    rewrite (subselectors_map_suffix (" " ++ bv) (subselectors pv)
               (subselectors_are_subselectors pv) Hn He Hr).
    rewrite (subselectors_single bv Hsub), map_map.
    do 3 f_equal. apply map_ext. intros ss.
    cbn [map Py.join String.concat]. now rewrite str_app_assoc.
  - (* xpath *)
    do 2 eexists. split; [reflexivity|]. split; [reflexivity|].
    cbn. now rewrite str_app_assoc.
Qed.

Lemma get_descendant_assoc_witness :
  exists r1 r2 : BSLocator,
    Locator.get_descendant (Locator.css "nav, footer") (Locator.css "ul > li")
    = Ok r1
    /\ Locator.get_descendant (Locator.css "ul > li") (Locator.css "a")
       = Ok r2
    /\ Locator.get_descendant r1 (Locator.css "a")
       = Locator.get_descendant (Locator.css "nav, footer") r2.
Proof.
  exact (get_descendant_assoc (Locator.css "nav, footer")
           (Locator.css "ul > li") (Locator.css "a")
           eq_refl eq_refl (fun _ => eq_refl)).
Defined.

(** X3.  On the locators the factories build, the Playwright wrapper
    and the derivations agree: for each of the eight factories
    [get_pw_locator] accepts the locator exactly when [get_descendant]
    and [get_nth_element] are defined on it, which is for [css] and
    [xpath]; and a locator returned by a derivation is again what the
    factory of the same strategy builds from its value, so that
    [get_pw_locator] turns it into that value, prefixed with "xpath=" on
    xpath.  (The derivations test [self.by is By.XPATH], the wrapper
    [locator.by == 'xpath']: on a constant of [By] the two tests agree.) *)
Theorem derivations_match_playwright :
  forall (b : By) (v : string) (other : BSLocator) (i : Z),
    let p := Locator.make b v in
    is_ok (Cmfx.get_pw_locator p) = derivable b
    /\ is_ok (Locator.get_descendant p other) = derivable b
    /\ is_ok (Locator.get_nth_element p i) = derivable b
    /\ (forall r,
           Locator.get_descendant p other = Ok r
           \/ Locator.get_nth_element p i = Ok r ->
           r = Locator.make b (value r)
           /\ Cmfx.get_pw_locator r
              = Ok (match b with
                    | XPATH => "xpath=" ++ value r
                    | _ => value r
                    end)).
Proof.
  intros b v other i p. subst p.
  split; [now destruct b|]. split; [now destruct b|].
  split; [now destruct b|].
  intros r [H|H]; destruct b; cbn in H; try discriminate;
    injection H as <-; split; reflexivity.
Qed.

Lemma derivations_match_playwright_witness :
  Locator.xpath "(//ul)[2]" = Locator.make XPATH "(//ul)[2]"
  /\ Cmfx.get_pw_locator (Locator.xpath "(//ul)[2]")
     = Ok "xpath=(//ul)[2]".
Proof.
  exact (proj2 (proj2 (proj2
           (derivations_match_playwright XPATH "//ul" (Locator.css "li") 2)))
           (Locator.xpath "(//ul)[2]") (or_intror eq_refl)).
Defined.

(** ** The Playwright wrapper without a page *)

Section CmfxClosed.
Import Playwright.
Variable Engine : Type.
Variable step : forall X, call X -> Engine -> result X * Engine.

Ltac closed_locator H :=
  rewrite (self_page_locator_closed _ _ _ H); reflexivity.

Lemma closed_probes (locator : BSLocator) (timeout : Q)
      (s : Cmfx.Session Engine) :
  Cmfx.page (Cmfx.self s) = None ->
  Cmfx.is_element_present step locator timeout s
  = (Err none_has_no_locator, s)
  /\ Cmfx.is_element_visible step locator timeout s
     = (Err none_has_no_locator, s)
  /\ Cmfx.wait_element_to_be_present step locator timeout s
     = (Err none_has_no_locator, s).
Proof.
  intros H.
  unfold Cmfx.is_element_present, Cmfx.is_element_visible,
    Cmfx.wait_element_to_be_present, try_except, bind.
  repeat split; closed_locator H.
Qed.

Lemma closed_getters (locator : BSLocator) (timeout : Q)
      (s : Cmfx.Session Engine) :
  Cmfx.page (Cmfx.self s) = None ->
  (forall flag,
      Cmfx.get_element_text step locator timeout flag s
      = (Err none_has_no_locator, s))
  /\ Cmfx.get_elements_text step locator timeout s
     = (Err none_has_no_locator, s)
  /\ Cmfx.get_elements_count step locator timeout s
     = (Err none_has_no_locator, s)
  /\ (forall attr,
         Cmfx.get_attribute_value step locator attr timeout s
         = (Err none_has_no_locator, s))
  /\ (forall attr content ignore_case,
         Cmfx.check_attribute_is_equals step locator attr content
                                        ignore_case timeout s
         = (Err none_has_no_locator, s)).
Proof.
  intros H. split; [|split; [|split; [|split]]].
  - intros flag. unfold Cmfx.get_element_text, try_except, bind.
    closed_locator H.
  - unfold Cmfx.get_elements_text, try_except, bind at 1 2.
    unfold Cmfx.wait_element_to_be_present, bind. closed_locator H.
  - unfold Cmfx.get_elements_count, bind. closed_locator H.
  - intros attr. unfold Cmfx.get_attribute_value, bind. closed_locator H.
  - intros attr content ignore_case.
    unfold Cmfx.check_attribute_is_equals, Cmfx.get_attribute_value.
    unfold bind at 1 2. closed_locator H.
Qed.

Lemma closed_clicks (locator : BSLocator) (timeout : Q)
      (s : Cmfx.Session Engine) :
  Cmfx.page (Cmfx.self s) = None ->
  Cmfx.click_element step locator timeout s = (Err none_has_no_locator, s)
  /\ (forall index,
         Cmfx.click_nth_element step locator index timeout s
         = (Err none_has_no_locator, s))
  /\ (forall includes excludes,
         Cmfx.click_element_by_partial_texts step locator includes excludes
                                             timeout s
         = (Err none_has_no_locator, s)).
Proof.
  intros H. split; [|split].
  - unfold Cmfx.click_element, bind. closed_locator H.
  - intros index. unfold Cmfx.click_nth_element, bind. closed_locator H.
  - intros includes excludes.
    unfold Cmfx.click_element_by_partial_texts, bind at 1.
    unfold Cmfx.wait_element_to_be_present, bind. closed_locator H.
Qed.

End CmfxClosed.

(** X4.  Once [quit] has released the engine, no operation on elements
    works any more: on a wrapper whose page is [None] (after [quit], or
    before [initialize]) the probes, the waits, the getters and the clicks
    all raise [AttributeError], for every locator, without a call to the
    engine and without changing the session; the presence and visibility
    probes and the plural getters, which swallow timeouts, are no
    exception. *)
Theorem operations_after_quit :
  forall (Engine : Type)
         (step : forall X, Playwright.call X -> Engine -> result X * Engine)
         (s : Cmfx.Session Engine) (instance : Playwright.handle),
    Cmfx._camoufox_instance (Cmfx.self s) = Some instance ->
    fst (step _ (Playwright.camoufox_aexit instance) (Cmfx.engine s))
    = Ok tt ->
    let s1 := snd (Cmfx.quit step s) in
    forall (locator : BSLocator) (timeout : Q),
      Cmfx.is_element_present step locator timeout s1
      = (Err none_has_no_locator, s1)
      /\ Cmfx.is_element_visible step locator timeout s1
         = (Err none_has_no_locator, s1)
      /\ Cmfx.wait_element_to_be_present step locator timeout s1
         = (Err none_has_no_locator, s1)
      /\ (forall flag,
             Cmfx.get_element_text step locator timeout flag s1
             = (Err none_has_no_locator, s1))
      /\ Cmfx.get_elements_text step locator timeout s1
         = (Err none_has_no_locator, s1)
      /\ Cmfx.get_elements_count step locator timeout s1
         = (Err none_has_no_locator, s1)
      /\ (forall attr content ignore_case,
             Cmfx.check_attribute_is_equals step locator attr content
                                            ignore_case timeout s1
             = (Err none_has_no_locator, s1))
      /\ Cmfx.click_element step locator timeout s1
         = (Err none_has_no_locator, s1)
      /\ (forall includes excludes,
             Cmfx.click_element_by_partial_texts step locator includes
                                                 excludes timeout s1
             = (Err none_has_no_locator, s1)).
Proof.
  intros Engine step s instance Hi Hr s1 locator timeout.
  assert (Hp : Cmfx.page (Cmfx.self s1) = None).
  { unfold s1. rewrite (quit_run _ step s instance Hi). cbv zeta.
    now rewrite Hr. }
  destruct (closed_probes _ step locator timeout s1 Hp) as (P1 & P2 & P3).
  destruct (closed_getters _ step locator timeout s1 Hp)
    as (G1 & G2 & G3 & _ & G5).
  destruct (closed_clicks _ step locator timeout s1 Hp) as (C1 & _ & C3).
  repeat split; trivial.
Qed.

Lemma operations_after_quit_witness :
  fst (Cmfx.is_element_present (StaticPage.step StaticPage.form)
         (Locator.css "button") 10%Q
         (snd (Cmfx.quit (StaticPage.step StaticPage.form)
                         (StaticPage.session StaticPage.active))))
  = Err none_has_no_locator.
Proof.
  exact (f_equal fst
           (proj1 (operations_after_quit _ (StaticPage.step StaticPage.form)
                     (StaticPage.session StaticPage.active) 1%nat
                     eq_refl eq_refl (Locator.css "button") 10%Q))).
Defined.

(** ** Probes and assertive waits *)

(** X5.  In both wrappers the presence probe is the boolean reading of
    the assertive presence wait: for every locator, timeout and session
    the two leave the same session behind; the probe returns true exactly
    when the wait returns, false exactly when the wait raises the timeout
    error the probe swallows ([AssertionError] on Playwright,
    [TimeoutException] on Selenium), and raises whatever else the wait
    raises. *)
Theorem probe_reads_wait :
  (forall (Engine : Type)
          (step : forall X, Playwright.call X -> Engine -> result X * Engine)
          (locator : BSLocator) (timeout : Q) (s : Cmfx.Session Engine),
      snd (Cmfx.is_element_present step locator timeout s)
      = snd (Cmfx.wait_element_to_be_present step locator timeout s)
      /\ fst (Cmfx.is_element_present step locator timeout s)
         = match fst (Cmfx.wait_element_to_be_present step locator
                                                      timeout s) with
           | Ok _ => Ok true
           | Err e =>
               if isinstance e cls_AssertionError then Ok false else Err e
           end)
  /\ (forall (Driver : Type)
             (step : forall X, Selenium.call X -> Driver -> result X * Driver)
             (locator : BSLocator) (tolerance_time : Q)
             (s : WebDriver.Session Driver),
         snd (WebDriver.is_element_present step locator tolerance_time s)
         = snd (WebDriver.wait_element_to_be_present step locator
                                                     tolerance_time s)
         /\ fst (WebDriver.is_element_present step locator tolerance_time s)
            = match fst (WebDriver.wait_element_to_be_present
                           step locator tolerance_time s) with
              | Ok _ => Ok true
              | Err e =>
                  if isinstance e cls_TimeoutException then Ok false
                  else Err e
              end).
Proof.
  split.
  - intros Engine step locator timeout s.
    destruct (Cmfx.page (Cmfx.self s)) as [pg|] eqn:Hpg.
    + destruct (Cmfx.get_pw_locator locator) as [selector|e] eqn:Hsel.
      * rewrite (is_element_present_run _ step _ _ _ _ _ Hpg Hsel),
          (wait_element_to_be_present_run _ step _ _ _ _ _ Hpg Hsel).
        cbv zeta. cbn [fst snd].
        destruct (fst (step unit _ (Cmfx.engine s))) as [[]|e];
          [now split|].
        now destruct (isinstance e cls_AssertionError).
      * unfold Cmfx.is_element_present, Cmfx.wait_element_to_be_present,
          try_except, bind.
        rewrite (self_page_locator_run _ _ _ _ Hpg), Hsel.
        destruct locator as [b v]; destruct b; cbn in Hsel;
          try discriminate; injection Hsel as <-; now split.
    + destruct (closed_probes _ step locator timeout s Hpg)
        as (P1 & _ & P3).
      rewrite P1, P3. now split.
  - intros Driver step locator tol s.
    rewrite is_element_present_sel_run. cbv zeta.
    unfold WebDriver.wait_element_to_be_present. rewrite invoke_run.
    cbn [fst snd].
    destruct (fst (step unit _ (WebDriver.driver s))) as [[]|e];
      [now split|].
    now destruct (isinstance e cls_TimeoutException).
Qed.

(** ** The host queries of [initialize] *)

Lemma replace_char_length (old new : ascii) (s : string) :
  String.length (PyVal.replace_char old new s) = String.length s.
Proof. induction s as [|c r IH]; simpl; [reflexivity|now rewrite IH]. Qed.

Lemma replace_char_clears (old new : ascii) (s : string) :
  old <> new -> PyVal.has_char old (PyVal.replace_char old new s) = false.
Proof.
  intros Hneq. induction s as [|c r IH]; simpl; [reflexivity|].
  rewrite IH, orb_false_r.
  destruct (Ascii.eqb c old) eqn:E; [|exact E].
  apply Ascii.eqb_neq. congruence.
Qed.

Lemma replace_char_absent (old new : ascii) (s : string) :
  PyVal.has_char old s = false -> PyVal.replace_char old new s = s.
Proof.
  induction s as [|c r IH]; simpl; intros H; [reflexivity|].
  apply orb_false_elim in H as [Hc Hr]. now rewrite Hc, (IH Hr).
Qed.

Lemma replace_char_get (old new : ascii) (s : string) (n : nat) :
  String.get n (PyVal.replace_char old new s)
  = match String.get n s with
    | Some c => Some (if Ascii.eqb c old then new else c)
    | None => None
    end.
Proof.
  revert n. induction s as [|c r IH]; intros n; simpl; [reflexivity|].
  destruct n; [reflexivity|apply IH].
Qed.

Section CmfxMoreRuns.
Import Host.
Variable Machine : Type.
Variable step : forall X, call X -> Machine -> result X * Machine.
Variable builtin : string -> string -> exn.

Lemma perform_run {X} (c : call X) (s : CmfxMore.Session Machine) :
  CmfxMore.perform step c s
  = (fst (step X c (CmfxMore.machine (Cmfx.engine s))),
     performed s c (snd (step X c (CmfxMore.machine (Cmfx.engine s))))).
Proof.
  unfold CmfxMore.perform, performed.
  now destruct (step X c (CmfxMore.machine (Cmfx.engine s))).
Qed.

Lemma core_await_run {X} (c : Playwright.call X)
      (s : CmfxMore.Session Machine) :
  Cmfx.await (CmfxMore.core_step step) c s
  = (fst (step X (playwright c) (CmfxMore.machine (Cmfx.engine s))),
     Cmfx.mkSession (Cmfx.self s)
       (CmfxMore.mkWorld
          (snd (step X (playwright c) (CmfxMore.machine (Cmfx.engine s))))
          (history s ++ [issued (playwright c)])%list)
       (Cmfx.calls s ++ [Playwright.issued c])%list).
Proof.
  unfold Cmfx.await, CmfxMore.core_step, history.
  now destruct (step X (playwright c) (CmfxMore.machine (Cmfx.engine s))).
Qed.

Lemma get_locale_run (s : CmfxMore.Session Machine) :
  let c := locale_getdefaultlocale in
  let s1 := performed s c (snd (step _ c (CmfxMore.machine (Cmfx.engine s))))
  in
  CmfxMore._get_locale step s
  = (match fst (step _ c (CmfxMore.machine (Cmfx.engine s))) with
     | Ok (Some language, _) => Ok (PyVal.replace_char "_" "-" language)
     | Ok (None, _) =>
         Err (AttributeError "'NoneType' object has no attribute 'replace'")
     | Err e => Err e
     end, s1).
Proof.
  intros c s1. unfold CmfxMore._get_locale, bind. rewrite perform_run.
  fold c. fold s1.
  destruct (fst (step _ c (CmfxMore.machine (Cmfx.engine s))))
    as [[[language|] encoding]|e]; reflexivity.
Qed.

End CmfxMoreRuns.

(** X6.  [_get_locale] answers the host's default language with every
    underscore turned into a hyphen and nothing else changed: the result
    has the length of the language code, holds no underscore and agrees
    with the code at every other position.  When the host has no default
    language ([getdefaultlocale] answers [None]) it raises
    [AttributeError]. *)
Theorem get_locale_spec :
  forall (Machine : Type)
         (step : forall X, Host.call X -> Machine -> result X * Machine)
         (s : CmfxMore.Session Machine),
    match fst (step _ Host.locale_getdefaultlocale
                    (CmfxMore.machine (Cmfx.engine s))) with
    | Ok (Some language, _) =>
        exists r,
          fst (CmfxMore._get_locale step s) = Ok r
          /\ String.length r = String.length language
          /\ PyVal.has_char "_" r = false
          /\ (forall n,
                 String.get n r
                 = match String.get n language with
                   | Some c => Some (if Ascii.eqb c "_" then "-"%char else c)
                   | None => None
                   end)
          /\ (PyVal.has_char "_" language = false -> r = language)
    | Ok (None, _) =>
        fst (CmfxMore._get_locale step s)
        = Err (AttributeError "'NoneType' object has no attribute 'replace'")
    | Err e => fst (CmfxMore._get_locale step s) = Err e
    end.
Proof.
  intros Machine step s. rewrite get_locale_run. cbv zeta. cbn [fst].
  destruct (fst (step _ Host.locale_getdefaultlocale
                      (CmfxMore.machine (Cmfx.engine s))))
    as [[[language|] encoding]|e]; try reflexivity.
  exists (PyVal.replace_char "_" "-" language). split; [reflexivity|].
  split; [apply replace_char_length|].
  split; [now apply replace_char_clears|].
  split; [intros n; apply replace_char_get|].
  apply replace_char_absent.
Qed.

Example get_locale_example :
  fst (CmfxMore._get_locale (Desk.step Desk.no_page)
                            (Desk.session StaticPage.closed))
  = Ok "pt-BR".
Proof. reflexivity. Qed.

(** ** [initialize] *)

Lemma launches_app (a b : list Host.event) :
  launches (a ++ b) = (launches a + launches b)%nat.
Proof.
  induction a as [|[X c] a IH]; simpl; [reflexivity|].
  destruct c; simpl; now rewrite IH.
Qed.

Lemma core_step_fst (Machine : Type)
      (step : forall X, Host.call X -> Machine -> result X * Machine)
      (X : Type) (c : Playwright.call X) (w : CmfxMore.World Machine) :
  fst (CmfxMore.core_step step X c w)
  = fst (step X (Host.playwright c) (CmfxMore.machine w)).
Proof.
  unfold CmfxMore.core_step.
  now destruct (step X (Host.playwright c) (CmfxMore.machine w)).
Qed.

(** Runs [initialize] call by call. *)
Ltac run_initialize step :=
  unfold CmfxMore.initialize, CmfxMore._get_platform_and_web_gl,
    CmfxMore._get_screen_resolution, CmfxMore._get_locale,
    CmfxMore.set_camoufox_instance, CmfxMore.set_browser,
    CmfxMore.set_page, CmfxMore.perform, bind, ret, raise, lift,
    Cmfx.get_self, Cmfx.set_self, history;
  cbn -[CmfxMore.make_config CmfxMore.make_page_options String.eqb
        CmfxMore.quit];
  repeat (match goal with
          | |- context [step ?X ?c ?m] =>
              destruct (step X c m) as [[?|?] ?]
          | |- context [if String.eqb ?a ?b then _ else _] =>
              destruct (String.eqb a b)
          | |- context [CmfxMore.make_page_options ?b ?c] =>
              destruct (CmfxMore.make_page_options b c)
          | |- context [CmfxMore.screen_resolution ?c] =>
              destruct (CmfxMore.screen_resolution c)
          | |- context [fst ?p] => is_var p; destruct p as [[?|] ?]
          end;
          cbn -[CmfxMore.make_config CmfxMore.make_page_options
                String.eqb CmfxMore.quit]).

(** X7.  On a host whose operating system is none of Windows, Darwin
    and Linux, [initialize] raises the invalid-platform exception after
    the platform query alone: nothing is launched and the wrapper's
    attributes are untouched. *)
Theorem initialize_unclassified_platform :
  forall (Machine : Type)
         (step : forall X, Host.call X -> Machine -> result X * Machine)
         (builtin : string -> string -> exn) (cfg : CmfxMore.Settings)
         (s : CmfxMore.Session Machine) (os_name : string),
    fst (step _ Host.platform_system (CmfxMore.machine (Cmfx.engine s)))
    = Ok os_name ->
    classified os_name = false ->
    CmfxMore.initialize step builtin cfg s
    = (Err (invalid_platform os_name),
       performed s Host.platform_system
         (snd (step _ Host.platform_system
                    (CmfxMore.machine (Cmfx.engine s))))).
Proof.
  intros Machine step builtin cfg s os_name Hos Hc.
  unfold classified in Hc.
  apply orb_false_elim in Hc as [Hc Hl].
  apply orb_false_elim in Hc as [Hw Hd].
  unfold CmfxMore.initialize, CmfxMore._get_platform_and_web_gl.
  unfold bind at 1 2. rewrite perform_run, Hos. cbn [fst snd].
  now rewrite Hw, Hd, Hl.
Qed.

Lemma initialize_unclassified_platform_witness :
  let r := CmfxMore.initialize (Desk.step Desk.plan9) Desk.builtin
             Desk.defaults (Desk.session StaticPage.closed) in
  fst r = Err (invalid_platform "Plan9")
  /\ Cmfx.self (snd r) = StaticPage.closed
  /\ history (snd r) = [Host.issued Host.platform_system].
Proof.
  cbv zeta.
  rewrite (initialize_unclassified_platform _ (Desk.step Desk.plan9)
             Desk.builtin Desk.defaults (Desk.session StaticPage.closed)
             "Plan9" eq_refl eq_refl).
  repeat split.
Defined.



(** *** The configuration *)

Lemma dict_get_set (k k' : string) (v : PyVal.pyval) (d : PyVal.dict) :
  PyVal.dict_get k (PyVal.dict_set k' v d)
  = if String.eqb k k' then Some v else PyVal.dict_get k d.
Proof.
  induction d as [|[k2 v2] d IH]; simpl.
  - now destruct (String.eqb k k').
  - destruct (String.eqb_spec k' k2) as [->|Hn]; simpl.
    + destruct (String.eqb_spec k k2); reflexivity.
    + rewrite IH.
      destruct (String.eqb_spec k k2) as [->|Hk];
        destruct (String.eqb_spec k2 k') as [E|E];
        try reflexivity; congruence.
Qed.

Lemma dict_get_app (k : string) (a b : PyVal.dict) :
  PyVal.dict_get k (a ++ b)%list
  = match PyVal.dict_get k a with
    | Some v => Some v
    | None => PyVal.dict_get k b
    end.
Proof.
  induction a as [|[k2 v2] a IH]; simpl; [reflexivity|].
  now destruct (String.eqb k k2).
Qed.

Lemma dict_get_fold (entries : list (string * PyVal.pyval)) :
  forall (d : PyVal.dict) (k : string),
    PyVal.dict_get k
      (fold_left (fun d kv => PyVal.dict_set (fst kv) (snd kv) d) entries d)
    = match PyVal.dict_get k (rev entries) with
      | Some v => Some v
      | None => PyVal.dict_get k d
      end.
Proof.
  induction entries as [|[k1 v1] entries IH]; intros d k; simpl;
    [reflexivity|].
  rewrite IH, dict_get_app, dict_get_set. simpl.
  destruct (PyVal.dict_get k (rev entries)); [reflexivity|].
  now destruct (String.eqb k k1).
Qed.

Lemma dict_get_absent (k : string) (d : PyVal.dict) :
  ~ In k (map fst d) -> PyVal.dict_get k d = None.
Proof.
  induction d as [|[k2 v2] d IH]; simpl; intros H; [reflexivity|].
  destruct (String.eqb_spec k k2) as [->|Hn]; [tauto|].
  apply IH. tauto.
Qed.

(** In a dictionary, whose keys are distinct, no binding hides
    another. *)
Lemma dict_get_rev (k : string) (d : PyVal.dict) :
  NoDup (map fst d) -> PyVal.dict_get k (rev d) = PyVal.dict_get k d.
Proof.
  induction d as [|[k2 v2] d IH]; simpl; intros H; [reflexivity|].
  inversion H as [|? ? Hnot Hd]; subst.
  rewrite dict_get_app, (IH Hd). simpl.
  destruct (String.eqb_spec k k2) as [->|Hn].
  - now rewrite (dict_get_absent k2 d Hnot).
  - now destruct (PyVal.dict_get k d).
Qed.

Lemma own_entries_distinct (cfg : CmfxMore.Settings)
      (p : string * (string * string)) (w : PyVal.pyval) (l : string) :
  NoDup (map fst (own_entries cfg p w l)).
Proof.
  cbn. repeat constructor; cbn; intuition discriminate.
Qed.

Lemma make_config_get (cfg : CmfxMore.Settings)
      (p : string * (string * string)) (w : PyVal.pyval) (l k : string) :
  NoDup (map fst (CmfxMore.camoufox_config cfg)) ->
  PyVal.dict_get k (CmfxMore.make_config cfg p w l)
  = match PyVal.dict_get k (CmfxMore.camoufox_config cfg) with
    | Some v => Some v
    | None => PyVal.dict_get k (own_entries cfg p w l)
    end.
Proof.
  intros Hd. unfold CmfxMore.make_config, PyVal.dict_display.
  fold (own_entries cfg p w l).
  rewrite dict_get_fold, rev_app_distr, dict_get_app.
  rewrite (dict_get_rev k _ Hd),
    (dict_get_rev k _ (own_entries_distinct cfg p w l)).
  now destruct (PyVal.dict_get k (CmfxMore.camoufox_config cfg)),
    (PyVal.dict_get k (own_entries cfg p w l)).
Qed.

Lemma make_config_overrides (cfg : CmfxMore.Settings)
      (p : string * (string * string)) (w : PyVal.pyval) (l : string) :
  NoDup (map fst (CmfxMore.camoufox_config cfg)) ->
  (forall resolution,
      CmfxMore.screen_resolution cfg = Some resolution -> w = resolution) ->
  overrides cfg (CmfxMore.make_config cfg p w l).
Proof.
  intros Hd Hw. unfold overrides. repeat split.
  - intros k v Hk. now rewrite (make_config_get cfg p w l k Hd), Hk.
  - intros Hk. now rewrite (make_config_get cfg p w l _ Hd), Hk.
  - intros Hk. now rewrite (make_config_get cfg p w l _ Hd), Hk.
  - intros resolution Hr Hk.
    rewrite (make_config_get cfg p w l _ Hd), Hk. cbn.
    now rewrite (Hw resolution Hr).
Qed.

Lemma launched_with_app (a b : list Host.event) :
  launched_with (a ++ b) = (launched_with a ++ launched_with b)%list.
Proof.
  induction a as [|[X c] a IH]; simpl; [reflexivity|].
  destruct c; simpl; now rewrite IH.
Qed.

(** X9.  The pass-through options win over the wrapper's own settings:
    whenever [initialize] launches the engine, the configuration it
    launches it with holds every option of [camoufox_config] with its
    value, also under a key the wrapper sets itself (a pass-through
    [headless] replaces [is_headless]), and holds the wrapper's
    [is_headless], [humanize] and [screen_resolution] where no
    pass-through option has the key. *)
Theorem initialize_config_overrides :
  forall (Machine : Type)
         (step : forall X, Host.call X -> Machine -> result X * Machine)
         (builtin : string -> string -> exn) (cfg : CmfxMore.Settings)
         (s : CmfxMore.Session Machine),
    NoDup (map fst (CmfxMore.camoufox_config cfg)) ->
    exists configs,
      launched_with
        (history (snd (CmfxMore.initialize step builtin cfg s)))
      = (launched_with (history s) ++ configs)%list
      /\ Forall (overrides cfg) configs.
Proof.
  intros Machine step builtin cfg s Hd.
  destruct s as [me w calls].
  assert (Hres : forall resolution,
             CmfxMore.screen_resolution cfg = Some resolution ->
             forall p l,
               overrides cfg (CmfxMore.make_config cfg p resolution l)).
  { intros resolution Hr p l. apply make_config_overrides; trivial.
    intros r' Hr'. congruence. }
  assert (Hnone : CmfxMore.screen_resolution cfg = None ->
                  forall p w' l,
                    overrides cfg (CmfxMore.make_config cfg p w' l)).
  { intros Hr p w' l. apply make_config_overrides; trivial.
    intros r' Hr'. congruence. }
  revert Hres Hnone.
  run_initialize step.
  all: intros Hres Hnone.
  all: rewrite ?launched_with_app; cbn [launched_with];
    rewrite ?app_nil_r, <- ?app_assoc; cbn [app].
  all: try (exists []; rewrite app_nil_r; split;
            [reflexivity|constructor]).
  all: eexists; split; [reflexivity|].
  all: constructor; [|constructor].
  all: first [apply (Hres _ eq_refl)|apply (Hnone eq_refl)].
Qed.

Lemma initialize_config_overrides_witness :
  exists configs,
    launched_with
      (history
         (snd (CmfxMore.initialize (Desk.step Desk.linux) Desk.builtin
                 (CmfxMore.mkSettings true true None
                    [("headless", PyVal.VBool false);
                     ("geoip", PyVal.VBool true)])
                 (Desk.session StaticPage.closed))))
    = configs
    /\ Forall (overrides
                 (CmfxMore.mkSettings true true None
                    [("headless", PyVal.VBool false);
                     ("geoip", PyVal.VBool true)]))
              configs.
Proof.
  assert (Hd : NoDup (map fst [("headless", PyVal.VBool false);
                               ("geoip", PyVal.VBool true)])).
  { cbn. repeat constructor; cbn; intuition discriminate. }
  destruct (initialize_config_overrides _ (Desk.step Desk.linux)
              Desk.builtin
              (CmfxMore.mkSettings true true None
                 [("headless", PyVal.VBool false);
                  ("geoip", PyVal.VBool true)])
              (Desk.session StaticPage.closed) Hd)
    as (configs & Hc & Hf).
  exists configs. split; [exact Hc|exact Hf].
Defined.

Example initialize_passthrough_headless :
  launched_with
    (history
       (snd (CmfxMore.initialize (Desk.step Desk.linux) Desk.builtin
               (CmfxMore.mkSettings true true
                  (Some (PyVal.VTuple [PyVal.VInt 800; PyVal.VInt 600]))
                  [("headless", PyVal.VBool false)])
               (Desk.session StaticPage.closed))))
  = [[("headless", PyVal.VBool false); ("os", PyVal.VStr "linux");
      ("webgl_config",
       PyVal.VTuple [PyVal.VStr "Intel";
                     PyVal.VStr "Intel(R) HD Graphics, or similar"]);
      ("window", PyVal.VTuple [PyVal.VInt 800; PyVal.VInt 600]);
      ("locale", PyVal.VStr "en-US"); ("humanize", PyVal.VBool true)]].
Proof. reflexivity. Qed.

(** ** Typing *)

Lemma keys_typed_app (a b : list Host.event) :
  keys_typed (a ++ b) = keys_typed a ++ keys_typed b.
Proof.
  induction a as [|[X c] a IH]; simpl; [reflexivity|].
  destruct c; simpl; rewrite IH; trivial. now rewrite str_app_assoc.
Qed.

Lemma presses_of_app (key : string) (a b : list Host.event) :
  presses_of key (a ++ b) = (presses_of key a + presses_of key b)%nat.
Proof.
  induction a as [|[X c] a IH]; simpl; [reflexivity|].
  destruct c; simpl; rewrite IH; trivial.
  now destruct (String.eqb key0 key).
Qed.

Lemma multi_clicks_app (a b : list Host.event) :
  multi_clicks (a ++ b) = (multi_clicks a + multi_clicks b)%nat.
Proof.
  induction a as [|[X c] a IH]; simpl; [reflexivity|].
  destruct c; simpl; now rewrite IH.
Qed.

Lemma clicks_of_app (n : Z) (a b : list Host.event) :
  clicks_of n (a ++ b) = (clicks_of n a + clicks_of n b)%nat.
Proof.
  induction a as [|[X c] a IH]; simpl; [reflexivity|].
  destruct c; simpl; rewrite IH; trivial.
  match goal with
  | |- context [(?k =? n)%Z] => now destruct (k =? n)%Z
  end.
Qed.

Lemma clicks_of_le (n : Z) (evs : list Host.event) :
  (clicks_of n evs <= multi_clicks evs)%nat.
Proof.
  induction evs as [|[X c] evs IH]; simpl; [lia|].
  destruct c; simpl; trivial.
  match goal with
  | |- context [(?k =? n)%Z] => destruct (k =? n)%Z; lia
  end.
Qed.

Lemma typing_calls_app (a b : list Host.event) :
  typing_calls (a ++ b) = (typing_calls a ++ typing_calls b)%list.
Proof.
  induction a as [|[X c] a IH]; simpl; [reflexivity|].
  destruct c; simpl; now rewrite IH.
Qed.

Lemma str_app_empty_r (s : string) : s ++ "" = s.
Proof. induction s as [|c s IH]; simpl; [reflexivity|now rewrite IH]. Qed.

Lemma quiet_app (a b : list Host.event) :
  quiet a -> quiet b -> quiet (a ++ b).
Proof.
  intros (A1 & A2 & A3 & A4) (B1 & B2 & B3 & B4).
  split; [|split; [|split]].
  - now rewrite keys_typed_app, A1, B1.
  - intros key. now rewrite presses_of_app, A2, B2.
  - now rewrite multi_clicks_app, A3, B3.
  - now rewrite typing_calls_app, A4, B4.
Qed.

Section Typing.
Import Host.
Variable Machine : Type.
Variable step : forall X, call X -> Machine -> result X * Machine.

Lemma wait_random_adds (a b : Q) (s : CmfxMore.Session Machine) :
  exists new, adds (CmfxMore.wait_random step a b) s new /\ quiet new.
Proof.
  unfold adds, CmfxMore.wait_random, bind. cbv beta. rewrite perform_run.
  destruct (fst (step _ (random_uniform a b) _)) as [delay|e].
  - rewrite core_await_run.
    exists [issued (random_uniform a b);
            issued (playwright (Playwright.asyncio_sleep delay))].
    split; [split|]; [|reflexivity|repeat split].
    unfold history, performed. cbn. now rewrite <- app_assoc.
  - exists [issued (random_uniform a b)].
    split; [split|]; [reflexivity|reflexivity|repeat split].
Qed.

Lemma type_each_cons (l : Playwright.Locator) (a b : Q) (char : ascii)
      (rest : string) (s : CmfxMore.Session Machine) :
  let c := locator_type l (String char "") in
  let s1 := performed s c (snd (step _ c (CmfxMore.machine (Cmfx.engine s))))
  in
  CmfxMore.type_each step l a b (String char rest) s
  = match fst (step _ c (CmfxMore.machine (Cmfx.engine s))) with
    | Err e => (Err e, s1)
    | Ok _ =>
        match CmfxMore.wait_random step a b s1 with
        | (Ok _, s2) => CmfxMore.type_each step l a b rest s2
        | (Err e, s2) => (Err e, s2)
        end
    end.
Proof.
  intros c s1. cbn [CmfxMore.type_each]. unfold bind.
  rewrite perform_run. fold c. fold s1.
  now destruct (fst (step _ c (CmfxMore.machine (Cmfx.engine s)))).
Qed.

Lemma type_each_adds (l : Playwright.Locator) (a b : Q) (content : string) :
  forall s : CmfxMore.Session Machine,
  exists new,
    adds (CmfxMore.type_each step l a b content) s new
    /\ typed_of content (keys_typed new)
    /\ (fst (CmfxMore.type_each step l a b content s) = Ok tt ->
        keys_typed new = content)
    /\ (forall key, presses_of key new = O)
    /\ multi_clicks new = O
    /\ typing_calls new = one_by_one l (keys_typed new).
Proof.
  induction content as [|char rest IH]; intros s.
  - exists []. unfold adds, typed_of. cbn. rewrite app_nil_r.
    repeat split. now exists "".
  - unfold adds. rewrite type_each_cons. cbv zeta.
    set (c := locator_type l (String char "")).
    set (s1 := performed s c _).
    destruct (fst (step _ c _)) as [[]|e].
    + destruct (wait_random_adds a b s1) as (n1 & [H1 S1] & Q1 & Q2 & Q3 & Q4).
      destruct (CmfxMore.wait_random step a b s1) as [[[]|e] s2];
        cbn [fst snd] in *.
      * destruct (IH s2) as (n2 & [H2 S2] & T2 & K2 & P2 & C2 & Y2).
        exists ((issued c :: n1) ++ n2)%list.
        assert (Hk : keys_typed ((issued c :: n1) ++ n2)
                     = String char (keys_typed n2)).
        { rewrite keys_typed_app. cbn. now rewrite Q1. }
        split; [split|].
        -- rewrite H2, H1. unfold s1, history, performed. cbn.
           now rewrite <- !app_assoc.
        -- now rewrite S2, S1.
        -- rewrite Hk. split; [|split; [|split; [|split]]].
           ++ destruct T2 as [tail Htail]. exists tail. cbn.
              now rewrite <- Htail.
           ++ intros Hok. now rewrite (K2 Hok).
           ++ intros key. rewrite presses_of_app. cbn.
              now rewrite Q2, P2.
           ++ rewrite multi_clicks_app. cbn. now rewrite Q3, C2.
           ++ rewrite typing_calls_app. cbn. now rewrite Q4, Y2.
      * exists (issued c :: n1).
        split; [split|].
        -- rewrite H1. unfold s1, history, performed. cbn.
           now rewrite <- app_assoc.
        -- exact S1.
        -- cbn. rewrite Q1, Q4.
           split; [now exists rest|].
           split; [discriminate|]. split; [|split; [exact Q3|reflexivity]].
           intros key. apply Q2.
    + exists [issued c]. split; [split; reflexivity|]. cbn.
      split; [now exists rest|]. repeat split; discriminate.
Qed.

Lemma clear_input_run (input_elem : Playwright.Locator) (timeout : Q)
      (s : CmfxMore.Session Machine) :
  let c := locator_input_value input_elem (timeout * 1000)%Q in
  let s1 := performed s c (snd (step _ c (CmfxMore.machine (Cmfx.engine s))))
  in
  let k := locator_click_count input_elem 3 in
  let s2 :=
    performed s1 k (snd (step _ k (CmfxMore.machine (Cmfx.engine s1)))) in
  CmfxMore.clear_input step input_elem timeout s
  = match fst (step _ c (CmfxMore.machine (Cmfx.engine s))) with
    | Err e => (Err e, s1)
    | Ok current =>
        if Py.truthy current then
          match fst (step _ k (CmfxMore.machine (Cmfx.engine s1))) with
          | Err e => (Err e, s2)
          | Ok _ =>
              match CmfxMore.wait_random step (1 # 10)%Q (2 # 10)%Q s2 with
              | (Ok _, s3) =>
                  CmfxMore.perform step
                    (locator_press input_elem "Backspace") s3
              | (Err e, s3) => (Err e, s3)
              end
          end
        else (Ok tt, s1)
    end.
Proof.
  intros c s1 k s2. unfold CmfxMore.clear_input, bind at 1.
  rewrite perform_run. fold c. fold s1.
  destruct (fst (step _ c (CmfxMore.machine (Cmfx.engine s))))
    as [current|e]; [|reflexivity].
  destruct (Py.truthy current); [|reflexivity].
  unfold bind. rewrite perform_run. fold k. fold s2.
  now destruct (fst (step _ k (CmfxMore.machine (Cmfx.engine s1)))).
Qed.

(** [clear_input] types nothing and never presses Enter; it makes at most
    one multiple click and one press of Backspace, and none when the
    field is empty or cannot be read.  Every click it makes is a triple
    click. *)
Lemma clear_input_adds (input_elem : Playwright.Locator) (timeout : Q)
      (s : CmfxMore.Session Machine) :
  exists new,
    adds (CmfxMore.clear_input step input_elem timeout) s new
    /\ keys_typed new = ""
    /\ presses_of "Enter" new = O
    /\ (presses_of "Backspace" new <= multi_clicks new <= 1)%nat
    /\ (forall current,
           fst (step _ (locator_input_value input_elem (timeout * 1000)%Q)
                     (CmfxMore.machine (Cmfx.engine s)))
           = Ok current ->
           Py.truthy current = false ->
           new = [issued (locator_input_value input_elem
                                              (timeout * 1000)%Q)]
           /\ fst (CmfxMore.clear_input step input_elem timeout s) = Ok tt)
    /\ typing_calls new = []
    /\ clicks_of 3 new = multi_clicks new.
Proof.
  unfold adds. rewrite clear_input_run. cbv zeta.
  set (c := locator_input_value input_elem (timeout * 1000)%Q).
  set (s1 := performed s c _).
  set (k := locator_click_count input_elem 3).
  set (s2 := performed s1 k _).
  destruct (fst (step _ c _)) as [current|e].
  - destruct (Py.truthy current) eqn:Ht.
    + destruct (fst (step _ k _)) as [[]|e].
      * destruct (wait_random_adds (1 # 10)%Q (2 # 10)%Q s2)
          as (n1 & [H1 S1] & Q1 & Q2 & Q3 & Q4).
        pose proof (clicks_of_le 3 n1) as Q5. rewrite Q3 in Q5.
        destruct (CmfxMore.wait_random step (1 # 10)%Q (2 # 10)%Q s2)
          as [[[]|e] s3]; cbn [fst snd] in *.
        -- rewrite perform_run. cbn [fst snd].
           exists ((issued c :: issued k :: n1)
                   ++ [issued (locator_press input_elem "Backspace")])%list.
           split; [split|].
           ++ unfold history, performed in *. cbn in *. rewrite H1.
              now rewrite <- !app_assoc.
           ++ exact S1.
           ++ rewrite keys_typed_app, !presses_of_app, multi_clicks_app,
                typing_calls_app, clicks_of_app.
              cbn. rewrite Q1, !Q2, Q3, Q4. cbn.
              split; [reflexivity|]. split; [reflexivity|].
              split; [lia|].
              split; [intros cur [= <-]; congruence|].
              split; [reflexivity|lia].
        -- exists (issued c :: issued k :: n1).
           split; [split|].
           ++ unfold history, performed in *. cbn in *. rewrite H1.
              now rewrite <- !app_assoc.
           ++ exact S1.
           ++ cbn. rewrite Q1, !Q2, Q3, Q4.
              split; [reflexivity|]. split; [reflexivity|].
              split; [lia|].
              split; [intros cur [= <-]; congruence|].
              split; [reflexivity|lia].
      * exists [issued c; issued k].
        split; [split|].
        -- unfold s2, s1, history, performed. cbn.
           now rewrite <- !app_assoc.
        -- reflexivity.
        -- cbn. split; [reflexivity|]. split; [reflexivity|].
           split; [lia|].
           split; [intros cur [= <-]; congruence|].
           split; reflexivity.
    + exists [issued c]. split; [split; reflexivity|]. cbn.
      split; [reflexivity|]. split; [reflexivity|].
      split; [lia|].
      split; [intros cur _ _; now split|]. split; reflexivity.
  - exists [issued c]. split; [split; reflexivity|]. cbn.
    split; [reflexivity|]. split; [reflexivity|].
    split; [lia|]. split; [discriminate|]. split; reflexivity.
Qed.

Lemma self_page_locator_cases (locator : BSLocator)
      (s : CmfxMore.Session Machine) :
  (exists e, Cmfx.self_page_locator locator s = (Err e, s))
  \/ (exists pg selector,
         Cmfx.page (Cmfx.self s) = Some pg
         /\ Cmfx.get_pw_locator locator = Ok selector
         /\ Cmfx.self_page_locator locator s
            = (Ok (Playwright.Page_locator pg selector), s)).
Proof.
  destruct (Cmfx.page (Cmfx.self s)) as [pg|] eqn:Hpg.
  - rewrite (self_page_locator_run _ _ _ _ Hpg).
    destruct (Cmfx.get_pw_locator locator) as [selector|e].
    + right. now exists pg, selector.
    + left. now exists e.
  - left. rewrite (self_page_locator_closed _ _ _ Hpg). now eexists.
Qed.

Lemma human_send_keys_run (locator : BSLocator) (content : string)
      (timeout : Q) (s : CmfxMore.Session Machine)
      (l : Playwright.Locator) :
  Cmfx.self_page_locator locator s = (Ok l, s) ->
  let c := locator_focus l in
  let s1 := performed s c (snd (step _ c (CmfxMore.machine (Cmfx.engine s))))
  in
  CmfxMore.human_send_keys step locator content timeout s
  = match fst (step _ c (CmfxMore.machine (Cmfx.engine s))) with
    | Err e => (Err e, s1)
    | Ok _ =>
        match CmfxMore.clear_input step l timeout s1 with
        | (Ok _, s2) =>
            CmfxMore.type_each step l (187 # 10000)%Q (123 # 1000)%Q
                               content s2
        | (Err e, s2) => (Err e, s2)
        end
    end.
Proof.
  intros Hl c s1. unfold CmfxMore.human_send_keys. cbv zeta.
  unfold bind at 1. rewrite Hl. unfold bind at 1. rewrite perform_run.
  fold c. fold s1.
  destruct (fst (step _ c (CmfxMore.machine (Cmfx.engine s))));
    reflexivity.
Qed.

Lemma human_send_keys_stopped (locator : BSLocator) (content : string)
      (timeout : Q) (s : CmfxMore.Session Machine) (e : exn) :
  Cmfx.self_page_locator locator s = (Err e, s) ->
  CmfxMore.human_send_keys step locator content timeout s = (Err e, s).
Proof.
  intros He. unfold CmfxMore.human_send_keys. cbv zeta.
  unfold bind at 1. now rewrite He.
Qed.

Lemma human_send_keys_adds (locator : BSLocator) (content : string)
      (timeout : Q) (s : CmfxMore.Session Machine) :
  exists new,
    adds (CmfxMore.human_send_keys step locator content timeout) s new
    /\ typed_of content (keys_typed new)
    /\ (fst (CmfxMore.human_send_keys step locator content timeout s)
        = Ok tt ->
        keys_typed new = content)
    /\ presses_of "Enter" new = O
    /\ (presses_of "Backspace" new <= multi_clicks new <= 1)%nat
    /\ clicks_of 3 new = multi_clicks new
    /\ exists l,
        typing_calls new = one_by_one l (keys_typed new)
        /\ (keys_typed new <> "" ->
            Cmfx.self_page_locator locator s = (Ok l, s)).
Proof.
  unfold adds.
  destruct (self_page_locator_cases locator s)
    as [[e He]|(pg & selector & _ & _ & Hl)].
  - rewrite (human_send_keys_stopped _ _ _ _ _ He).
    exists []. cbn. rewrite app_nil_r.
    split; [now split|]. split; [now exists content|].
    split; [discriminate|]. split; [reflexivity|]. split; [lia|].
    split; [reflexivity|].
    exists (Playwright.Page_locator 0%nat ""). now split.
  - rewrite (human_send_keys_run _ _ _ _ _ Hl). cbv zeta.
    set (l := Playwright.Page_locator pg selector) in *.
    set (c := locator_focus l).
    set (s1 := performed s c _).
    destruct (fst (step _ c _)) as [[]|e].
    + destruct (clear_input_adds l timeout s1)
        as (n1 & [H1 S1] & K1 & E1 & B1 & _ & Y1 & C1).
      destruct (CmfxMore.clear_input step l timeout s1) as [[[]|e] s2];
        cbn [fst snd] in *.
      * destruct (type_each_adds l (187 # 10000)%Q (123 # 1000)%Q
                                 content s2)
          as (n2 & [H2 S2] & T2 & K2 & P2 & C2 & Y2).
        pose proof (clicks_of_le 3 n2) as C3. rewrite C2 in C3.
        exists ((issued c :: n1) ++ n2)%list.
        split; [split|].
        -- rewrite H2, H1. unfold s1, history, performed. cbn.
           now rewrite <- !app_assoc.
        -- now rewrite S2, S1.
        -- rewrite keys_typed_app, !presses_of_app, multi_clicks_app,
             clicks_of_app, typing_calls_app.
           cbn. rewrite K1, E1, !P2, C2, Y1. cbn.
           split; [exact T2|]. split; [exact K2|].
           split; [reflexivity|]. split; [lia|]. split; [lia|].
           exists l. now split.
      * exists (issued c :: n1).
        split; [split|].
        -- rewrite H1. unfold s1, history, performed. cbn.
           now rewrite <- !app_assoc.
        -- exact S1.
        -- cbn. rewrite K1, E1, Y1.
           split; [now exists content|]. split; [discriminate|].
           split; [reflexivity|]. split; [lia|]. split; [exact C1|].
           exists l. now split.
    + exists [issued c]. split; [split; reflexivity|]. cbn.
      split; [now exists content|]. split; [discriminate|].
      split; [reflexivity|]. split; [lia|]. split; [reflexivity|].
      exists l. now split.
Qed.

End Typing.

(** X10.  [human_send_keys] types the content character by character, in
    order, into the field of the locator: in every run each typing call
    types one character, all calls are made on the one Playwright locator
    the method built from [locator], and the characters typed so far are a
    prefix of [content], the whole of it when the method returns.  The
    method never presses Enter, and it keeps the wrapper's attributes. *)
Theorem human_send_keys_types_content :
  forall (Machine : Type)
         (step : forall X, Host.call X -> Machine -> result X * Machine)
         (locator : BSLocator) (content : string) (timeout : Q)
         (s : CmfxMore.Session Machine),
  exists new,
    history (snd (CmfxMore.human_send_keys step locator content timeout s))
    = (history s ++ new)%list
    /\ Cmfx.self (snd (CmfxMore.human_send_keys step locator content
                                                 timeout s))
       = Cmfx.self s
    /\ typed_of content (keys_typed new)
    /\ (fst (CmfxMore.human_send_keys step locator content timeout s)
        = Ok tt ->
        keys_typed new = content)
    /\ (exists input_element,
           typing_calls new = one_by_one input_element (keys_typed new)
           /\ (keys_typed new <> "" ->
               Cmfx.self_page_locator locator s = (Ok input_element, s)))
    /\ presses_of "Enter" new = O.
Proof.
  intros Machine step locator content timeout s.
  destruct (human_send_keys_adds _ step locator content timeout s)
    as (new & [H S] & T & K & E & _ & _ & Y).
  exists new. repeat split; trivial.
Qed.

Example human_send_keys_example :
  let r := CmfxMore.human_send_keys (Desk.step Desk.filled)
             (Locator.css "input") "abc" 10%Q
             (Desk.session StaticPage.active) in
  fst r = Ok tt /\ keys_typed (history (snd r)) = "abc"
  /\ multi_clicks (history (snd r)) = 1%nat
  /\ presses_of "Backspace" (history (snd r)) = 1%nat.
Proof. repeat split. Qed.

(** X11.  [clear_input] empties a field only when it holds something:
    when the field's value is the empty string the method returns after
    the one call that reads the value; in every run it types nothing,
    every click it makes is a triple click ([click_count] 3), it makes at
    most one, and it presses Backspace at most once and not without the
    click; when the value is not empty and the method returns, the calls
    made are the reading, one triple click, a pause, and one press of
    Backspace, in this order. *)
Theorem clear_input_spec :
  forall (Machine : Type)
         (step : forall X, Host.call X -> Machine -> result X * Machine)
         (input_elem : Playwright.Locator) (timeout : Q)
         (s : CmfxMore.Session Machine),
    let read := Host.locator_input_value input_elem (timeout * 1000)%Q in
    let r := CmfxMore.clear_input step input_elem timeout s in
    exists new,
      history (snd r) = (history s ++ new)%list
      /\ keys_typed new = "" /\ typing_calls new = []
      /\ clicks_of 3 new = multi_clicks new
      /\ (presses_of "Backspace" new <= clicks_of 3 new <= 1)%nat
      /\ (forall current,
             fst (step _ read (CmfxMore.machine (Cmfx.engine s)))
             = Ok current ->
             (Py.truthy current = false ->
              new = [Host.issued read] /\ fst r = Ok tt)
             /\ (Py.truthy current = true -> fst r = Ok tt ->
                 clicks_of 3 new = 1%nat
                 /\ presses_of "Backspace" new = 1%nat
                 /\ exists pause,
                     quiet pause
                     /\ new
                        = (Host.issued read
                           :: Host.issued
                                (Host.locator_click_count input_elem 3)
                           :: pause
                           ++ [Host.issued
                                 (Host.locator_press input_elem
                                                     "Backspace")])%list)).
Proof.
  intros Machine step input_elem timeout s read r.
  destruct (clear_input_adds _ step input_elem timeout s)
    as (new & [H S] & K & E & B & Hempty & Y & C).
  exists new. split; [exact H|]. split; [exact K|]. split; [exact Y|].
  split; [exact C|]. split; [rewrite C; exact B|].
  intros current Hc. split; [now apply Hempty|].
  intros Ht Hok. subst r. revert H Hok.
  rewrite clear_input_run. cbv zeta. fold read. rewrite Hc, Ht.
  set (s1 := performed s read _).
  set (k := Host.locator_click_count input_elem 3).
  set (s2 := performed s1 k _).
  destruct (fst (step _ k _)) as [[]|e]; [|discriminate].
  destruct (wait_random_adds _ step (1 # 10)%Q (2 # 10)%Q s2)
    as (n1 & [H1 S1] & Q).
  destruct (CmfxMore.wait_random step (1 # 10)%Q (2 # 10)%Q s2)
    as [[[]|e] s3]; cbn [fst snd] in *; [|discriminate].
  rewrite perform_run. cbn [fst snd]. intros H _.
  unfold history, performed in H, H1. cbn in H, H1.
  rewrite H1, <- !app_assoc in H. apply app_inv_head in H. subst new.
  pose proof Q as (Q1 & Q2 & Q3 & Q4).
  pose proof (clicks_of_le 3 n1) as Q5. rewrite Q3 in Q5.
  cbn. rewrite presses_of_app, clicks_of_app, Q2. cbn.
  split; [lia|]. split; [reflexivity|].
  exists n1. now split.
Qed.

Lemma clear_input_spec_witness :
  let r := CmfxMore.clear_input (Desk.step Desk.filled)
             (Playwright.Page_locator 3%nat "input") 10%Q
             (Desk.session StaticPage.active) in
  clicks_of 3 (history (snd r)) = 1%nat
  /\ presses_of "Backspace" (history (snd r)) = 1%nat.
Proof.
  cbv zeta.
  destruct (clear_input_spec _ (Desk.step Desk.filled)
              (Playwright.Page_locator 3%nat "input") 10%Q
              (Desk.session StaticPage.active))
    as (new & H & _ & _ & _ & _ & Hc).
  cbv zeta in H, Hc. rewrite H.
  destruct (Hc "old text" eq_refl) as [_ Hfull].
  destruct (Hfull eq_refl eq_refl) as (Hclick & Hpress & _).
  split; [exact Hclick|exact Hpress].
Defined.

(** X12.  [human_send_keys_and_press_enter] presses Enter at most once,
    as its last call and only after the whole content has been typed:
    in every run what has been typed is a prefix of [content]; if Enter
    was pressed, all of [content] had been typed before; and when the
    method returns, Enter was pressed, last of all calls. *)
Theorem press_enter_after_content :
  forall (Machine : Type)
         (step : forall X, Host.call X -> Machine -> result X * Machine)
         (locator : BSLocator) (content : string) (timeout : Q)
         (s : CmfxMore.Session Machine),
    let r := CmfxMore.human_send_keys_and_press_enter
               step locator content timeout s in
    exists new,
      history (snd r) = (history s ++ new)%list
      /\ typed_of content (keys_typed new)
      /\ (presses_of "Enter" new <= 1)%nat
      /\ (presses_of "Enter" new = 1%nat ->
          keys_typed new = content
          /\ exists before l,
              new = (before ++ [Host.issued (Host.locator_press l "Enter")])
                      %list)
      /\ (fst r = Ok tt -> presses_of "Enter" new = 1%nat).
Proof.
  intros Machine step locator content timeout s r. subst r.
  unfold CmfxMore.human_send_keys_and_press_enter, bind. cbv beta.
  destruct (human_send_keys_adds _ step locator content timeout s)
    as (n1 & [H1 S1] & T1 & K1 & E1 & _).
  destruct (CmfxMore.human_send_keys step locator content timeout s)
    as [[[]|e] s1]; cbn [fst snd] in *.
  2: { exists n1. split; [exact H1|]. split; [exact T1|].
       rewrite E1. split; [lia|]. split; discriminate. }
  specialize (K1 eq_refl).
  unfold Cmfx.wait_static. rewrite core_await_run.
  set (sleep := Host.playwright (Playwright.asyncio_sleep (75 # 1000)%Q)).
  set (s2 := Cmfx.mkSession _ _ _).
  assert (H2 : history s2 = (history s ++ n1 ++ [Host.issued sleep])%list).
  { unfold s2, history. cbn. fold (history s1). rewrite H1.
    now rewrite <- app_assoc. }
  assert (Q : keys_typed (n1 ++ [Host.issued sleep]) = content
              /\ presses_of "Enter" (n1 ++ [Host.issued sleep]) = O).
  { rewrite keys_typed_app, presses_of_app, K1, E1. cbn.
    now rewrite str_app_empty_r. }
  destruct Q as [Qk Qe].
  destruct (fst (step _ sleep _)) as [[]|e].
  2: { exists (n1 ++ [Host.issued sleep])%list.
       split; [exact H2|]. rewrite Qk, Qe.
       split; [now exists ""; rewrite str_app_empty_r|].
       split; [lia|]. split; discriminate. }
  destruct (self_page_locator_cases _ locator s2)
    as [[e He]|(pg & selector & _ & _ & Hl)].
  - rewrite He. exists (n1 ++ [Host.issued sleep])%list.
    split; [exact H2|]. rewrite Qk, Qe.
    split; [now exists ""; rewrite str_app_empty_r|].
    split; [lia|]. split; discriminate.
  - rewrite Hl, perform_run. cbn [fst snd].
    set (l := Playwright.Page_locator pg selector).
    exists ((n1 ++ [Host.issued sleep])
            ++ [Host.issued (Host.locator_press l "Enter")])%list.
    split.
    { change (history (performed s2 (Host.locator_press l "Enter")
                         (snd (step _ (Host.locator_press l "Enter")
                                    (CmfxMore.machine (Cmfx.engine s2)))))
              = (history s
                 ++ (n1 ++ [Host.issued sleep])
                 ++ [Host.issued (Host.locator_press l "Enter")])%list).
      change (history (performed s2 (Host.locator_press l "Enter")
                         (snd (step _ (Host.locator_press l "Enter")
                                    (CmfxMore.machine (Cmfx.engine s2))))))
        with (history s2 ++ [Host.issued (Host.locator_press l "Enter")])
               %list.
      rewrite H2. now rewrite <- !app_assoc. }
    rewrite keys_typed_app, presses_of_app, Qk, Qe. cbn.
    rewrite str_app_empty_r.
    split; [now exists ""; rewrite str_app_empty_r|].
    split; [lia|]. split; [|reflexivity].
    intros _. split; [reflexivity|]. now eexists _, l.
Qed.

Lemma press_enter_after_content_witness :
  let r := CmfxMore.human_send_keys_and_press_enter
             (Desk.step Desk.linux) (Locator.css "input") "ok" 10%Q
             (Desk.session StaticPage.active) in
  fst r = Ok tt
  /\ keys_typed (history (snd r)) = "ok"
  /\ presses_of "Enter" (history (snd r)) = 1%nat.
Proof.
  cbv zeta.
  destruct (press_enter_after_content _ (Desk.step Desk.linux)
              (Locator.css "input") "ok" 10%Q
              (Desk.session StaticPage.active))
    as (new & H & _ & _ & Hkeys & Hok).
  cbv zeta in H, Hkeys, Hok.
  split; [reflexivity|].
  rewrite H. change (history (Desk.session StaticPage.active)) with
    (@nil Host.event). cbn [app].
  pose proof (Hok eq_refl) as He.
  split; [exact (proj1 (Hkeys He))|exact He].
Defined.

(** ** The Selenium wrapper, continued *)

Lemma keys_sent_app (a b : list Browser.event) :
  keys_sent (a ++ b) = keys_sent a ++ keys_sent b.
Proof.
  induction a as [|[X c] a IH]; simpl; [reflexivity|].
  destruct c; simpl; rewrite IH; trivial. now rewrite str_app_assoc.
Qed.

Lemma key_targets_app (a b : list Browser.event) :
  key_targets (a ++ b) = (key_targets a ++ key_targets b)%list.
Proof.
  induction a as [|[X c] a IH]; simpl; [reflexivity|].
  destruct c; simpl; now rewrite IH.
Qed.

Lemma sends_app (a b : list Browser.event) :
  sends (a ++ b) = (sends a ++ sends b)%list.
Proof.
  induction a as [|[X c] a IH]; simpl; [reflexivity|].
  destruct c; simpl; now rewrite IH.
Qed.

Lemma lookups_in_app (a b : list Browser.event) :
  lookups_in (a ++ b) = (lookups_in a + lookups_in b)%nat.
Proof.
  induction a as [|[X c] a IH]; simpl; [reflexivity|].
  destruct c; simpl; try now rewrite IH.
  match goal with
  | c : Selenium.call _ |- _ => destruct c; simpl; now rewrite IH
  end.
Qed.

(** Runs a method of the wrapper call by call. *)
Ltac run_calls step :=
  unfold WebDriverMore.human_type, WebDriverMore.get_class,
    WebDriverMore.get_value, WebDriverMore.wait_random,
    WebDriver.wait_element_to_be_clickable,
    WebDriver.wait_element_to_be_present, WebDriver.find_element,
    WebDriver.find_element_at, WebDriver.invoke, WebDriverMore.core_step,
    WebDriverMore.perform, try_except, bind, ret, raise, record;
  cbn -[WebDriverMore.send_each Py.strip isinstance];
  repeat (match goal with
          | |- context [step ?X ?c ?m] =>
              destruct (step X c m) as [[?|?] ?]
          | |- context [if isinstance ?e ?c then _ else _] =>
              destruct (isinstance e c)
          | |- context [match ?a with Some _ => _ | None => _ end] =>
              is_var a; destruct a
          end;
          cbn -[WebDriverMore.send_each Py.strip isinstance]).

Section SeleniumTyping.
Import Browser.
Variable Machine : Type.
Variable step : forall X, call X -> Machine -> result X * Machine.

Lemma sel_wait_random_adds (a b : Q) (s : WebDriverMore.Session Machine) :
  exists new,
    record (snd (WebDriverMore.wait_random step a b s))
    = (record s ++ new)%list
    /\ keys_sent new = "" /\ key_targets new = [] /\ lookups_in new = O
    /\ sends new = [].
Proof.
  destruct s as [[m lg] calls]. run_calls step.
  all: rewrite <- ?app_assoc; eexists; split; [reflexivity|];
    repeat split.
Qed.

Lemma send_each_adds (elem : Selenium.WebElement) (content : string) :
  forall s : WebDriverMore.Session Machine,
  exists new,
    record (snd (WebDriverMore.send_each step elem content s))
    = (record s ++ new)%list
    /\ typed_of content (keys_sent new)
    /\ (fst (WebDriverMore.send_each step elem content s) = Ok tt ->
        keys_sent new = content)
    /\ Forall (eq elem) (key_targets new)
    /\ lookups_in new = O
    /\ sends new = one_by_one elem (keys_sent new).
Proof.
  induction content as [|char rest IH]; intros s.
  - exists []. cbn. rewrite app_nil_r. repeat split; trivial.
    now exists "".
  - cbn [WebDriverMore.send_each]. unfold bind.
    set (c := element_send_keys elem (String char "")).
    unfold WebDriverMore.perform at 1 2.
    destruct (step _ c (WebDriverMore.machine (WebDriver.driver s)))
      as [[[]|e] m1].
    + set (s1 := WebDriver.mkSession _ _).
      destruct (sel_wait_random_adds
                  WebDriverMore.min_human_typing_wait
                  WebDriverMore.max_human_typing_wait s1)
        as (n1 & H1 & K1 & T1 & L1 & Y1).
      destruct (WebDriverMore.wait_random step _ _ s1) as [[[]|e] s2];
        cbn [fst snd] in *.
      * destruct (IH s2) as (n2 & H2 & P2 & K2 & F2 & L2 & Y2).
        exists ((issued c :: n1) ++ n2)%list.
        split.
        { rewrite H2, H1. unfold s1, record. cbn.
          now rewrite <- !app_assoc. }
        rewrite keys_sent_app, key_targets_app, lookups_in_app, sends_app.
        cbn. rewrite K1, T1, L1, L2, Y1, Y2. cbn.
        split; [|split; [|split; [|split; reflexivity]]].
        -- destruct P2 as [tail Htail]. exists tail. cbn.
           now rewrite <- Htail.
        -- intros Hok. now rewrite (K2 Hok).
        -- now constructor.
      * exists (issued c :: n1).
        split.
        { rewrite H1. unfold s1, record. cbn. now rewrite <- !app_assoc. }
        cbn. rewrite K1, T1, L1, Y1.
        split; [now exists rest|]. split; [discriminate|].
        split; [now repeat constructor|split; reflexivity].
    + exists [issued c]. split; [reflexivity|]. cbn.
      split; [now exists rest|]. split; [discriminate|].
      split; [now repeat constructor|split; reflexivity].
Qed.

Lemma sel_wait_clickable_adds (locator : BSLocator)
      (s : WebDriverMore.Session Machine) :
  exists new,
    record (snd (WebDriver.wait_element_to_be_clickable
                   (WebDriverMore.core_step step) locator 10%Q true s))
    = (record s ++ new)%list
    /\ keys_sent new = "" /\ key_targets new = [] /\ lookups_in new = O
    /\ sends new = [].
Proof.
  destruct s as [[m lg] calls]. run_calls step.
  all: rewrite <- ?app_assoc; eexists; split; [reflexivity|];
    repeat split.
Qed.

Lemma sel_find_element_adds (locator : BSLocator)
      (s : WebDriverMore.Session Machine) :
  exists new,
    record (snd (WebDriver.find_element (WebDriverMore.core_step step)
                                        locator false s))
    = (record s ++ new)%list
    /\ keys_sent new = "" /\ key_targets new = []
    /\ (lookups_in new <= 1)%nat
    /\ sends new = [].
Proof.
  destruct s as [[m lg] calls]. run_calls step.
  all: rewrite <- ?app_assoc; eexists; split; [reflexivity|];
    cbn; repeat split; lia.
Qed.

(** Before the loop, [human_type] waits, looks the element up once and
    pauses; it then either has stopped on an exception or enters the loop
    with the element found. *)
Lemma human_type_split (locator : BSLocator) (content : string)
      (s : WebDriverMore.Session Machine) :
  exists pre,
    keys_sent pre = "" /\ key_targets pre = []
    /\ (lookups_in pre <= 1)%nat
    /\ sends pre = []
    /\ ((exists e s',
           WebDriverMore.human_type step locator content s = (Err e, s')
           /\ record s' = (record s ++ pre)%list)
        \/ (exists elem s1 s2 s3,
               WebDriver.wait_element_to_be_clickable
                 (WebDriverMore.core_step step) locator 10%Q true s
               = (Ok tt, s1)
               /\ WebDriver.find_element (WebDriverMore.core_step step)
                                         locator false s1
                  = (Ok elem, s2)
               /\ WebDriverMore.human_type step locator content s
                  = WebDriverMore.send_each step elem content s3
               /\ record s3 = (record s ++ pre)%list)).
Proof.
  unfold WebDriverMore.human_type, bind.
  destruct (sel_wait_clickable_adds locator s)
    as (n1 & H1 & K1 & T1 & L1 & Y1).
  destruct (WebDriver.wait_element_to_be_clickable
              (WebDriverMore.core_step step) locator 10%Q true s)
    as [[[]|e] s1]; cbn [fst snd] in H1.
  2: { exists n1. repeat split; trivial; [lia|].
       left. now exists e, s1. }
  destruct (sel_find_element_adds locator s1)
    as (n2 & H2 & K2 & T2 & L2 & Y2).
  destruct (WebDriver.find_element (WebDriverMore.core_step step)
                                   locator false s1)
    as [[elem|e] s2] eqn:Hf; cbn [fst snd] in H2.
  2: { exists (n1 ++ n2)%list.
       rewrite keys_sent_app, key_targets_app, lookups_in_app, sends_app,
         K1, K2, T1, T2, L1, Y1, Y2.
       repeat split; trivial.
       left. exists e, s2. split; [reflexivity|].
       now rewrite H2, H1, app_assoc. }
  destruct (sel_wait_random_adds WebDriverMore.min_human_typing_wait
                                 WebDriverMore.max_human_typing_wait s2)
    as (n3 & H3 & K3 & T3 & L3 & Y3).
  destruct (WebDriverMore.wait_random step
              WebDriverMore.min_human_typing_wait
              WebDriverMore.max_human_typing_wait s2)
    as [[[]|e] s3]; cbn [fst snd] in H3.
  all: exists (n1 ++ n2 ++ n3)%list.
  all: rewrite !keys_sent_app, !key_targets_app, !lookups_in_app,
         !sends_app, K1, K2, K3, T1, T2, T3, L1, L3, Y1, Y2, Y3.
  all: split; [reflexivity|]; split; [reflexivity|]; split; [cbn; lia|];
    split; [reflexivity|].
  - right. exists elem, s1, s2, s3.
    split; [reflexivity|]. split; [exact Hf|]. split; [reflexivity|].
    now rewrite H3, H2, H1, !app_assoc.
  - left. exists e, s3. split; [reflexivity|].
    now rewrite H3, H2, H1, !app_assoc.
Qed.

Lemma human_type_adds (locator : BSLocator) (content : string)
      (s : WebDriverMore.Session Machine) :
  exists new,
    record (snd (WebDriverMore.human_type step locator content s))
    = (record s ++ new)%list
    /\ typed_of content (keys_sent new)
    /\ (fst (WebDriverMore.human_type step locator content s) = Ok tt ->
        keys_sent new = content)
    /\ (exists elem,
           Forall (eq elem) (key_targets new)
           /\ sends new = one_by_one elem (keys_sent new)
           /\ (keys_sent new <> "" ->
               exists s1 s2,
                 WebDriver.wait_element_to_be_clickable
                   (WebDriverMore.core_step step) locator 10%Q true s
                 = (Ok tt, s1)
                 /\ WebDriver.find_element (WebDriverMore.core_step step)
                                           locator false s1
                    = (Ok elem, s2)))
    /\ (lookups_in new <= 1)%nat.
Proof.
  destruct (human_type_split locator content s)
    as (pre & K & T & L & Y
        & [(e & s' & -> & Hr)|(elem & s1 & s2 & s3 & Hw & Hf & -> & Hr)]).
  - exists pre. cbn [fst snd]. rewrite K, T, Y.
    split; [exact Hr|]. split; [now exists content|].
    split; [discriminate|]. split; [|exact L].
    exists 0%nat. split; [constructor|]. now split.
  - destruct (send_each_adds elem content s3)
      as (n2 & H2 & P2 & K2 & F2 & L2 & Y2).
    exists (pre ++ n2)%list.
    rewrite keys_sent_app, key_targets_app, lookups_in_app, sends_app,
      K, T, L2, Y.
    cbn [app String.append].
    split; [now rewrite H2, Hr, app_assoc|].
    split; [exact P2|]. split; [exact K2|].
    split; [|lia].
    exists elem. split; [exact F2|]. split; [exact Y2|].
    intros _. now exists s1, s2.
Qed.

End SeleniumTyping.

(** X13.  [human_type] sends the content key by key, in order, to the
    element it looked up: in every run each [send_keys] call sends one
    character, the characters sent so far are a prefix of [content], the
    whole of it when the method returns, and every call is made on the
    element that [find_element] returned after the wait.  The element is
    looked up at most once. *)
Theorem human_type_sends_content :
  forall (Machine : Type)
         (step : forall X, Browser.call X -> Machine -> result X * Machine)
         (locator : BSLocator) (content : string)
         (s : WebDriverMore.Session Machine),
  exists new,
    record (snd (WebDriverMore.human_type step locator content s))
    = (record s ++ new)%list
    /\ typed_of content (keys_sent new)
    /\ (fst (WebDriverMore.human_type step locator content s) = Ok tt ->
        keys_sent new = content)
    /\ (exists elem,
           sends new = one_by_one elem (keys_sent new)
           /\ (keys_sent new <> "" ->
               exists s1 s2,
                 WebDriver.wait_element_to_be_clickable
                   (WebDriverMore.core_step step) locator 10%Q true s
                 = (Ok tt, s1)
                 /\ WebDriver.find_element (WebDriverMore.core_step step)
                                           locator false s1
                    = (Ok elem, s2)))
    /\ (lookups_in new <= 1)%nat.
Proof.
  intros Machine step locator content s.
  destruct (human_type_adds _ step locator content s)
    as (new & H & P & K & (elem & _ & Y & F) & L).
  exists new. split; [exact H|]. split; [exact P|]. split; [exact K|].
  split; [|exact L]. exists elem. now split.
Qed.

Example human_type_example :
  let r := WebDriverMore.human_type
             (Kiosk.step ScriptedDriver.ready []) (Locator.name "q")
             "hi" Kiosk.session in
  fst r = Ok tt /\ keys_sent (record (snd r)) = "hi"
  /\ key_targets (record (snd r)) = [0%nat; 0%nat]
  /\ lookups_in (record (snd r)) = 1%nat.
Proof. repeat split. Qed.

(** X14.  [get_class] and [get_value] return the attribute without
    surrounding white space: whatever they return is a fixed point of
    [strip].  When the element is found but does not have the attribute,
    they raise [AttributeError] (the attribute is [None], which has no
    [strip]) instead of returning a string. *)
Theorem stripped_attribute_getters :
  forall (Machine : Type)
         (step : forall X, Browser.call X -> Machine -> result X * Machine)
         (locator : BSLocator) (s : WebDriverMore.Session Machine),
    (forall v,
        fst (WebDriverMore.get_class step locator s) = Ok v
        \/ fst (WebDriverMore.get_value step locator s) = Ok v ->
        Py.strip v = v)
    /\ (let wait :=
          Browser.selenium
            (Selenium.WebDriverWait_until 10%Q
               (Selenium.presence_of_element_located
                  (Locator.as_tuple locator))) in
        let look :=
          Browser.selenium
            (Selenium.driver_find_element (By_str (by_ locator))
                                          (value locator)) in
        let m0 := WebDriverMore.machine (WebDriver.driver s) in
        let m1 := snd (step _ wait m0) in
        let m2 := snd (step _ look m1) in
        fst (step _ wait m0) = Ok tt ->
        forall e,
          fst (step _ look m1) = Ok e ->
          (forall a,
              fst (step _ (Browser.element_get_attribute e "class") m2)
              = Ok a ->
              fst (WebDriverMore.get_class step locator s)
              = match a with
                | Some v => Ok (Py.strip v)
                | None => Err WebDriverMore.none_has_no_strip
                end)
          /\ (forall a,
                 fst (step _ (Browser.element_get_attribute e "value") m2)
                 = Ok a ->
                 fst (WebDriverMore.get_value step locator s)
                 = match a with
                   | Some v => Ok (Py.strip v)
                   | None => Err WebDriverMore.none_has_no_strip
                   end)).
Proof.
  intros Machine step locator s. destruct s as [[m lg] calls]. split.
  - intros v [H|H]; revert H; run_calls step;
      intros H; try discriminate;
      injection H as <-; apply strip_idem.
  - cbv zeta. cbn [WebDriver.driver WebDriverMore.machine].
    intros Hw e Hl.
    split; intros a Ha; revert Hw Hl Ha;
      unfold WebDriverMore.get_class, WebDriverMore.get_value,
        WebDriver.wait_element_to_be_present, WebDriver.find_element,
        WebDriver.find_element_at, WebDriver.invoke,
        WebDriverMore.core_step, WebDriverMore.perform, try_except,
        bind, ret, raise;
      cbn -[Py.strip isinstance];
      repeat (match goal with
              | |- context [step ?X ?c ?m] =>
                  destruct (step X c m) as [? ?]; cbn [fst snd]
              end;
              let H := fresh in intros H; rewrite H;
              cbn -[Py.strip isinstance] in *);
      now destruct a.
Qed.

Lemma stripped_attribute_getters_witness :
  fst (WebDriverMore.get_class
         (Kiosk.step ScriptedDriver.ready [("class", "  btn primary ")])
         (Locator.id "go") Kiosk.session)
  = Ok "btn primary"
  /\ fst (WebDriverMore.get_value
            (Kiosk.step ScriptedDriver.ready [("class", "  btn primary ")])
            (Locator.id "go") Kiosk.session)
     = Err WebDriverMore.none_has_no_strip.
Proof.
  destruct (proj2 (stripped_attribute_getters _
                     (Kiosk.step ScriptedDriver.ready
                                 [("class", "  btn primary ")])
                     (Locator.id "go") Kiosk.session)
                  eq_refl 0%nat eq_refl)
    as [Hclass Hvalue].
  split.
  - exact (Hclass (Some "  btn primary ") eq_refl).
  - exact (Hvalue None eq_refl).
Defined.

(** ** The context manager *)

(** X15.  Entering and leaving the wrapper as a context manager is a
    round trip: when [__aenter__] returns on a wrapper without engine
    objects, it returns the wrapper itself, now holding an instance, a
    browser and a page, after exactly one launch; and [quit], which is
    what [__aexit__] runs, when the release returns, releases the
    instance the wrapper holds with one call and leaves the wrapper
    without engine objects again. *)
Theorem context_manager_round_trip :
  forall (Machine : Type)
         (step : forall X, Host.call X -> Machine -> result X * Machine)
         (builtin : string -> string -> exn) (cfg : CmfxMore.Settings)
         (s : CmfxMore.Session Machine) (me : Cmfx.BSCmfx),
    Cmfx.self s = Cmfx.mkBSCmfx None None None ->
    let r := CmfxMore.__aenter__ step builtin cfg s in
    fst r = Ok me ->
    me = Cmfx.self (snd r)
    /\ launches (history (snd r)) = (launches (history s) + 1)%nat
    /\ exists instance browser page,
        me = Cmfx.mkBSCmfx (Some instance) (Some browser) (Some page)
        /\ (fst (step _ (Host.playwright
                           (Playwright.camoufox_aexit instance))
                      (CmfxMore.machine (Cmfx.engine (snd r))))
            = Ok tt ->
            let q := CmfxMore.quit step (snd r) in
            fst q = Ok tt
            /\ Cmfx.self (snd q) = Cmfx.mkBSCmfx None None None
            /\ history (snd q)
               = (history (snd r)
                  ++ [Host.issued
                        (Host.playwright
                           (Playwright.camoufox_aexit instance))])%list).
Proof.
  intros Machine step builtin cfg s me Hs r. subst r.
  destruct s as [me0 w calls]. cbn [Cmfx.self] in Hs. subst me0.
  unfold CmfxMore.__aenter__.
  run_initialize step.
  all: intros Hok; try discriminate; injection Hok as <-.
  all: split; [reflexivity|].
  all: split; [rewrite ?launches_app; cbn [launches]; lia|].
  all: do 3 eexists; split; [reflexivity|].
  all: intros Hrel; unfold CmfxMore.quit.
  all: match goal with
       | |- context [Cmfx.quit _ ?s1] =>
           rewrite (quit_run _ (CmfxMore.core_step step) s1 _ eq_refl)
       end.
  all: cbv zeta; rewrite core_step_fst.
  all: cbn [Cmfx.engine CmfxMore.machine] in *; rewrite Hrel.
  all: unfold CmfxMore.core_step; cbn.
  all: let st := constr:(step) in
       match goal with
       | |- context [st ?X ?c ?m] => destruct (st X c m)
       end.
  all: repeat split.
Qed.

Lemma context_manager_round_trip_witness :
  let r := CmfxMore.__aenter__ (Desk.step Desk.linux) Desk.builtin
             Desk.defaults (Desk.session StaticPage.closed) in
  Cmfx.self (snd r) = StaticPage.active
  /\ Cmfx.self (snd (CmfxMore.quit (Desk.step Desk.linux) (snd r)))
     = StaticPage.closed.
Proof.
  cbv zeta.
  destruct (context_manager_round_trip _ (Desk.step Desk.linux)
              Desk.builtin Desk.defaults (Desk.session StaticPage.closed)
              StaticPage.active eq_refl eq_refl)
    as (Hme & _ & instance & browser & page & Hset & Hquit).
  split; [now rewrite <- Hme|].
  injection Hset as <- <- <-.
  exact (proj1 (proj2 (Hquit eq_refl))).
Defined.

(** ** The manual click *)

(** Runs [manual_click_element] call by call. *)
Ltac run_manual_click step :=
  unfold CmfxMore.manual_click_element, CmfxMore.wait_random,
    CmfxMore.self_page_mouse, Cmfx.self_page_locator, Cmfx.get_self,
    Cmfx.await, CmfxMore.core_step, CmfxMore.perform, bind, ret, raise,
    lift, history;
  cbn -[Cmfx.get_pw_locator Qplus Qdiv Qmult];
  repeat (match goal with
          | |- context [step ?X ?c ?m] =>
              destruct (step X c m) as [[?|?] ?]
          | |- context [Cmfx.get_pw_locator ?l] =>
              destruct (Cmfx.get_pw_locator l)
          | |- context [match ?a with Some _ => _ | None => _ end] =>
              is_var a; destruct a
          end;
          cbn -[Cmfx.get_pw_locator Qplus Qdiv Qmult]).

(** X16.  In [manual_click_element] the mouse is moved to the element
    before the button is pressed and the button is pressed before it is
    released: in every run the mouse calls made are, in order, an initial
    part of move, down, up, and they are all three when the method
    returns. *)
Theorem manual_click_mouse_order :
  forall (Machine : Type)
         (step : forall X, Host.call X -> Machine -> result X * Machine)
         (builtin : string -> string -> exn) (locator : BSLocator)
         (timeout : Q) (s : CmfxMore.Session Machine),
    let r := CmfxMore.manual_click_element step builtin locator timeout s in
    exists new,
      history (snd r) = (history s ++ new)%list
      /\ (exists rest, [Move; Down; Up] = (mouse_acts new ++ rest)%list)
      /\ (fst r = Ok tt -> mouse_acts new = [Move; Down; Up]).
Proof.
  intros Machine step builtin locator timeout s r. subst r.
  destruct s as [[i b [pg|]] [m lg] calls].
  all: run_manual_click step.
  all: rewrite <- ?app_assoc.
  all: try (exists []; rewrite app_nil_r; split; [reflexivity|];
            split; [now eexists|discriminate]).
  all: eexists; split; [reflexivity|]; cbn;
    split; [now eexists|]; intros H; first [discriminate|reflexivity].
Qed.

Example manual_click_example :
  let r := CmfxMore.manual_click_element (Desk.step Desk.linux)
             Desk.builtin (Locator.css "button") 10%Q
             (Desk.session StaticPage.active) in
  fst r = Ok tt /\ mouse_acts (history (snd r)) = [Move; Down; Up].
Proof. split; reflexivity. Qed.

(** ** Clearing, then typing *)

(** X17.  [clear_and_send_keys] empties the field before it types: in
    every run what has been typed is a prefix of [str(value)], all of it
    when the method returns, and if a character was typed or the method
    returned, the first call made was the [fill] of the field with the
    empty string. *)
Theorem clear_and_send_keys_spec :
  forall (Machine : Type)
         (step : forall X, Host.call X -> Machine -> result X * Machine)
         (Any : Type) (str_ : Any -> string) (locator : BSLocator)
         (value : Any) (s : CmfxMore.Session Machine),
    let r := CmfxMore.clear_and_send_keys step str_ locator value s in
    exists new,
      history (snd r) = (history s ++ new)%list
      /\ typed_of (str_ value) (keys_typed new)
      /\ (fst r = Ok tt -> keys_typed new = str_ value)
      /\ (keys_typed new <> "" \/ fst r = Ok tt ->
          exists l rest,
            new = Host.issued (Host.locator_fill l "") :: rest).
Proof.
  intros Machine step Any str_ locator value s r. subst r.
  unfold CmfxMore.clear_and_send_keys, CmfxMore.clear, bind. cbv beta.
  destruct (self_page_locator_cases _ locator s)
    as [[e He]|(pg & selector & _ & _ & Hl)].
  - rewrite He. exists []. cbn. rewrite app_nil_r.
    split; [reflexivity|]. split; [now exists (str_ value)|].
    split; [discriminate|]. intros [H|H]; [congruence|discriminate].
  - rewrite Hl, perform_run.
    set (l := Playwright.Page_locator pg selector).
    set (c := Host.locator_fill l "").
    set (s1 := performed s c _).
    destruct (fst (step _ c _)) as [[]|e].
    + destruct (human_send_keys_adds _ step locator (str_ value) 10%Q s1)
        as (n1 & [H1 S1] & T1 & K1 & _).
      exists (Host.issued c :: n1).
      split.
      { rewrite H1. unfold s1, history, performed. cbn.
        now rewrite <- app_assoc. }
      cbn. split; [exact T1|]. split; [exact K1|].
      intros _. now exists l, n1.
    + exists [Host.issued c]. cbn.
      split; [reflexivity|]. split; [now exists (str_ value)|].
      split; [discriminate|]. intros _. now exists l, [].
Qed.

Lemma clear_and_send_keys_spec_witness :
  let r := CmfxMore.clear_and_send_keys (Desk.step Desk.linux)
             Py.str_of_int (Locator.css "input") 42
             (Desk.session StaticPage.active) in
  fst r = Ok tt /\ keys_typed (history (snd r)) = "42".
Proof.
  cbv zeta.
  destruct (clear_and_send_keys_spec _ (Desk.step Desk.linux) _
              Py.str_of_int (Locator.css "input") 42
              (Desk.session StaticPage.active))
    as (new & H & _ & Hok & _).
  cbv zeta in H, Hok. split; [reflexivity|].
  rewrite H. exact (Hok eq_refl).
Defined.

Lemma clears_app (a b : list Browser.event) :
  clears (a ++ b) = (clears a + clears b)%nat.
Proof.
  induction a as [|[X c] a IH]; simpl; [reflexivity|].
  destruct c; simpl; now rewrite IH.
Qed.

(** Runs [clear_and_human_type] up to its call of [human_type]. *)
Ltac run_clear step :=
  unfold WebDriverMore.clear_and_human_type, WebDriverMore.clear,
    WebDriverMore.wait_random, WebDriver.wait_element_to_be_clickable,
    WebDriver.find_element, WebDriver.find_element_at, WebDriver.invoke,
    WebDriverMore.core_step, WebDriverMore.perform, try_except, bind, ret,
    raise, record;
  cbn -[WebDriverMore.human_type isinstance];
  repeat (match goal with
          | |- context [step ?X ?c ?m] =>
              destruct (step X c m) as [[?|?] ?]
          | |- context [if isinstance ?e ?c then _ else _] =>
              destruct (isinstance e c)
          end;
          cbn -[WebDriverMore.human_type isinstance]).

Lemma clear_and_human_type_split (Machine : Type)
      (step : forall X, Browser.call X -> Machine -> result X * Machine)
      (locator : BSLocator) (content : string)
      (s : WebDriverMore.Session Machine) :
  exists pre,
    keys_sent pre = "" /\ (lookups_in pre <= 1)%nat
    /\ ((exists e s',
           WebDriverMore.clear_and_human_type step locator content s
           = (Err e, s')
           /\ record s' = (record s ++ pre)%list)
        \/ (exists s3,
               WebDriverMore.clear_and_human_type step locator content s
               = WebDriverMore.human_type step locator content s3
               /\ record s3 = (record s ++ pre)%list
               /\ clears pre = 1%nat)).
Proof.
  destruct s as [[m lg] calls]. run_clear step.
  all: rewrite <- ?app_assoc.
  all: eexists; split; [|split];
    [| |first [right; eexists; split;
               [reflexivity|split; [cbn; reflexivity|]]
              |left; do 2 eexists; split;
               [reflexivity|cbn; reflexivity]]];
    cbn; trivial; lia.
Qed.

(** X18.  [clear_and_human_type] clears the element before it sends a
    key: in every run the keys sent are a prefix of [content], all of it
    when the method returns; if a key was sent, the element had been
    cleared, once, before the first key; and the element is looked up at
    most twice, once to clear it and once to type into it. *)
Theorem clear_and_human_type_spec :
  forall (Machine : Type)
         (step : forall X, Browser.call X -> Machine -> result X * Machine)
         (locator : BSLocator) (content : string)
         (s : WebDriverMore.Session Machine),
    let r := WebDriverMore.clear_and_human_type step locator content s in
    exists new,
      record (snd r) = (record s ++ new)%list
      /\ typed_of content (keys_sent new)
      /\ (fst r = Ok tt -> keys_sent new = content)
      /\ (keys_sent new <> "" ->
          exists pre post,
            new = (pre ++ post)%list /\ keys_sent pre = ""
            /\ clears pre = 1%nat)
      /\ (lookups_in new <= 2)%nat.
Proof.
  intros Machine step locator content s r. subst r.
  destruct (clear_and_human_type_split _ step locator content s)
    as (pre & K & L & [(e & s' & -> & Hr)|(s3 & -> & Hr & C)]).
  - exists pre. cbn [fst snd]. rewrite K.
    split; [exact Hr|]. split; [now exists content|].
    split; [discriminate|]. split; [congruence|lia].
  - destruct (human_type_adds _ step locator content s3)
      as (n2 & H2 & P2 & K2 & _ & L2).
    exists (pre ++ n2)%list.
    rewrite keys_sent_app, lookups_in_app, K. cbn [String.append].
    split; [now rewrite H2, Hr, app_assoc|].
    split; [exact P2|]. split; [exact K2|].
    split; [|lia]. intros _. now exists pre, n2.
Qed.

Example clear_and_human_type_example :
  let r := WebDriverMore.clear_and_human_type
             (Kiosk.step ScriptedDriver.ready []) (Locator.name "q")
             "hi" Kiosk.session in
  fst r = Ok tt /\ keys_sent (record (snd r)) = "hi"
  /\ clears (record (snd r)) = 1%nat
  /\ lookups_in (record (snd r)) = 2%nat.
Proof. repeat split. Qed.

(** X19.  The Selenium [clear_and_send_keys] sends the content in one
    call and only to a cleared element: in every run either nothing was
    sent or the whole content was, in which case the element had been
    cleared once; when the method returns, the element was cleared and
    the content sent.  The element is looked up at most twice. *)
Theorem selenium_clear_and_send_keys_spec :
  forall (Machine : Type)
         (step : forall X, Browser.call X -> Machine -> result X * Machine)
         (locator : BSLocator) (content : string)
         (s : WebDriverMore.Session Machine),
    let r := WebDriverMore.clear_and_send_keys step locator content s in
    exists new,
      record (snd r) = (record s ++ new)%list
      /\ (key_targets new = []
          \/ keys_sent new = content /\ clears new = 1%nat)
      /\ (fst r = Ok tt -> keys_sent new = content /\ clears new = 1%nat)
      /\ (lookups_in new <= 2)%nat.
Proof.
  intros Machine step locator content s r. subst r.
  destruct s as [[m lg] calls].
  unfold WebDriverMore.clear_and_send_keys, WebDriverMore.send_keys,
    WebDriverMore.clear, WebDriver.wait_element_to_be_clickable,
    WebDriver.wait_element_to_be_present, WebDriver.find_element,
    WebDriver.find_element_at, WebDriver.invoke, WebDriverMore.core_step,
    WebDriverMore.perform, try_except, bind, ret, raise, record.
  cbn -[isinstance].
  repeat (match goal with
          | |- context [step ?X ?c ?m] =>
              destruct (step X c m) as [[?|?] ?]
          | |- context [if isinstance ?e ?c then _ else _] =>
              destruct (isinstance e c)
          end;
          cbn -[isinstance]).
  all: rewrite <- ?app_assoc.
  all: eexists; split; [reflexivity|]; cbn; rewrite ?str_app_empty_r.
  all: split; [first [now left|now right]|].
  all: split; [intros H; first [discriminate|now split]|lia].
Qed.

Lemma selenium_clear_and_send_keys_spec_witness :
  let r := WebDriverMore.clear_and_send_keys
             (Kiosk.step ScriptedDriver.ready []) (Locator.name "q")
             "query" Kiosk.session in
  keys_sent (record (snd r)) = "query" /\ clears (record (snd r)) = 1%nat.
Proof.
  cbv zeta.
  destruct (selenium_clear_and_send_keys_spec _
              (Kiosk.step ScriptedDriver.ready []) (Locator.name "q")
              "query" Kiosk.session)
    as (new & H & _ & Hok & _).
  cbv zeta in H, Hok. rewrite H. exact (Hok eq_refl).
Defined.

(** *** Runs of the typing methods *)

Lemma human_send_keys_types_content_witness :
  let r := CmfxMore.human_send_keys (Desk.step Desk.filled)
             (Locator.css "input") "abc" 10%Q
             (Desk.session StaticPage.active) in
  keys_typed (history (snd r)) = "abc"
  /\ typing_calls (history (snd r))
     = one_by_one (Playwright.Page_locator 3%nat "input") "abc".
Proof.
  cbv zeta.
  destruct (human_send_keys_types_content _ (Desk.step Desk.filled)
              (Locator.css "input") "abc" 10%Q
              (Desk.session StaticPage.active))
    as (new & H & _ & _ & Hok & (l & Hcalls & Hl) & _).
  rewrite H. cbn [history Desk.session Cmfx.engine CmfxMore.log app].
  pose proof (Hok eq_refl) as Hk.
  split; [exact Hk|].
  rewrite Hcalls, Hk.
  rewrite Hk in Hl.
  assert (Hne : "abc" <> "") by discriminate.
  pose proof (Hl Hne) as Hfound.
  injection Hfound as <-. reflexivity.
Defined.

Lemma human_type_sends_content_witness :
  let r := WebDriverMore.human_type (Kiosk.step ScriptedDriver.ready [])
             (Locator.name "q") "hi" Kiosk.session in
  keys_sent (record (snd r)) = "hi"
  /\ sends (record (snd r)) = one_by_one 0%nat "hi".
Proof.
  cbv zeta.
  destruct (human_type_sends_content _ (Kiosk.step ScriptedDriver.ready [])
              (Locator.name "q") "hi" Kiosk.session)
    as (new & H & _ & Hok & (elem & Hsends & Hfound) & _).
  rewrite H.
  cbn [record Kiosk.session WebDriver.driver WebDriverMore.log app].
  pose proof (Hok eq_refl) as Hk.
  split; [exact Hk|].
  rewrite Hsends, Hk. rewrite Hk in Hfound.
  assert (Hne : "hi" <> "") by discriminate.
  destruct (Hfound Hne) as (s1 & s2 & Hw & Hf).
  injection Hw as <-. injection Hf as <- _. reflexivity.
Defined.

Lemma clear_and_human_type_spec_witness :
  keys_sent
    (record
       (snd (WebDriverMore.clear_and_human_type
               (Kiosk.step ScriptedDriver.ready []) (Locator.name "q")
               "hi" Kiosk.session)))
  = "hi".
Proof.
  destruct (clear_and_human_type_spec _
              (Kiosk.step ScriptedDriver.ready []) (Locator.name "q")
              "hi" Kiosk.session)
    as (new & H & _ & Hok & _).
  cbv zeta in H, Hok. rewrite H. exact (Hok eq_refl).
Defined.

Lemma manual_click_mouse_order_witness :
  mouse_acts
    (history
       (snd (CmfxMore.manual_click_element (Desk.step Desk.linux)
               Desk.builtin (Locator.css "button") 10%Q
               (Desk.session StaticPage.active))))
  = [Move; Down; Up].
Proof.
  destruct (manual_click_mouse_order _ (Desk.step Desk.linux) Desk.builtin
              (Locator.css "button") 10%Q
              (Desk.session StaticPage.active))
    as (new & H & _ & Hok).
  cbv zeta in H, Hok. rewrite H. exact (Hok eq_refl).
Defined.

(** * No automatic retry *)

(** ** Traces *)

Section TraceFacts.
Variable event : Type.
Variable is_poll : event -> bool.
Variable tag : event -> nat.

Lemma polls_app (a b : list (entry event)) :
  polls is_poll (a ++ b) = (polls is_poll a + polls is_poll b)%nat.
Proof. unfold polls. now rewrite filter_app, length_app. Qed.

Lemma unmissed_app (a b : list (entry event)) :
  unmissed (a ++ b) = unmissed a && unmissed b.
Proof. apply forallb_app. Qed.

Lemma stops_at_miss_app (a b : list (entry event)) :
  unmissed a = true -> stops_at_miss b = true ->
  stops_at_miss (a ++ b) = true.
Proof.
  induction a as [|n a IH]; intros Ha Hb; [exact Hb|].
  cbn in Ha. apply andb_prop in Ha as [Hn Ha].
  specialize (IH Ha Hb). cbn [app stops_at_miss].
  destruct (a ++ b)%list; [reflexivity|]. now rewrite Hn, IH.
Qed.

Lemma unmissed_stops (l : list (entry event)) :
  unmissed l = true -> stops_at_miss l = true.
Proof.
  intros H. rewrite <- (app_nil_r l). now apply stops_at_miss_app.
Qed.

Lemma stops_settled (l : list (entry event)) :
  stops_at_miss l = true -> settled is_poll tag l = true.
Proof.
  induction l as [|n rest IH]; [reflexivity|].
  cbn [stops_at_miss settled]. destruct rest as [|n' rest].
  - intros _. cbn. now destruct (missed n).
  - intros H. apply andb_prop in H as [Hn H].
    apply negb_true_iff in Hn. rewrite Hn. now apply IH.
Qed.

Lemma settled_app (a b : list (entry event)) :
  unmissed a = true -> settled is_poll tag b = true ->
  settled is_poll tag (a ++ b) = true.
Proof.
  induction a as [|n a IH]; intros Ha Hb; [exact Hb|].
  cbn in Ha. apply andb_prop in Ha as [Hn Ha].
  apply negb_true_iff in Hn. cbn [app settled]. rewrite Hn.
  now apply IH.
Qed.

Lemma settled_tail (a b : list (entry event)) :
  settled is_poll tag (a ++ b) = true -> settled is_poll tag b = true.
Proof.
  induction a as [|n a IH]; [trivial|].
  cbn [app settled]. intros H. apply andb_prop in H as [_ H].
  now apply IH.
Qed.

(** A settled trace holds no retry. *)
Lemma settled_not_reissued (l : list (entry event)) :
  settled is_poll tag l = true -> ~ reissued is_poll l.
Proof.
  intros H (a & e & b & x & c & -> & Hp).
  apply settled_tail in H. cbn [settled missed what] in H.
  apply andb_prop in H as [H _]. clear a.
  induction b as [|n b IH]; cbn [app clear_until_poll what] in H.
  - now rewrite Nat.eqb_refl in H.
  - destruct (Nat.eqb (tag (what n)) (tag e)); [discriminate|].
    unfold polls in Hp. cbn [filter] in Hp.
    destruct (is_poll (what n)); [discriminate|]. now apply IH.
Qed.

(** The calls of one evaluation of a waited condition, then a poll. *)
Lemma settled_then_poll (a : list (entry event)) (p : event) (m : bool)
      (rest : list (entry event)) :
  stops_at_miss a = true -> polls is_poll a = O ->
  is_poll p = true ->
  (forall e, is_poll e = false -> tag e <> tag p) ->
  settled is_poll tag (noted p m :: rest) = true ->
  settled is_poll tag (a ++ noted p m :: rest) = true.
Proof.
  intros Ha Hp Hpoll Htag Hrest.
  induction a as [|n a IH]; [exact Hrest|].
  unfold polls in Hp. cbn [filter] in Hp.
  destruct (is_poll (what n)) eqn:En; [discriminate|].
  cbn [app settled]. cbn [stops_at_miss] in Ha.
  destruct a as [|n' a].
  - cbn [app]. rewrite Hrest, andb_true_r.
    destruct (missed n); [|reflexivity].
    cbn [clear_until_poll what].
    destruct (Nat.eqb_spec (tag p) (tag (what n))) as [E|_].
    + now elim (Htag _ En).
    + now rewrite Hpoll.
  - apply andb_prop in Ha as [Hn Ha]. apply negb_true_iff in Hn.
    rewrite Hn. now apply IH.
Qed.

End TraceFacts.

(** ** Computations *)

Section RunFacts.
Context {W event : Type}.
Variable is_poll : event -> bool.
Variable tag : event -> nat.
Variable trace : W -> list (entry event).

Lemma halting_silent {A} (m : M W A) :
  silent trace m -> halting is_poll trace m.
Proof.
  intros H s. exists []. rewrite app_nil_r. repeat split. apply H.
Qed.

Lemma halting_bind {A B} (m : M W A) (k : A -> M W B) :
  halting is_poll trace m -> (forall a, halting is_poll trace (k a)) ->
  halting is_poll trace (bind m k).
Proof.
  intros Hm Hk s. unfold bind.
  destruct (Hm s) as (n1 & T1 & S1 & P1 & U1).
  destruct (m s) as [[a|e] s1]; cbn [fst snd] in *.
  - destruct (Hk a s1) as (n2 & T2 & S2 & P2 & U2).
    exists (n1 ++ n2)%list. rewrite T2, T1, app_assoc.
    specialize (U1 eq_refl).
    split; [reflexivity|]. split; [now apply stops_at_miss_app|].
    split; [now rewrite polls_app, P1, P2|].
    intros H. now rewrite unmissed_app, U1, U2.
  - exists n1. repeat split; trivial; try discriminate.
Qed.

Lemma halting_tidy (polled : bool) {A} (m : M W A) :
  halting is_poll trace m -> tidy is_poll tag trace polled m.
Proof.
  intros Hm s. destruct (Hm s) as (n1 & T1 & S1 & P1 & _).
  exists n1. split; [exact T1|]. split; [now apply stops_settled|trivial].
Qed.

Lemma tidy_bind (polled : bool) {A B} (m : M W A) (k : A -> M W B) :
  halting is_poll trace m ->
  (forall a, tidy is_poll tag trace polled (k a)) ->
  tidy is_poll tag trace polled (bind m k).
Proof.
  intros Hm Hk s. unfold bind.
  destruct (Hm s) as (n1 & T1 & S1 & P1 & U1).
  destruct (m s) as [[a|e] s1]; cbn [fst snd] in *.
  - destruct (Hk a s1) as (n2 & T2 & S2 & P2).
    exists (n1 ++ n2)%list. rewrite T2, T1, app_assoc.
    split; [reflexivity|]. split; [apply settled_app; auto|].
    intros Hp. now rewrite polls_app, P1, (P2 Hp).
  - exists n1. split; [exact T1|].
    split; [now apply stops_settled|trivial].
Qed.

(** A handler that only raises. *)
Lemma halting_try_raising {A} (m : M W A) (cls : exn_class)
      (h : exn -> M W A) :
  halting is_poll trace m ->
  (forall e s, exists e', h e s = (Err e', s)) ->
  halting is_poll trace (try_except m cls h).
Proof.
  intros Hm Hh s. unfold try_except.
  destruct (Hm s) as (n1 & T1 & S1 & P1 & U1).
  destruct (m s) as [[a|e] s1]; cbn [fst snd] in *.
  - exists n1. now repeat split.
  - destruct (isinstance e cls).
    + destruct (Hh e s1) as [e' ->]. exists n1.
      repeat split; trivial; try discriminate.
    + exists n1. repeat split; trivial; try discriminate.
Qed.

(** A handler that makes no call. *)
Lemma tidy_try_silent (polled : bool) {A} (m : M W A) (cls : exn_class)
      (h : exn -> M W A) :
  tidy is_poll tag trace polled m -> (forall e, silent trace (h e)) ->
  tidy is_poll tag trace polled (try_except m cls h).
Proof.
  intros Hm Hh s. unfold try_except.
  destruct (Hm s) as (n1 & T1 & S1).
  destruct (m s) as [[a|e] s1]; cbn [fst snd] in *.
  - now exists n1.
  - destruct (isinstance e cls).
    + exists n1. now rewrite Hh.
    + now exists n1.
Qed.

Lemma tidy_try2_silent (polled : bool) {A} (m : M W A)
      (cls1 cls2 : exn_class) (h1 h2 : exn -> M W A) :
  tidy is_poll tag trace polled m ->
  (forall e, silent trace (h1 e)) -> (forall e, silent trace (h2 e)) ->
  tidy is_poll tag trace polled (try_except2 m cls1 h1 cls2 h2).
Proof.
  intros Hm H1 H2 s. unfold try_except2.
  destruct (Hm s) as (n1 & T1 & S1).
  destruct (m s) as [[a|e] s1]; cbn [fst snd] in *.
  - now exists n1.
  - destruct (isinstance e cls1); [exists n1; now rewrite H1|].
    destruct (isinstance e cls2); [exists n1; now rewrite H2|].
    now exists n1.
Qed.

(** A probe, then what depends on its answer: after the answer [d] of the
    handler nothing is called. *)
Lemma tidy_caught_bind (polled : bool) {A B} (m : M W A)
      (cls : exn_class) (d : A) (k : A -> M W B) :
  halting is_poll trace m -> silent trace (k d) ->
  (forall a, halting is_poll trace (k a)) ->
  tidy is_poll tag trace polled
       (bind (try_except m cls (fun _ => ret d)) k).
Proof.
  intros Hm Hd Hk s. unfold bind, try_except.
  destruct (Hm s) as (n1 & T1 & S1 & P1 & U1).
  destruct (m s) as [[a|e] s1]; cbn [fst snd] in *.
  - destruct (Hk a s1) as (n2 & T2 & S2 & P2 & _).
    exists (n1 ++ n2)%list. rewrite T2, T1, app_assoc.
    split; [reflexivity|].
    split; [apply settled_app; auto; now apply stops_settled|].
    intros _. now rewrite polls_app, P1, P2.
  - destruct (isinstance e cls).
    + unfold ret at 1. exists n1. rewrite Hd.
      split; [exact T1|]. split; [now apply stops_settled|trivial].
    + exists n1. split; [exact T1|].
      split; [now apply stops_settled|trivial].
Qed.

End RunFacts.

(** ** The Selenium wrapper *)

Lemma browser_poll_tag (p e : Browser.event) :
  browser_is_poll p = true -> browser_is_poll e = false ->
  browser_tag e <> browser_tag p.
Proof.
  destruct p as [X c]. destruct c; try discriminate. intros _.
  destruct e as [Y c]. destruct c; try discriminate.
  destruct c; discriminate.
Qed.

Section SeleniumRuns.
Import Browser.
Variable Machine : Type.
Variable step : forall X, call X -> Machine -> result X * Machine.

Lemma browser_perform_trace {X} (c : call X)
      (s : WebDriverMore.Session (Machine * list (entry event))) :
  browser_trace (snd (WebDriverMore.perform (browser_tracing step) c s))
  = (browser_trace s
     ++ [noted (issued c)
               (browser_misses
                  c (fst (WebDriverMore.perform (browser_tracing step)
                                                c s)))])%list.
Proof.
  destruct s as [[[m t] lg] calls].
  unfold WebDriverMore.perform, browser_tracing, browser_trace. cbn.
  now destruct (step X c m).
Qed.

Lemma browser_invoke_trace {X} (c : Selenium.call X)
      (s : WebDriverMore.Session (Machine * list (entry event))) :
  let r := WebDriver.invoke
             (WebDriverMore.core_step (browser_tracing step)) c s in
  browser_trace (snd r)
  = (browser_trace s
     ++ [noted (issued (selenium c))
               (browser_misses (selenium c) (fst r))])%list.
Proof.
  destruct s as [[[m t] lg] calls].
  unfold WebDriver.invoke, WebDriverMore.core_step, browser_tracing,
    browser_trace. cbn.
  now destruct (step X (selenium c) m).
Qed.

Lemma browser_perform_halting {X} (c : call X) :
  browser_is_poll (issued c) = false ->
  (forall v, browser_misses c (Ok v) = false) ->
  halting browser_is_poll browser_trace
          (WebDriverMore.perform (browser_tracing step) c).
Proof.
  intros Hp Hm s. pose proof (browser_perform_trace c s) as T.
  destruct (WebDriverMore.perform (browser_tracing step) c s)
    as [[v|e] s1]; cbn [fst snd] in *.
  all: eexists; split; [exact T|]; split; [reflexivity|].
  all: unfold polls; cbn [filter what]; rewrite Hp.
  all: split; [reflexivity|]; intros H.
  - cbn [unmissed forallb missed]. now rewrite Hm.
  - discriminate H.
Qed.

Lemma browser_invoke_halting {X} (c : Selenium.call X) :
  (forall v, browser_misses (selenium c) (Ok v) = false) ->
  halting browser_is_poll browser_trace
          (WebDriver.invoke
             (WebDriverMore.core_step (browser_tracing step)) c).
Proof.
  intros Hm s. pose proof (browser_invoke_trace c s) as T. cbv zeta in T.
  destruct (WebDriver.invoke
              (WebDriverMore.core_step (browser_tracing step)) c s)
    as [[v|e] s1]; cbn [fst snd] in *.
  all: eexists; split; [exact T|]; split; [reflexivity|].
  all: split; [reflexivity|]; intros H.
  - cbn [unmissed forallb missed]. now rewrite Hm.
  - discriminate H.
Qed.

End SeleniumRuns.

(** Follows a method of the Selenium wrapper statement by statement. *)
Ltac sel_halt :=
  repeat
    (cbv beta;
     cbn [WebDriver.find_element_at WebDriver.find_elements_at];
     first
       [ apply halting_bind; [|intros ?]
       | apply browser_perform_halting; [reflexivity|intros ?; reflexivity]
       | apply browser_invoke_halting; intros ?; reflexivity
       | apply halting_silent; intros ?; reflexivity
       | apply halting_try_raising; [|intros ? ?; eexists; reflexivity]
       | match goal with
         | |- halting _ _ (match ?x with _ => _ end) => destruct x
         end ]).

Section SeleniumMethods.
Import Browser.
Variable Machine : Type.
Variable step : forall X, call X -> Machine -> result X * Machine.
Variable builtin : string -> string -> exn.

Lemma find_element_halting (locator : BSLocator) :
  halting browser_is_poll browser_trace
    (WebDriver.find_element
       (WebDriverMore.core_step (browser_tracing step)) locator false).
Proof. unfold WebDriver.find_element. sel_halt. Qed.

Lemma wait_clickable_halting (locator : BSLocator) (t : Q) :
  halting browser_is_poll browser_trace
    (WebDriver.wait_element_to_be_clickable
       (WebDriverMore.core_step (browser_tracing step)) locator t true).
Proof. unfold WebDriver.wait_element_to_be_clickable. sel_halt. Qed.

Lemma wait_present_halting (locator : BSLocator) (t : Q) :
  halting browser_is_poll browser_trace
    (WebDriver.wait_element_to_be_present
       (WebDriverMore.core_step (browser_tracing step)) locator t).
Proof. unfold WebDriver.wait_element_to_be_present. sel_halt. Qed.

Lemma sel_wait_random_halting (a b : Q) :
  halting browser_is_poll browser_trace
    (WebDriverMore.wait_random (browser_tracing step) a b).
Proof. unfold WebDriverMore.wait_random. sel_halt. Qed.

Lemma send_each_halting (elem : Selenium.WebElement) (content : string) :
  halting browser_is_poll browser_trace
    (WebDriverMore.send_each (browser_tracing step) elem content).
Proof.
  induction content as [|char rest IH]; cbn [WebDriverMore.send_each].
  - sel_halt.
  - apply halting_bind; [sel_halt|intros _].
    apply halting_bind; [apply sel_wait_random_halting|intros _].
    exact IH.
Qed.

Lemma clear_halting (locator : BSLocator) :
  halting browser_is_poll browser_trace
    (WebDriverMore.clear (browser_tracing step) locator).
Proof.
  unfold WebDriverMore.clear.
  apply halting_bind; [apply wait_clickable_halting|intros _].
  apply halting_bind; [apply find_element_halting|intros e]. sel_halt.
Qed.

Lemma send_keys_halting (locator : BSLocator) (content : string) :
  halting browser_is_poll browser_trace
    (WebDriverMore.send_keys (browser_tracing step) locator content).
Proof.
  unfold WebDriverMore.send_keys.
  apply halting_bind; [apply wait_present_halting|intros _].
  apply halting_bind; [apply find_element_halting|intros e]. sel_halt.
Qed.

Lemma human_type_halting (locator : BSLocator) (content : string) :
  halting browser_is_poll browser_trace
    (WebDriverMore.human_type (browser_tracing step) locator content).
Proof.
  unfold WebDriverMore.human_type.
  apply halting_bind; [apply wait_clickable_halting|intros _].
  apply halting_bind; [apply find_element_halting|intros e].
  apply halting_bind; [apply sel_wait_random_halting|intros _].
  apply send_each_halting.
Qed.

Lemma attribute_contains_halting (locator : BSLocator)
      (attr content : string) :
  halting browser_is_poll browser_trace
    (WebDriverRest.attribute_contains (browser_tracing step) builtin
                                      locator attr content).
Proof.
  unfold WebDriverRest.attribute_contains.
  apply halting_bind; [apply find_element_halting|intros e]. sel_halt.
Qed.

(** One evaluation of a waited condition, the poll that follows it, and
    what the wait does next. *)
Lemma until_round_tidy (timeout : Q)
      (method : M (WebDriverMore.Session (Machine * list (entry event)))
                  bool)
      (next : M (WebDriverMore.Session (Machine * list (entry event)))
                unit) :
  halting browser_is_poll browser_trace method ->
  tidy browser_is_poll browser_tag browser_trace true next ->
  tidy browser_is_poll browser_tag browser_trace true
       (value <- try_except method cls_NoSuchElementException
                            (fun _ => ret false) ;;
        if value then ret tt
        else
          more <- WebDriverMore.perform (browser_tracing step)
                    (WebDriverWait_poll timeout) ;;
          if more then next else raise (TimeoutException "")).
Proof.
  intros Hm Hnext s. unfold bind, try_except.
  destruct (Hm s) as (n1 & T1 & S1 & P1 & U1).
  set (p := WebDriverWait_poll timeout).
  assert (Hpoll :
            forall s1,
              browser_trace s1 = (browser_trace s ++ n1)%list ->
              exists new,
                browser_trace
                  (snd (match
                           WebDriverMore.perform (browser_tracing step)
                                                 p s1
                         with
                         | (Ok more, s2) =>
                             (if more then next
                              else raise (TimeoutException "")) s2
                         | (Err e, s2) => (Err e, s2)
                         end))
                = (browser_trace s ++ new)%list
                /\ settled browser_is_poll browser_tag new = true
                /\ (true = false -> polls browser_is_poll new = O)).
  { intros s1 Hs1.
    pose proof (browser_perform_trace _ step p s1) as Tp.
    destruct (WebDriverMore.perform (browser_tracing step) p s1)
      as [[more|e] s2]; cbn [fst snd] in Tp.
    - destruct more.
      + destruct (Hnext s2) as (n3 & T3 & S3 & _).
        exists (n1 ++ noted (issued p) false :: n3)%list.
        rewrite T3, Tp, Hs1, <- !app_assoc. split; [reflexivity|].
        split; [|discriminate].
        apply settled_then_poll; trivial.
        intros e. now apply browser_poll_tag.
      + exists (n1 ++ [noted (issued p) false])%list.
        unfold raise. cbn [snd]. rewrite Tp, Hs1, <- app_assoc.
        split; [reflexivity|]. split; [|discriminate].
        apply settled_then_poll; trivial.
        intros e. now apply browser_poll_tag.
    - exists (n1 ++ [noted (issued p) true])%list.
      cbn [snd]. rewrite Tp, Hs1, <- app_assoc.
      split; [reflexivity|]. split; [|discriminate].
      apply settled_then_poll; trivial.
      intros e0. now apply browser_poll_tag. }
  destruct (method s) as [[value|e] s1]; cbn [fst snd] in *.
  - destruct value.
    + exists n1. unfold ret. cbn [snd]. split; [exact T1|].
      split; [now apply stops_settled|discriminate].
    + now apply Hpoll.
  - destruct (isinstance e cls_NoSuchElementException).
    + unfold ret at 1. now apply Hpoll.
    + exists n1. split; [exact T1|].
      split; [now apply stops_settled|discriminate].
Qed.

(** The polling wait: each evaluation of the condition is followed by a
    poll before the next one. *)
Lemma until_at_tidy (rounds : nat) (timeout : Q)
      (method : M (WebDriverMore.Session (Machine * list (entry event)))
                  bool) :
  halting browser_is_poll browser_trace method ->
  tidy browser_is_poll browser_tag browser_trace true
       (WebDriverRest.until_at (browser_tracing step) rounds timeout
                               method).
Proof.
  intros Hm. induction rounds as [|rounds IH];
    cbn [WebDriverRest.until_at]; apply until_round_tidy; trivial.
  intros s. exists []. now rewrite app_nil_r.
Qed.

End SeleniumMethods.

(** Follows a method of the Selenium wrapper, through the methods it
    calls. *)
Ltac sel_walk :=
  repeat
    (cbv beta;
     first
       [ apply find_element_halting
       | apply wait_clickable_halting
       | apply wait_present_halting
       | apply sel_wait_random_halting
       | apply send_each_halting
       | apply clear_halting
       | apply send_keys_halting
       | apply human_type_halting
       | apply attribute_contains_halting
       | apply halting_bind; [|intros ?]
       | apply browser_perform_halting; [reflexivity|intros ?; reflexivity]
       | apply browser_invoke_halting; intros ?; reflexivity
       | apply halting_silent; intros ?; reflexivity
       | apply halting_try_raising; [|intros ? ?; eexists; reflexivity]
       | match goal with
         | |- halting _ _ (match ?x with _ => _ end) => destruct x
         end ]).

(** Runs a method of the Selenium wrapper call by call, with the
    trace. *)
Ltac sel_brute step :=
  unfold WebDriver.get_text, WebDriver.wait_element_to_be_visible,
    WebDriver.find_element, WebDriver.find_elements;
  cbn [WebDriver.find_element_at WebDriver.find_elements_at];
  unfold WebDriver.invoke, WebDriverMore.core_step, browser_tracing,
    browser_trace, try_except, bind, ret, raise;
  cbn -[isinstance];
  repeat (match goal with
          | |- context [step ?X ?c ?m] =>
              destruct (step X c m) as [[?|?] ?]
          | |- context [if isinstance ?e ?c then _ else _] =>
              destruct (isinstance e c)
          | |- context [match ?l with [] => _ | _ :: _ => _ end] =>
              is_var l; destruct l
          end;
          cbn -[isinstance]);
  rewrite <- ?app_assoc.

Section SeleniumOperations.
Import Browser.
Variable Machine : Type.
Variable step : forall X, call X -> Machine -> result X * Machine.
Variable builtin : string -> string -> exn.
Variable rounds : nat.

Lemma tidy_run (polled : bool) {A}
      (m : M (WebDriverMore.Session (Machine * list (entry event))) A)
      (P : Prop) :
  tidy browser_is_poll browser_tag browser_trace polled m ->
  forall s,
  exists new,
    browser_trace (snd (m s)) = (browser_trace s ++ new)%list
    /\ (reissued browser_is_poll new -> P)
    /\ (polled = false -> polls browser_is_poll new = O).
Proof.
  intros Hm s. destruct (Hm s) as (new & T & S & Hp).
  exists new. split; [exact T|]. split; [|exact Hp]. intros R.
  now elim (settled_not_reissued _ _ _ _ S).
Qed.

Lemma find_elements_tidy (locator : BSLocator) :
  tidy browser_is_poll browser_tag browser_trace false
    (WebDriver.find_elements
       (WebDriverMore.core_step (browser_tracing step)) locator false).
Proof.
  intros s. destruct s as [[[m t] lg] calls]. sel_brute step.
  all: eexists; split; [reflexivity|]; split; reflexivity.
Qed.

Lemma get_text_tidy (locator : BSLocator) (raise_exception : bool)
      (timeout : Q) :
  tidy browser_is_poll browser_tag browser_trace false
    (WebDriver.get_text
       (WebDriverMore.core_step (browser_tracing step)) locator
       raise_exception timeout).
Proof.
  intros s. destruct s as [[[m t] lg] calls].
  destruct raise_exception; sel_brute step.
  all: eexists; split; [reflexivity|]; split; reflexivity.
Qed.

(** The lookups with [retry] set extend the trace as well, without a
    poll. *)
Lemma retrying_lookups_extend (locator : BSLocator)
      (s : WebDriverMore.Session (Machine * list (entry event))) :
  (exists new,
      browser_trace
        (snd (WebDriver.find_element
                (WebDriverMore.core_step (browser_tracing step))
                locator true s))
      = (browser_trace s ++ new)%list
      /\ polls browser_is_poll new = O)
  /\ (exists new,
         browser_trace
           (snd (WebDriver.find_elements
                   (WebDriverMore.core_step (browser_tracing step))
                   locator true s))
         = (browser_trace s ++ new)%list
         /\ polls browser_is_poll new = O).
Proof.
  destruct s as [[[m t] lg] calls]. split; sel_brute step.
  all: eexists; split; reflexivity.
Qed.

(** No method of [BSWebDriver] retries, the two lookups with [retry] set
    apart. *)
Lemma webdriver_no_retry (o : WebDriverOps.operation)
      (s : WebDriverMore.Session (Machine * list (entry event))) :
  exists new,
    browser_trace
      (WebDriverOps.run (browser_tracing step) builtin rounds o s)
    = (browser_trace s ++ new)%list
    /\ (reissued browser_is_poll new -> WebDriverOps.retrying o = true)
    /\ (WebDriverOps.polling o = false -> polls browser_is_poll new = O).
Proof.
  destruct o;
    cbn [WebDriverOps.run WebDriverOps.retrying WebDriverOps.polling].
  - (* __init__ *)
    apply tidy_run.
    apply halting_tidy.
    unfold WebDriverRest.__init__, WebDriverRest.headless. sel_walk.
  - (* quit *)
    apply tidy_run.
    apply halting_tidy. unfold WebDriver.quit. sel_walk.
  - (* close_tab *)
    apply tidy_run.
    apply halting_tidy. unfold WebDriverRest.close_tab. sel_walk.
  - (* headless *)
    apply tidy_run.
    apply halting_tidy. unfold WebDriverRest.headless. sel_walk.
  - (* set_implicit_wait *)
    apply tidy_run.
    apply halting_tidy. unfold WebDriverRest.set_implicit_wait. sel_walk.
  - (* navigate_to *)
    apply tidy_run.
    apply halting_tidy. unfold WebDriverRest.navigate_to. sel_walk.
  - (* maximize_window *)
    apply tidy_run.
    apply halting_tidy. unfold WebDriverRest.maximize_window. sel_walk.
  - (* grab_focus *)
    apply tidy_run.
    apply halting_tidy. unfold WebDriverRest.grab_focus. sel_walk.
  - (* find_element *)
    destruct retry.
    + destruct (proj1 (retrying_lookups_extend locator s))
        as (new & T & Hp).
      exists new. now repeat split.
    + apply tidy_run. apply halting_tidy. sel_walk.
  - (* find_elements *)
    destruct retry.
    + destruct (proj2 (retrying_lookups_extend locator s))
        as (new & T & Hp).
      exists new. now repeat split.
    + apply tidy_run. apply find_elements_tidy.
  - (* click_element *)
    apply tidy_run.
    apply halting_tidy. unfold WebDriver.click_element. sel_walk.
  - (* clear *)
    apply tidy_run.
    apply halting_tidy. sel_walk.
  - (* send_keys *)
    apply tidy_run.
    apply halting_tidy. sel_walk.
  - (* clear_and_send_keys *)
    apply tidy_run.
    apply halting_tidy. unfold WebDriverMore.clear_and_send_keys. sel_walk.
  - (* human_type *)
    apply tidy_run.
    apply halting_tidy. sel_walk.
  - (* clear_and_human_type *)
    apply tidy_run.
    apply halting_tidy. unfold WebDriverMore.clear_and_human_type.
    sel_walk.
  - (* get_text *)
    apply tidy_run.
    apply get_text_tidy.
  - (* get_class *)
    apply tidy_run.
    apply halting_tidy. unfold WebDriverMore.get_class. sel_walk.
  - (* get_value *)
    apply tidy_run.
    apply halting_tidy. unfold WebDriverMore.get_value. sel_walk.
  - (* is_element_present *)
    apply tidy_run.
    unfold WebDriver.is_element_present.
    apply tidy_try_silent; [apply halting_tidy; sel_walk|].
    intros e s'. reflexivity.
  - (* is_element_displayed *)
    apply tidy_run.
    unfold WebDriver.is_element_displayed, WebDriver.is_element_present.
    apply tidy_caught_bind; [sel_walk|intros s'; reflexivity|].
    intros present. sel_walk.
  - (* is_element_clickable *)
    apply tidy_run.
    unfold WebDriver.is_element_clickable.
    apply tidy_try2_silent; [apply halting_tidy; sel_walk| |];
      intros e s'; reflexivity.
  - (* wait_element_to_be_present *)
    apply tidy_run.
    apply halting_tidy. sel_walk.
  - (* wait_element_to_be_clickable *)
    apply tidy_run.
    unfold WebDriver.wait_element_to_be_clickable.
    apply tidy_try_silent; [apply halting_tidy; sel_walk|].
    intros e s'. now destruct raise_exception.
  - (* wait_element_to_be_visible *)
    apply tidy_run.
    unfold WebDriver.wait_element_to_be_visible.
    apply tidy_try_silent; [apply halting_tidy; sel_walk|].
    intros e s'. now destruct raise_exception.
  - (* wait_element_to_be_invisible *)
    apply tidy_run.
    unfold WebDriver.wait_element_to_be_invisible.
    apply tidy_try_silent; [apply halting_tidy; sel_walk|].
    intros e s'. now destruct raise_exception.
  - (* wait_page_to_be_loaded *)
    apply tidy_run.
    unfold WebDriverRest.wait_page_to_be_loaded.
    apply until_at_tidy. sel_walk.
  - (* wait_element_class_to_contain *)
    apply tidy_run.
    unfold WebDriverRest.wait_element_class_to_contain.
    apply until_at_tidy. sel_walk.
  - (* wait_attribute_to_contain *)
    apply tidy_run.
    unfold WebDriverRest.wait_attribute_to_contain.
    apply tidy_try_silent; [apply until_at_tidy; sel_walk|].
    intros e s'. now destruct raise_exception.
  - (* get_current_url *)
    apply tidy_run.
    apply halting_tidy. unfold WebDriverRest.get_current_url. sel_walk.
  - (* scroll_element_into_view *)
    apply tidy_run.
    apply halting_tidy. unfold WebDriverRest.scroll_element_into_view.
    sel_walk.
  - (* scroll_to_page_top *)
    apply tidy_run.
    apply halting_tidy.
    unfold WebDriverRest.scroll_to_page_top, WebDriverRest.execute_script.
    sel_walk.
  - (* execute_script *)
    apply tidy_run.
    apply halting_tidy. unfold WebDriverRest.execute_script. sel_walk.
  - (* save_screenshot *)
    apply tidy_run.
    apply halting_tidy. unfold WebDriverRest.save_screenshot. sel_walk.
  - (* save_element_screenshot *)
    apply tidy_run.
    apply halting_tidy. unfold WebDriverRest.save_element_screenshot.
    sel_walk.
  - (* wait_random *)
    apply tidy_run.
    apply halting_tidy. sel_walk.
  - (* wait_static *)
    apply tidy_run.
    apply halting_tidy. unfold WebDriver.wait_static. sel_walk.
Qed.

End SeleniumOperations.

(** ** The Playwright wrapper *)

Section PlaywrightRuns.
Import Host.
Variable Machine : Type.
Variable step : forall X, call X -> Machine -> result X * Machine.

Lemma host_perform_trace {X} (c : call X)
      (s : CmfxMore.Session (Machine * list (entry event))) :
  host_trace (snd (CmfxMore.perform (host_tracing step) c s))
  = (host_trace s
     ++ [noted (issued c)
               (host_misses
                  c (fst (CmfxMore.perform (host_tracing step) c s)))])%list.
Proof.
  destruct s as [me [[m t] lg] calls].
  unfold CmfxMore.perform, host_tracing, host_trace. cbn.
  now destruct (step X c m).
Qed.

Lemma host_await_trace {X} (c : Playwright.call X)
      (s : CmfxMore.Session (Machine * list (entry event))) :
  let r := Cmfx.await (CmfxMore.core_step (host_tracing step)) c s in
  host_trace (snd r)
  = (host_trace s
     ++ [noted (issued (playwright c))
               (host_misses (playwright c) (fst r))])%list.
Proof.
  destruct s as [me [[m t] lg] calls].
  unfold Cmfx.await, CmfxMore.core_step, host_tracing, host_trace. cbn.
  now destruct (step X (playwright c) m).
Qed.

Lemma host_perform_halting {X} (c : call X) :
  halting host_is_poll host_trace
          (CmfxMore.perform (host_tracing step) c).
Proof.
  intros s. pose proof (host_perform_trace c s) as T.
  destruct (CmfxMore.perform (host_tracing step) c s)
    as [[v|e] s1]; cbn [fst snd] in *.
  all: eexists; split; [exact T|]; repeat split; trivial; discriminate.
Qed.

Lemma host_await_halting {X} (c : Playwright.call X) :
  halting host_is_poll host_trace
          (Cmfx.await (CmfxMore.core_step (host_tracing step)) c).
Proof.
  intros s. pose proof (host_await_trace c s) as T. cbv zeta in T.
  destruct (Cmfx.await (CmfxMore.core_step (host_tracing step)) c s)
    as [[v|e] s1]; cbn [fst snd] in *.
  all: eexists; split; [exact T|]; repeat split; trivial; discriminate.
Qed.

End PlaywrightRuns.

(** Follows a method of the Playwright wrapper statement by statement. *)
Ltac cmfx_halt :=
  repeat
    (cbv beta zeta;
     first
       [ apply halting_bind; [|intros ?]
       | apply host_perform_halting
       | apply host_await_halting
       | apply halting_silent; intros ?; reflexivity
       | apply halting_try_raising; [|intros ? ?; eexists; reflexivity]
       | match goal with
         | |- halting _ _ (match ?x with _ => _ end) => destruct x
         end ]).

Section PlaywrightMethods.
Import Host.
Variable Machine : Type.
Variable step : forall X, call X -> Machine -> result X * Machine.
Variable builtin : string -> string -> exn.

Lemma self_page_locator_halting (locator : BSLocator) :
  halting host_is_poll (@host_trace Machine)
          (Cmfx.self_page_locator locator).
Proof. unfold Cmfx.self_page_locator. cmfx_halt. Qed.

Lemma self_page_halting (attribute : string) :
  halting host_is_poll (@host_trace Machine)
          (CmfxRest.self_page attribute).
Proof. unfold CmfxRest.self_page. cmfx_halt. Qed.

Lemma cmfx_wait_random_halting (a b : Q) :
  halting host_is_poll host_trace
          (CmfxMore.wait_random (host_tracing step) a b).
Proof. unfold CmfxMore.wait_random. cmfx_halt. Qed.

Lemma cmfx_quit_halting :
  halting host_is_poll host_trace (CmfxMore.quit (host_tracing step)).
Proof. unfold CmfxMore.quit, Cmfx.quit. cmfx_halt. Qed.

Lemma cmfx_wait_present_halting (locator : BSLocator) (timeout : Q) :
  halting host_is_poll host_trace
    (Cmfx.wait_element_to_be_present
       (CmfxMore.core_step (host_tracing step)) locator timeout).
Proof.
  unfold Cmfx.wait_element_to_be_present.
  apply halting_bind; [apply self_page_locator_halting|intros l].
  cmfx_halt.
Qed.

Lemma type_each_halting (l : Playwright.Locator) (a b : Q)
      (content : string) :
  halting host_is_poll host_trace
          (CmfxMore.type_each (host_tracing step) l a b content).
Proof.
  induction content as [|char rest IH]; cbn [CmfxMore.type_each].
  - cmfx_halt.
  - apply halting_bind; [cmfx_halt|intros _].
    apply halting_bind; [apply cmfx_wait_random_halting|intros _].
    exact IH.
Qed.

Lemma clear_input_halting (input_elem : Playwright.Locator) (timeout : Q) :
  halting host_is_poll host_trace
          (CmfxMore.clear_input (host_tracing step) input_elem timeout).
Proof.
  unfold CmfxMore.clear_input.
  apply halting_bind; [cmfx_halt|intros current].
  destruct (Py.truthy current); [|cmfx_halt].
  apply halting_bind; [cmfx_halt|intros _].
  apply halting_bind; [apply cmfx_wait_random_halting|intros _].
  cmfx_halt.
Qed.

Lemma human_send_keys_halting (locator : BSLocator) (content : string)
      (timeout : Q) :
  halting host_is_poll host_trace
          (CmfxMore.human_send_keys (host_tracing step) locator content
                                    timeout).
Proof.
  unfold CmfxMore.human_send_keys. cbv zeta.
  apply halting_bind; [apply self_page_locator_halting|intros l].
  apply halting_bind; [cmfx_halt|intros _].
  apply halting_bind; [apply clear_input_halting|intros _].
  apply type_each_halting.
Qed.

Lemma initialize_halting (cfg : CmfxMore.Settings) :
  halting host_is_poll host_trace
          (CmfxMore.initialize (host_tracing step) builtin cfg).
Proof.
  unfold CmfxMore.initialize, CmfxMore._get_platform_and_web_gl,
    CmfxMore._get_screen_resolution, CmfxMore._get_locale,
    CmfxMore.set_camoufox_instance, CmfxMore.set_browser,
    CmfxMore.set_page.
  cmfx_halt.
Qed.

Lemma cmfx_wait_visible_halting (locator : BSLocator) (timeout : Q) :
  halting host_is_poll host_trace
    (CmfxRest.wait_element_to_be_visible (host_tracing step) locator
                                         timeout).
Proof.
  unfold CmfxRest.wait_element_to_be_visible.
  apply halting_bind; [apply self_page_locator_halting|intros l].
  cmfx_halt.
Qed.

End PlaywrightMethods.

(** Follows a method of the Playwright wrapper, through the methods it
    calls. *)
Ltac cmfx_walk :=
  repeat
    (cbv beta zeta;
     first
       [ apply self_page_locator_halting
       | apply self_page_halting
       | apply cmfx_wait_random_halting
       | apply cmfx_quit_halting
       | apply cmfx_wait_present_halting
       | apply cmfx_wait_visible_halting
       | apply type_each_halting
       | apply clear_input_halting
       | apply human_send_keys_halting
       | apply initialize_halting
       | apply halting_bind; [|intros ?]
       | apply host_perform_halting
       | apply host_await_halting
       | apply halting_silent; intros ?; reflexivity
       | apply halting_try_raising; [|intros ? ?; eexists; reflexivity]
       | match goal with
         | |- halting _ _ (match ?x with _ => _ end) => destruct x
         end ]).

Section PlaywrightOperations.
Import Host.
Variable Machine : Type.
Variable step : forall X, call X -> Machine -> result X * Machine.
Variable builtin : string -> string -> exn.

Lemma cmfx_tidy_run {A}
      (m : M (CmfxMore.Session (Machine * list (entry event))) A) :
  tidy host_is_poll host_tag host_trace false m ->
  forall s,
  exists new,
    host_trace (snd (m s)) = (host_trace s ++ new)%list
    /\ ~ reissued host_is_poll new.
Proof.
  intros Hm s. destruct (Hm s) as (new & T & S & _).
  exists new. split; [exact T|]. now apply (settled_not_reissued _ _ _ _ S).
Qed.

Lemma cmfx_idle (s : CmfxMore.Session (Machine * list (entry event))) :
  exists new,
    host_trace s = (host_trace s ++ new)%list
    /\ ~ reissued host_is_poll new.
Proof.
  exists []. split; [now rewrite app_nil_r|].
  now apply (settled_not_reissued _ host_is_poll host_tag).
Qed.

(** No method of [BSCmfx] retries. *)
Lemma cmfx_no_retry (o : CmfxOps.operation)
      (s : CmfxMore.Session (Machine * list (entry event))) :
  exists new,
    host_trace (CmfxOps.run (host_tracing step) builtin o s)
    = (host_trace s ++ new)%list
    /\ ~ reissued host_is_poll new.
Proof.
  destruct o; cbn [CmfxOps.run].
  - (* __init__ *)
    apply cmfx_idle.
  - (* initialize *)
    apply cmfx_tidy_run. apply halting_tidy. cmfx_walk.
  - (* _get_locale *)
    apply cmfx_tidy_run. apply halting_tidy.
    unfold CmfxMore._get_locale. cmfx_walk.
  - (* _get_screen_resolution *)
    apply cmfx_tidy_run. apply halting_tidy.
    unfold CmfxMore._get_screen_resolution. cmfx_walk.
  - (* _get_platform_and_web_gl *)
    apply cmfx_tidy_run. apply halting_tidy.
    unfold CmfxMore._get_platform_and_web_gl. cmfx_walk.
  - (* get_pw_locator *)
    apply cmfx_idle.
  - (* navigate_to *)
    apply cmfx_tidy_run. apply halting_tidy.
    unfold CmfxRest.navigate_to. cmfx_walk.
  - (* save_screenshot *)
    apply cmfx_tidy_run. apply halting_tidy.
    unfold CmfxRest.save_screenshot. cmfx_walk.
  - (* wait_random *)
    apply cmfx_tidy_run. apply halting_tidy. cmfx_walk.
  - (* wait_static *)
    apply cmfx_tidy_run. apply halting_tidy.
    unfold Cmfx.wait_static. cmfx_walk.
  - (* wait_page_to_be_loaded *)
    apply cmfx_tidy_run. apply halting_tidy.
    unfold CmfxRest.wait_page_to_be_loaded. cmfx_walk.
  - (* is_element_present *)
    apply cmfx_tidy_run. unfold Cmfx.is_element_present.
    apply tidy_try_silent; [apply halting_tidy; cmfx_walk|].
    intros e s'. reflexivity.
  - (* is_element_visible *)
    apply cmfx_tidy_run. unfold Cmfx.is_element_visible.
    apply tidy_try_silent; [apply halting_tidy; cmfx_walk|].
    intros e s'. reflexivity.
  - (* wait_element_to_be_present *)
    apply cmfx_tidy_run. apply halting_tidy. cmfx_walk.
  - (* wait_element_to_be_visible *)
    apply cmfx_tidy_run. apply halting_tidy. cmfx_walk.
  - (* wait_element_to_be_invisible *)
    apply cmfx_tidy_run. apply halting_tidy.
    unfold CmfxRest.wait_element_to_be_invisible. cmfx_walk.
  - (* wait_element_to_be_enabled *)
    apply cmfx_tidy_run. apply halting_tidy.
    unfold CmfxRest.wait_element_to_be_enabled. cmfx_walk.
  - (* wait_element_to_have_text *)
    apply cmfx_tidy_run. apply halting_tidy.
    unfold CmfxRest.wait_element_to_have_text. cmfx_walk.
  - (* verify_attribute_contains *)
    apply cmfx_tidy_run. apply halting_tidy.
    unfold CmfxRest.verify_attribute_contains. cmfx_walk.
  - (* check_attribute_is_equals *)
    apply cmfx_tidy_run. apply halting_tidy.
    unfold Cmfx.check_attribute_is_equals, Cmfx.get_attribute_value.
    cmfx_walk.
  - (* get_attribute_value *)
    apply cmfx_tidy_run. apply halting_tidy.
    unfold Cmfx.get_attribute_value. cmfx_walk.
  - (* get_element_text *)
    apply cmfx_tidy_run. unfold Cmfx.get_element_text.
    apply tidy_try_silent; [apply halting_tidy; cmfx_walk|].
    intros e s'. now destruct raise_exception.
  - (* get_elements_text *)
    apply cmfx_tidy_run. unfold Cmfx.get_elements_text.
    apply tidy_caught_bind; [cmfx_walk|intros s'; reflexivity|].
    intros bound. cmfx_walk.
  - (* get_elements_count *)
    apply cmfx_tidy_run. unfold Cmfx.get_elements_count.
    apply tidy_bind; [cmfx_walk|intros pw_loc].
    apply tidy_try_silent; [apply halting_tidy; cmfx_walk|].
    intros e s'. reflexivity.
  - (* manual_click_element *)
    apply cmfx_tidy_run. apply halting_tidy.
    unfold CmfxMore.manual_click_element, CmfxMore.self_page_mouse.
    cmfx_walk.
  - (* click_element *)
    apply cmfx_tidy_run. apply halting_tidy.
    unfold Cmfx.click_element. cmfx_walk.
  - (* click_nth_element *)
    apply cmfx_tidy_run. apply halting_tidy.
    unfold Cmfx.click_nth_element. cmfx_walk.
  - (* click_element_by_partial_texts *)
    apply cmfx_tidy_run. unfold Cmfx.click_element_by_partial_texts.
    apply tidy_bind; [cmfx_walk|intros _].
    apply tidy_bind; [cmfx_walk|intros loc_to_click].
    apply tidy_try_silent; [apply halting_tidy; cmfx_walk|].
    intros e s'. reflexivity.
  - (* clear *)
    apply cmfx_tidy_run. apply halting_tidy.
    unfold CmfxMore.clear. cmfx_walk.
  - (* clear_input *)
    apply cmfx_tidy_run. apply halting_tidy. cmfx_walk.
  - (* human_send_keys_and_press_enter *)
    apply cmfx_tidy_run. apply halting_tidy.
    unfold CmfxMore.human_send_keys_and_press_enter, Cmfx.wait_static.
    cmfx_walk.
  - (* human_send_keys *)
    apply cmfx_tidy_run. apply halting_tidy. cmfx_walk.
  - (* clear_and_send_keys *)
    apply cmfx_tidy_run. apply halting_tidy.
    unfold CmfxMore.clear_and_send_keys, CmfxMore.clear. cmfx_walk.
  - (* mouse_wheel_scroll *)
    apply cmfx_tidy_run. apply halting_tidy.
    unfold CmfxRest.mouse_wheel_scroll. cmfx_walk.
  - (* scroll_into_view *)
    apply cmfx_tidy_run. apply halting_tidy.
    unfold CmfxRest.scroll_into_view. cmfx_walk.
  - (* get_current_url *)
    apply cmfx_tidy_run. apply halting_tidy.
    unfold CmfxRest.get_current_url. cmfx_walk.
  - (* quit *)
    apply cmfx_tidy_run. apply halting_tidy. cmfx_walk.
  - (* __aenter__ *)
    apply cmfx_tidy_run. apply halting_tidy.
    unfold CmfxMore.__aenter__. cmfx_walk.
  - (* __aexit__ *)
    apply cmfx_tidy_run. apply halting_tidy.
    unfold Cmfx.__aexit__. apply (cmfx_quit_halting _ step).
  - (* __del__ *)
    apply cmfx_tidy_run. unfold CmfxRest.__del__.
    apply tidy_bind; [cmfx_walk|intros me].
    destruct (Cmfx._camoufox_instance me); [|apply halting_tidy; cmfx_walk].
    apply tidy_try_silent; [apply halting_tidy; cmfx_walk|].
    intros e s'. reflexivity.
Qed.

End PlaywrightOperations.

(** ** Lookup and retry, over all methods *)

(** C8.  Element lookup with [retry] true performs, on a miss (the
    element is not found, or the list found is empty), exactly one more
    lookup, directly after the first, and returns or raises as that second
    lookup does; with [retry] false, and on a hit, it performs the one
    lookup only.  No other method of the two wrappers retries.  In the
    trace of a run of any method of [BSWebDriver] other than the two
    lookups with [retry] set, and of any method of [BSCmfx], no call that
    missed (it raised, or it found an empty list) is issued again, unless
    a wait has polled in between; and a wait polls only in
    [wait_page_to_be_loaded], [wait_element_class_to_contain] and
    [wait_attribute_to_contain] of [BSWebDriver], where [WebDriverWait]
    evaluates a condition of the wrapper's own again after each poll.
    The lookups with [retry] set do issue the missed call again.  The
    operations [get_text], [is_element_displayed] and [click_element]
    add at most one lookup each. *)
Theorem lookup_retry_spec :
  forall (Driver : Type)
         (step : forall X, Selenium.call X -> Driver -> result X * Driver)
         (locator : BSLocator) (s : WebDriver.Session Driver),
    let f := Selenium.driver_find_element (By_str (by_ locator))
                                          (value locator) in
    let fs := Selenium.driver_find_elements (By_str (by_ locator))
                                            (value locator) in
    let s1 := replied s f (snd (step _ f (WebDriver.driver s))) in
    let s1' := replied s fs (snd (step _ fs (WebDriver.driver s))) in
    (WebDriver.find_element step locator false s = WebDriver.invoke step f s
     /\ WebDriver.find_elements step locator false s
        = WebDriver.invoke step fs s)
    /\ (forall e,
           fst (step _ f (WebDriver.driver s)) = Ok e ->
           WebDriver.find_element step locator true s = (Ok e, s1))
    /\ (forall x,
           fst (step _ f (WebDriver.driver s)) = Err x ->
           isinstance x cls_NoSuchElementException = false ->
           WebDriver.find_element step locator true s = (Err x, s1))
    /\ (forall m,
           fst (step _ f (WebDriver.driver s))
           = Err (NoSuchElementException m) ->
           WebDriver.find_element step locator true s
           = (fst (step _ f (WebDriver.driver s1)),
              replied s1 f (snd (step _ f (WebDriver.driver s1))))
           /\ WebDriver.calls
                (snd (WebDriver.find_element step locator true s))
              = (WebDriver.calls s
                 ++ [Selenium.issued f; Selenium.issued f])%list)
    /\ (forall e els,
           fst (step _ fs (WebDriver.driver s)) = Ok (e :: els) ->
           WebDriver.find_elements step locator true s = (Ok (e :: els), s1'))
    /\ (fst (step _ fs (WebDriver.driver s)) = Ok [] ->
        WebDriver.find_elements step locator true s
        = (fst (step _ fs (WebDriver.driver s1')),
           replied s1' fs (snd (step _ fs (WebDriver.driver s1'))))
        /\ WebDriver.calls
             (snd (WebDriver.find_elements step locator true s))
           = (WebDriver.calls s
              ++ [Selenium.issued fs; Selenium.issued fs])%list)
    /\ (forall (raise_exception : bool) (timeout : Q),
           (lookups_by (WebDriver.get_text step locator raise_exception
                                           timeout) s <= 1)%nat
           /\ (lookups_by (WebDriver.is_element_displayed step locator
                                                          timeout) s
               <= 1)%nat
           /\ (lookups_by (WebDriver.click_element step locator) s
               <= 1)%nat)
    /\ (forall (Machine : Type)
               (mstep : forall X,
                   Browser.call X -> Machine -> result X * Machine)
               (builtin : string -> string -> exn) (rounds : nat)
               (st : WebDriverMore.Session
                       (Machine * list (entry Browser.event))),
           let m0 := fst (WebDriverMore.machine (WebDriver.driver st)) in
           (forall m,
               fst (mstep _ (Browser.selenium f) m0)
               = Err (NoSuchElementException m) ->
               exists new,
                 browser_trace
                   (WebDriverOps.run (browser_tracing mstep) builtin rounds
                      (WebDriverOps.find_element locator true) st)
                 = (browser_trace st ++ new)%list
                 /\ reissued browser_is_poll new)
           /\ (fst (mstep _ (Browser.selenium fs) m0) = Ok [] ->
               exists new,
                 browser_trace
                   (WebDriverOps.run (browser_tracing mstep) builtin rounds
                      (WebDriverOps.find_elements locator true) st)
                 = (browser_trace st ++ new)%list
                 /\ reissued browser_is_poll new))
    /\ (forall (Machine : Type)
               (mstep : forall X,
                   Browser.call X -> Machine -> result X * Machine)
               (builtin : string -> string -> exn) (rounds : nat)
               (o : WebDriverOps.operation)
               (st : WebDriverMore.Session
                       (Machine * list (entry Browser.event))),
         exists new,
           browser_trace
             (WebDriverOps.run (browser_tracing mstep) builtin rounds o st)
           = (browser_trace st ++ new)%list
           /\ (reissued browser_is_poll new ->
               WebDriverOps.retrying o = true)
           /\ (WebDriverOps.polling o = false ->
               polls browser_is_poll new = O))
    /\ (forall (Machine : Type)
               (mstep : forall X,
                   Host.call X -> Machine -> result X * Machine)
               (builtin : string -> string -> exn)
               (o : CmfxOps.operation)
               (st : CmfxMore.Session (Machine * list (entry Host.event))),
         exists new,
           host_trace (CmfxOps.run (host_tracing mstep) builtin o st)
           = (host_trace st ++ new)%list
           /\ ~ reissued host_is_poll new).
Proof.
  intros Driver step locator s f fs s1 s1'.
  split; [split|split; [|split; [|split; [|split; [|split;
    [|split; [|split; [|split]]]]]]]].
  - unfold WebDriver.find_element. apply find_element_at_no_retry.
  - unfold WebDriver.find_elements. apply find_elements_at_no_retry.
  - intros e He. rewrite find_element_run. cbv zeta. fold f.
    now rewrite He.
  - intros x Hx Hn. rewrite find_element_run. cbv zeta. fold f.
    now rewrite Hx, Hn.
  - intros m Hm.
    assert (E : WebDriver.find_element step locator true s
                = (fst (step _ f (WebDriver.driver s1)),
                   replied s1 f (snd (step _ f (WebDriver.driver s1))))).
    { rewrite find_element_run. cbv zeta. fold f. rewrite Hm.
      cbn [isinstance andb]. fold s1. apply invoke_run. }
    split; [exact E|]. rewrite E. unfold replied, s1, replied.
    cbn [snd WebDriver.calls]. now rewrite <- app_assoc.
  - intros e els He. rewrite find_elements_run. cbv zeta. fold fs.
    now rewrite He.
  - intros He.
    assert (E : WebDriver.find_elements step locator true s
                = (fst (step _ fs (WebDriver.driver s1')),
                   replied s1' fs (snd (step _ fs (WebDriver.driver s1'))))).
    { rewrite find_elements_run. cbv zeta. fold fs. rewrite He.
      fold s1'. apply invoke_run. }
    split; [exact E|]. rewrite E. unfold replied, s1', replied.
    cbn [snd WebDriver.calls]. now rewrite <- app_assoc.
  - intros raise_exception timeout. split; [|split].
    + apply get_text_one_lookup.
    + apply is_element_displayed_one_lookup.
    + apply click_element_one_lookup.
  - intros Machine mstep builtin rounds st m0. subst m0.
    destruct st as [[[m0 t] lg] calls].
    cbn [WebDriverOps.run WebDriver.driver WebDriverMore.machine fst].
    unfold WebDriver.find_element, WebDriver.find_elements.
    cbn [WebDriver.find_element_at WebDriver.find_elements_at].
    unfold WebDriver.invoke, WebDriverMore.core_step, browser_tracing,
      browser_trace, try_except, bind, ret, raise.
    cbn -[isinstance]. fold f. fold fs. split.
    + intros m.
      destruct (mstep _ (Browser.selenium f) m0) as [[v|e] m1];
        cbn [fst]; intros H; [discriminate H|]. injection H as ->.
      cbn -[browser_misses].
      destruct (mstep _ (Browser.selenium f) m1) as [[v|e] m2].
      * cbn. rewrite <- app_assoc. eexists. split; [reflexivity|].
        now exists [], (Browser.issued (Browser.selenium f)), [], false, [].
      * destruct e; cbn;
          rewrite <- app_assoc; (eexists; split; [reflexivity|]);
          now exists [], (Browser.issued (Browser.selenium f)), [], true,
            [].
    + destruct (mstep _ (Browser.selenium fs) m0) as [[v|e] m1];
        cbn [fst]; intros H; [|discriminate H]. injection H as ->.
      cbn -[browser_misses].
      destruct (mstep _ (Browser.selenium fs) m1) as [[v|e] m2].
      * destruct v; cbn; rewrite <- app_assoc;
          (eexists; split; [reflexivity|]).
        -- now exists [], (Browser.issued (Browser.selenium fs)), [], true,
             [].
        -- now exists [], (Browser.issued (Browser.selenium fs)), [], false,
             [].
      * cbn. rewrite <- app_assoc. eexists. split; [reflexivity|].
        now exists [], (Browser.issued (Browser.selenium fs)), [], true, [].
  - intros Machine mstep builtin rounds o st. apply webdriver_no_retry.
  - intros Machine mstep builtin o st. apply cmfx_no_retry.
Qed.

Lemma lookup_retry_spec_witness :
  WebDriver.find_element (ScriptedDriver.step ScriptedDriver.late)
                         (Locator.id "main") true ScriptedDriver.session
  = (Ok 0%nat,
     WebDriver.mkSession 2%nat
       [Selenium.issued (Selenium.driver_find_element "id" "main");
        Selenium.issued (Selenium.driver_find_element "id" "main")])
  /\ WebDriver.find_elements (ScriptedDriver.step ScriptedDriver.never)
                             (Locator.css "li") true ScriptedDriver.session
     = (Ok [],
        WebDriver.mkSession 2%nat
          [Selenium.issued (Selenium.driver_find_elements "css selector" "li");
           Selenium.issued
             (Selenium.driver_find_elements "css selector" "li")])
  /\ (exists new,
         browser_trace
           (WebDriverOps.run
              (browser_tracing (Kiosk.step ScriptedDriver.late []))
              Desk.builtin 2
              (WebDriverOps.find_element (Locator.id "main") true)
              (WebDriver.mkSession (WebDriverMore.mkWorld (0%nat, []) [])
                                   []))
         = ([] ++ new)%list
         /\ reissued browser_is_poll new).
Proof.
  split; [|split].
  - exact (proj1 (proj1 (proj2 (proj2 (proj2
             (lookup_retry_spec _ (ScriptedDriver.step ScriptedDriver.late)
                (Locator.id "main") ScriptedDriver.session))))
             "no such element" eq_refl)).
  - exact (proj1 (proj1 (proj2 (proj2 (proj2 (proj2 (proj2
             (lookup_retry_spec _ (ScriptedDriver.step ScriptedDriver.never)
                (Locator.css "li") ScriptedDriver.session))))))
             eq_refl)).
  - exact (proj1 (proj1 (proj2 (proj2 (proj2 (proj2 (proj2 (proj2 (proj2
             (lookup_retry_spec _ (ScriptedDriver.step ScriptedDriver.late)
                (Locator.id "main") ScriptedDriver.session))))))))
             nat (Kiosk.step ScriptedDriver.late []) Desk.builtin 2%nat
             (WebDriver.mkSession (WebDriverMore.mkWorld (0%nat, []) [])
                                  []))
             "no such element" eq_refl).
Defined.
